(** * DD-Studio: the session controller of [AppContent]

    A shallow embedding of the state logic of the top-level React
    component [AppContent] and of the types of [types.ts]: preset
    selections with the ["none"] sentinel, the generation pipelines and
    their error slots, the bounded generation history and the
    auto-analysis effect. Line numbers are those of
    [src/components/PresetSelector.tsx], which holds the component from
    its line 349 on; the types are in [src/unnamed/part_000].

    Conventions of the embedding.
    - Every [useState] hook that a modelled handler reads or writes is
      a field of [AppState]; [setX v] is the setter of field [X].
    - A handler is a function of the state its closure captured (the
      values it reads) and yields an [Async]: the updates it enqueues
      before its single [await], the external call it awaits, and the
      updates it enqueues once that call has settled.
    - The preset tables of [constants.ts] are not part of the sources at
      hand; they are taken as a parameter, the record [Constants].
    - Where JavaScript would put [undefined] into a typed selection
      ([TABLE[0]] on an empty table, [find(...)!] without a match) the
      embedding returns [None]. *)

From Stdlib Require Import Strings.Ascii.
From stdpp Require Import base option list strings gmap relations.

Open Scope string_scope.
Open Scope list_scope.

(** ** types.ts *)

(** [React.ReactNode]: the controller never looks inside an icon. *)
Inductive ReactNode := IconNode (component : string).

(** The browser [File] object, opaque to the controller. *)
Inductive File := FileRef (fileName : string).

(** [<T extends { id: string }>]: what the toggle handler needs of a
    preset. *)
Class Identified (T : Type) := id : T → string.

Record Preset := {
  preset_id : string;
  name : string;
  description : string;
  icon : ReactNode
}.

#[export] Instance Preset_id : Identified Preset := preset_id.

Definition IllustrationStylePreset := Preset.

Record CameraPreset := {
  camera_preset : Preset;
  camera_metadata : string
}.

#[export] Instance CameraPreset_id : Identified CameraPreset :=
  λ p, preset_id (camera_preset p).

Record LightingPreset := {
  lighting_preset : Preset;
  lighting_metadata : string
}.

#[export] Instance LightingPreset_id : Identified LightingPreset :=
  λ p, preset_id (lighting_preset p).

Definition MockupPreset := Preset.
Definition ManipulationPreset := Preset.
Definition PeopleRetouchPreset := Preset.
Definition RetouchPreset := Preset.

Inductive AspectRatio := Ratio4x5 | Ratio16x9.

Record ExportSettings := {
  aspectRatio : AspectRatio;
  transparent : bool
}.

Record ImageFile := {
  file : File;
  base64 : string;
  mimeType : string
}.

(** [{ base64: string; mimeType: string }], the shape of every result. *)
Record GeneratedImage := {
  generated_base64 : string;
  generated_mimeType : string
}.

Record GenerationParams := {
  cameraPresets : list CameraPreset;
  lightingPresets : list LightingPreset;
  mockupPreset : option MockupPreset;
  manipulationPresets : list ManipulationPreset;
  peopleRetouchPresets : list PeopleRetouchPreset;
  retouchPresets : list RetouchPreset;
  exportSettings : ExportSettings;
  params_customPrompt : string
}.

Inductive AppMode := DesignKit | CreativeStudio.
Inductive CreativeMode := Illustrate | Retouch.
Inductive RetouchSubMode := Smart | Environment.

Inductive LightDirection := DirAuto | DirLeft | DirRight | DirTop | DirBack.
Inductive WbAndGrade :=
  | GradeAuto | GradeNeutral | GradeFilmic | GradeCinematic
  | GradeWarmInterior | GradeCoolNight | GradeMonochrome | GradeCrossProcess.

Record RetouchOptions := {
  smoothness : Z;
  lightBalance : Z;
  correctSkinTones : bool;
  sharpen : bool;
  removeBlemishes : bool;
  backgroundBlur : Z;
  hdrEffect : Z;
  vintageFade : Z;
  glossySkin : bool;
  environmentHarmony : bool;
  lightDirection : LightDirection;
  keyFillRatio : Z;
  shadowSoftness : Z;
  wbAndGrade : WbAndGrade;
  artistCommand : string
}.

Inductive UpscaleTarget := Hd | FourK.

Record HistoryItem := {
  item_id : string;
  generated : GeneratedImage;
  source : ImageFile;
  prompt : string;
  mode : AppMode;
  creativeSubMode : option CreativeMode
}.

Record PromptSuggestion := {
  title : string;
  suggestion_prompt : string
}.

Inductive StyleVariety := VarietyNormal | VarietyWide.

(** [Record<string, string[]>]: the suggestion map of the analysis. *)
Abbreviation SuggestionMap := (gmap string (list string)).

(** ** constants.ts, as a parameter *)

Record Constants := {
  CAMERA_PRESETS : list CameraPreset;
  LIGHTING_PRESETS : list LightingPreset;
  MOCKUP_PRESETS : list MockupPreset;
  MANIPULATION_PRESETS : list ManipulationPreset;
  PEOPLE_RETOUCH_PRESETS : list PeopleRetouchPreset;
  RETOUCH_PRESETS : list RetouchPreset;
  ENVIRONMENT_PRESETS : list string;
  ILLUSTRATION_STYLE_PRESETS : list IllustrationStylePreset
}.

(** ** Preset selections *)

Section Toggle.
Context {T : Type} `{Identified T}.

(** [presets.find(p => p.id === 'none')]. *)
Definition findNone (presets : list T) : option T :=
  snd <$> list_find (λ p, id p = "none") presets.

(** Lines 501-515. The state update of
    [createToggleHandler(setter, presets)(preset)], applied to the
    previous selection [prev]. [nonePreset] is only looked at on the two
    paths that return [[nonePreset]]. *)
Definition createToggleHandler (presets : list T) (preset : T)
    (prev : list T) : option (list T) :=
  let isSelected := bool_decide (Exists (λ p, id p = id preset) prev) in
  let nonePreset := findNone presets in
  if bool_decide (id preset = "none") then (λ n, [n]) <$> nonePreset
  else if isSelected then
    if bool_decide (length prev = 1) then (λ n, [n]) <$> nonePreset
    else Some (filter (λ p, id p ≠ id preset) prev)
  else Some (filter (λ p, id p ≠ "none") prev ++ [preset]).

End Toggle.

(** Lines 522-524. The state update of [handleMockupSelect]:
    [current[0]?.id === preset.id ? [MOCKUP_PRESETS[0]] : [preset]]. *)
Definition handleMockupSelect (K : Constants) (preset : MockupPreset)
    (current : list MockupPreset) : option (list MockupPreset) :=
  if bool_decide (id <$> current !! 0 = Some (id preset))
  then (λ d, [d]) <$> MOCKUP_PRESETS K !! 0
  else Some [preset].

(** ** The state of [AppContent]

    One field per [useState] hook that the handlers below read or write,
    in the order of the source. [null] is [None]; [isUpscaling], of type
    [false | UpscaleTarget], is [None] for [false]. *)

Record AppState := {
  appMode : AppMode;
  isOnline : bool;
  productImage : option ImageFile;
  referenceImage : option ImageFile;
  generatedImage : option GeneratedImage;
  selectedCameras : list CameraPreset;
  selectedLightings : list LightingPreset;
  selectedMockups : list MockupPreset;
  selectedManipulations : list ManipulationPreset;
  selectedPeopleRetouches : list PeopleRetouchPreset;
  selectedRetouches : list RetouchPreset;
  dkExportSettings : ExportSettings;
  customPrompt : string;
  useMagicComposite : bool;
  isLoading : bool;
  isAnalyzing : bool;
  suggestedPresetIds : SuggestionMap;
  error : option string;
  isGeneratingDKPrompt : bool;
  suggestedDKPrompts : option (list PromptSuggestion);
  isDKPromptModalOpen : bool;
  creativeMode : CreativeMode;
  isGeneratingCreative : bool;
  creativeError : option string;
  illustrationImage : option ImageFile;
  illustrationReferenceImage : option ImageFile;
  illustrationCustomPrompt : string;
  illustrationResultImage : option GeneratedImage;
  isGeneratingIllustration : bool;
  selectedIllustrationStyle : IllustrationStylePreset;
  illustrationDetailFidelity : Z;
  useIllustrationStylePreset : bool;
  generationStatusText : string;
  isVectorizing : bool;
  isIllustrationDownloadMenuOpen : bool;
  suggestedCreativePrompts : option (list PromptSuggestion);
  isCreativePromptModalOpen : bool;
  isGeneratingPrompt : bool;
  personImage : option ImageFile;
  retouchResultImage : option GeneratedImage;
  retouchSubMode : RetouchSubMode;
  retouchOptions : RetouchOptions;
  selectedEnvironment : string;
  generatedRetouchPrompts : option (list string);
  isGeneratingRetouchPrompts : bool;
  promptStyleVariety : StyleVariety;
  syncPromptWithEnv : bool;
  generationHistory : list HistoryItem;
  isUpscaling : option UpscaleTarget;
  upscaleError : option string;
  isUpscaleMenuOpen : bool
}.

(** The setters. [setX v s] is the state after [setX(v)]: field [X]
    holds [v], every other field is as in [s]. *)

Definition setAppMode (v : AppMode) (s : AppState) : AppState :=
  Build_AppState v (isOnline s) (productImage s) (referenceImage s)
    (generatedImage s) (selectedCameras s) (selectedLightings s)
    (selectedMockups s) (selectedManipulations s) (selectedPeopleRetouches
    s) (selectedRetouches s) (dkExportSettings s) (customPrompt s)
    (useMagicComposite s) (isLoading s) (isAnalyzing s) (suggestedPresetIds
    s) (error s) (isGeneratingDKPrompt s) (suggestedDKPrompts s)
    (isDKPromptModalOpen s) (creativeMode s) (isGeneratingCreative s)
    (creativeError s) (illustrationImage s) (illustrationReferenceImage s)
    (illustrationCustomPrompt s) (illustrationResultImage s)
    (isGeneratingIllustration s) (selectedIllustrationStyle s)
    (illustrationDetailFidelity s) (useIllustrationStylePreset s)
    (generationStatusText s) (isVectorizing s)
    (isIllustrationDownloadMenuOpen s) (suggestedCreativePrompts s)
    (isCreativePromptModalOpen s) (isGeneratingPrompt s) (personImage s)
    (retouchResultImage s) (retouchSubMode s) (retouchOptions s)
    (selectedEnvironment s) (generatedRetouchPrompts s)
    (isGeneratingRetouchPrompts s) (promptStyleVariety s) (syncPromptWithEnv
    s) (generationHistory s) (isUpscaling s) (upscaleError s)
    (isUpscaleMenuOpen s).

Definition setIsOnline (v : bool) (s : AppState) : AppState :=
  Build_AppState (appMode s) v (productImage s) (referenceImage s)
    (generatedImage s) (selectedCameras s) (selectedLightings s)
    (selectedMockups s) (selectedManipulations s) (selectedPeopleRetouches
    s) (selectedRetouches s) (dkExportSettings s) (customPrompt s)
    (useMagicComposite s) (isLoading s) (isAnalyzing s) (suggestedPresetIds
    s) (error s) (isGeneratingDKPrompt s) (suggestedDKPrompts s)
    (isDKPromptModalOpen s) (creativeMode s) (isGeneratingCreative s)
    (creativeError s) (illustrationImage s) (illustrationReferenceImage s)
    (illustrationCustomPrompt s) (illustrationResultImage s)
    (isGeneratingIllustration s) (selectedIllustrationStyle s)
    (illustrationDetailFidelity s) (useIllustrationStylePreset s)
    (generationStatusText s) (isVectorizing s)
    (isIllustrationDownloadMenuOpen s) (suggestedCreativePrompts s)
    (isCreativePromptModalOpen s) (isGeneratingPrompt s) (personImage s)
    (retouchResultImage s) (retouchSubMode s) (retouchOptions s)
    (selectedEnvironment s) (generatedRetouchPrompts s)
    (isGeneratingRetouchPrompts s) (promptStyleVariety s) (syncPromptWithEnv
    s) (generationHistory s) (isUpscaling s) (upscaleError s)
    (isUpscaleMenuOpen s).

Definition setProductImage (v : option ImageFile) (s : AppState) : AppState :=
  Build_AppState (appMode s) (isOnline s) v (referenceImage s)
    (generatedImage s) (selectedCameras s) (selectedLightings s)
    (selectedMockups s) (selectedManipulations s) (selectedPeopleRetouches
    s) (selectedRetouches s) (dkExportSettings s) (customPrompt s)
    (useMagicComposite s) (isLoading s) (isAnalyzing s) (suggestedPresetIds
    s) (error s) (isGeneratingDKPrompt s) (suggestedDKPrompts s)
    (isDKPromptModalOpen s) (creativeMode s) (isGeneratingCreative s)
    (creativeError s) (illustrationImage s) (illustrationReferenceImage s)
    (illustrationCustomPrompt s) (illustrationResultImage s)
    (isGeneratingIllustration s) (selectedIllustrationStyle s)
    (illustrationDetailFidelity s) (useIllustrationStylePreset s)
    (generationStatusText s) (isVectorizing s)
    (isIllustrationDownloadMenuOpen s) (suggestedCreativePrompts s)
    (isCreativePromptModalOpen s) (isGeneratingPrompt s) (personImage s)
    (retouchResultImage s) (retouchSubMode s) (retouchOptions s)
    (selectedEnvironment s) (generatedRetouchPrompts s)
    (isGeneratingRetouchPrompts s) (promptStyleVariety s) (syncPromptWithEnv
    s) (generationHistory s) (isUpscaling s) (upscaleError s)
    (isUpscaleMenuOpen s).

Definition setReferenceImage (v : option ImageFile) (s : AppState) : AppState :=
  Build_AppState (appMode s) (isOnline s) (productImage s) v (generatedImage
    s) (selectedCameras s) (selectedLightings s) (selectedMockups s)
    (selectedManipulations s) (selectedPeopleRetouches s) (selectedRetouches
    s) (dkExportSettings s) (customPrompt s) (useMagicComposite s)
    (isLoading s) (isAnalyzing s) (suggestedPresetIds s) (error s)
    (isGeneratingDKPrompt s) (suggestedDKPrompts s) (isDKPromptModalOpen s)
    (creativeMode s) (isGeneratingCreative s) (creativeError s)
    (illustrationImage s) (illustrationReferenceImage s)
    (illustrationCustomPrompt s) (illustrationResultImage s)
    (isGeneratingIllustration s) (selectedIllustrationStyle s)
    (illustrationDetailFidelity s) (useIllustrationStylePreset s)
    (generationStatusText s) (isVectorizing s)
    (isIllustrationDownloadMenuOpen s) (suggestedCreativePrompts s)
    (isCreativePromptModalOpen s) (isGeneratingPrompt s) (personImage s)
    (retouchResultImage s) (retouchSubMode s) (retouchOptions s)
    (selectedEnvironment s) (generatedRetouchPrompts s)
    (isGeneratingRetouchPrompts s) (promptStyleVariety s) (syncPromptWithEnv
    s) (generationHistory s) (isUpscaling s) (upscaleError s)
    (isUpscaleMenuOpen s).

Definition setGeneratedImage (v : option GeneratedImage) (s : AppState) : AppState :=
  Build_AppState (appMode s) (isOnline s) (productImage s) (referenceImage
    s) v (selectedCameras s) (selectedLightings s) (selectedMockups s)
    (selectedManipulations s) (selectedPeopleRetouches s) (selectedRetouches
    s) (dkExportSettings s) (customPrompt s) (useMagicComposite s)
    (isLoading s) (isAnalyzing s) (suggestedPresetIds s) (error s)
    (isGeneratingDKPrompt s) (suggestedDKPrompts s) (isDKPromptModalOpen s)
    (creativeMode s) (isGeneratingCreative s) (creativeError s)
    (illustrationImage s) (illustrationReferenceImage s)
    (illustrationCustomPrompt s) (illustrationResultImage s)
    (isGeneratingIllustration s) (selectedIllustrationStyle s)
    (illustrationDetailFidelity s) (useIllustrationStylePreset s)
    (generationStatusText s) (isVectorizing s)
    (isIllustrationDownloadMenuOpen s) (suggestedCreativePrompts s)
    (isCreativePromptModalOpen s) (isGeneratingPrompt s) (personImage s)
    (retouchResultImage s) (retouchSubMode s) (retouchOptions s)
    (selectedEnvironment s) (generatedRetouchPrompts s)
    (isGeneratingRetouchPrompts s) (promptStyleVariety s) (syncPromptWithEnv
    s) (generationHistory s) (isUpscaling s) (upscaleError s)
    (isUpscaleMenuOpen s).

Definition setSelectedCameras (v : list CameraPreset) (s : AppState) : AppState :=
  Build_AppState (appMode s) (isOnline s) (productImage s) (referenceImage
    s) (generatedImage s) v (selectedLightings s) (selectedMockups s)
    (selectedManipulations s) (selectedPeopleRetouches s) (selectedRetouches
    s) (dkExportSettings s) (customPrompt s) (useMagicComposite s)
    (isLoading s) (isAnalyzing s) (suggestedPresetIds s) (error s)
    (isGeneratingDKPrompt s) (suggestedDKPrompts s) (isDKPromptModalOpen s)
    (creativeMode s) (isGeneratingCreative s) (creativeError s)
    (illustrationImage s) (illustrationReferenceImage s)
    (illustrationCustomPrompt s) (illustrationResultImage s)
    (isGeneratingIllustration s) (selectedIllustrationStyle s)
    (illustrationDetailFidelity s) (useIllustrationStylePreset s)
    (generationStatusText s) (isVectorizing s)
    (isIllustrationDownloadMenuOpen s) (suggestedCreativePrompts s)
    (isCreativePromptModalOpen s) (isGeneratingPrompt s) (personImage s)
    (retouchResultImage s) (retouchSubMode s) (retouchOptions s)
    (selectedEnvironment s) (generatedRetouchPrompts s)
    (isGeneratingRetouchPrompts s) (promptStyleVariety s) (syncPromptWithEnv
    s) (generationHistory s) (isUpscaling s) (upscaleError s)
    (isUpscaleMenuOpen s).

Definition setSelectedLightings (v : list LightingPreset) (s : AppState) : AppState :=
  Build_AppState (appMode s) (isOnline s) (productImage s) (referenceImage
    s) (generatedImage s) (selectedCameras s) v (selectedMockups s)
    (selectedManipulations s) (selectedPeopleRetouches s) (selectedRetouches
    s) (dkExportSettings s) (customPrompt s) (useMagicComposite s)
    (isLoading s) (isAnalyzing s) (suggestedPresetIds s) (error s)
    (isGeneratingDKPrompt s) (suggestedDKPrompts s) (isDKPromptModalOpen s)
    (creativeMode s) (isGeneratingCreative s) (creativeError s)
    (illustrationImage s) (illustrationReferenceImage s)
    (illustrationCustomPrompt s) (illustrationResultImage s)
    (isGeneratingIllustration s) (selectedIllustrationStyle s)
    (illustrationDetailFidelity s) (useIllustrationStylePreset s)
    (generationStatusText s) (isVectorizing s)
    (isIllustrationDownloadMenuOpen s) (suggestedCreativePrompts s)
    (isCreativePromptModalOpen s) (isGeneratingPrompt s) (personImage s)
    (retouchResultImage s) (retouchSubMode s) (retouchOptions s)
    (selectedEnvironment s) (generatedRetouchPrompts s)
    (isGeneratingRetouchPrompts s) (promptStyleVariety s) (syncPromptWithEnv
    s) (generationHistory s) (isUpscaling s) (upscaleError s)
    (isUpscaleMenuOpen s).

Definition setSelectedMockups (v : list MockupPreset) (s : AppState) : AppState :=
  Build_AppState (appMode s) (isOnline s) (productImage s) (referenceImage
    s) (generatedImage s) (selectedCameras s) (selectedLightings s) v
    (selectedManipulations s) (selectedPeopleRetouches s) (selectedRetouches
    s) (dkExportSettings s) (customPrompt s) (useMagicComposite s)
    (isLoading s) (isAnalyzing s) (suggestedPresetIds s) (error s)
    (isGeneratingDKPrompt s) (suggestedDKPrompts s) (isDKPromptModalOpen s)
    (creativeMode s) (isGeneratingCreative s) (creativeError s)
    (illustrationImage s) (illustrationReferenceImage s)
    (illustrationCustomPrompt s) (illustrationResultImage s)
    (isGeneratingIllustration s) (selectedIllustrationStyle s)
    (illustrationDetailFidelity s) (useIllustrationStylePreset s)
    (generationStatusText s) (isVectorizing s)
    (isIllustrationDownloadMenuOpen s) (suggestedCreativePrompts s)
    (isCreativePromptModalOpen s) (isGeneratingPrompt s) (personImage s)
    (retouchResultImage s) (retouchSubMode s) (retouchOptions s)
    (selectedEnvironment s) (generatedRetouchPrompts s)
    (isGeneratingRetouchPrompts s) (promptStyleVariety s) (syncPromptWithEnv
    s) (generationHistory s) (isUpscaling s) (upscaleError s)
    (isUpscaleMenuOpen s).

Definition setSelectedManipulations (v : list ManipulationPreset) (s : AppState) : AppState :=
  Build_AppState (appMode s) (isOnline s) (productImage s) (referenceImage
    s) (generatedImage s) (selectedCameras s) (selectedLightings s)
    (selectedMockups s) v (selectedPeopleRetouches s) (selectedRetouches s)
    (dkExportSettings s) (customPrompt s) (useMagicComposite s) (isLoading
    s) (isAnalyzing s) (suggestedPresetIds s) (error s)
    (isGeneratingDKPrompt s) (suggestedDKPrompts s) (isDKPromptModalOpen s)
    (creativeMode s) (isGeneratingCreative s) (creativeError s)
    (illustrationImage s) (illustrationReferenceImage s)
    (illustrationCustomPrompt s) (illustrationResultImage s)
    (isGeneratingIllustration s) (selectedIllustrationStyle s)
    (illustrationDetailFidelity s) (useIllustrationStylePreset s)
    (generationStatusText s) (isVectorizing s)
    (isIllustrationDownloadMenuOpen s) (suggestedCreativePrompts s)
    (isCreativePromptModalOpen s) (isGeneratingPrompt s) (personImage s)
    (retouchResultImage s) (retouchSubMode s) (retouchOptions s)
    (selectedEnvironment s) (generatedRetouchPrompts s)
    (isGeneratingRetouchPrompts s) (promptStyleVariety s) (syncPromptWithEnv
    s) (generationHistory s) (isUpscaling s) (upscaleError s)
    (isUpscaleMenuOpen s).

Definition setSelectedPeopleRetouches (v : list PeopleRetouchPreset) (s : AppState) : AppState :=
  Build_AppState (appMode s) (isOnline s) (productImage s) (referenceImage
    s) (generatedImage s) (selectedCameras s) (selectedLightings s)
    (selectedMockups s) (selectedManipulations s) v (selectedRetouches s)
    (dkExportSettings s) (customPrompt s) (useMagicComposite s) (isLoading
    s) (isAnalyzing s) (suggestedPresetIds s) (error s)
    (isGeneratingDKPrompt s) (suggestedDKPrompts s) (isDKPromptModalOpen s)
    (creativeMode s) (isGeneratingCreative s) (creativeError s)
    (illustrationImage s) (illustrationReferenceImage s)
    (illustrationCustomPrompt s) (illustrationResultImage s)
    (isGeneratingIllustration s) (selectedIllustrationStyle s)
    (illustrationDetailFidelity s) (useIllustrationStylePreset s)
    (generationStatusText s) (isVectorizing s)
    (isIllustrationDownloadMenuOpen s) (suggestedCreativePrompts s)
    (isCreativePromptModalOpen s) (isGeneratingPrompt s) (personImage s)
    (retouchResultImage s) (retouchSubMode s) (retouchOptions s)
    (selectedEnvironment s) (generatedRetouchPrompts s)
    (isGeneratingRetouchPrompts s) (promptStyleVariety s) (syncPromptWithEnv
    s) (generationHistory s) (isUpscaling s) (upscaleError s)
    (isUpscaleMenuOpen s).

Definition setSelectedRetouches (v : list RetouchPreset) (s : AppState) : AppState :=
  Build_AppState (appMode s) (isOnline s) (productImage s) (referenceImage
    s) (generatedImage s) (selectedCameras s) (selectedLightings s)
    (selectedMockups s) (selectedManipulations s) (selectedPeopleRetouches
    s) v (dkExportSettings s) (customPrompt s) (useMagicComposite s)
    (isLoading s) (isAnalyzing s) (suggestedPresetIds s) (error s)
    (isGeneratingDKPrompt s) (suggestedDKPrompts s) (isDKPromptModalOpen s)
    (creativeMode s) (isGeneratingCreative s) (creativeError s)
    (illustrationImage s) (illustrationReferenceImage s)
    (illustrationCustomPrompt s) (illustrationResultImage s)
    (isGeneratingIllustration s) (selectedIllustrationStyle s)
    (illustrationDetailFidelity s) (useIllustrationStylePreset s)
    (generationStatusText s) (isVectorizing s)
    (isIllustrationDownloadMenuOpen s) (suggestedCreativePrompts s)
    (isCreativePromptModalOpen s) (isGeneratingPrompt s) (personImage s)
    (retouchResultImage s) (retouchSubMode s) (retouchOptions s)
    (selectedEnvironment s) (generatedRetouchPrompts s)
    (isGeneratingRetouchPrompts s) (promptStyleVariety s) (syncPromptWithEnv
    s) (generationHistory s) (isUpscaling s) (upscaleError s)
    (isUpscaleMenuOpen s).

Definition setCustomPrompt (v : string) (s : AppState) : AppState :=
  Build_AppState (appMode s) (isOnline s) (productImage s) (referenceImage
    s) (generatedImage s) (selectedCameras s) (selectedLightings s)
    (selectedMockups s) (selectedManipulations s) (selectedPeopleRetouches
    s) (selectedRetouches s) (dkExportSettings s) v (useMagicComposite s)
    (isLoading s) (isAnalyzing s) (suggestedPresetIds s) (error s)
    (isGeneratingDKPrompt s) (suggestedDKPrompts s) (isDKPromptModalOpen s)
    (creativeMode s) (isGeneratingCreative s) (creativeError s)
    (illustrationImage s) (illustrationReferenceImage s)
    (illustrationCustomPrompt s) (illustrationResultImage s)
    (isGeneratingIllustration s) (selectedIllustrationStyle s)
    (illustrationDetailFidelity s) (useIllustrationStylePreset s)
    (generationStatusText s) (isVectorizing s)
    (isIllustrationDownloadMenuOpen s) (suggestedCreativePrompts s)
    (isCreativePromptModalOpen s) (isGeneratingPrompt s) (personImage s)
    (retouchResultImage s) (retouchSubMode s) (retouchOptions s)
    (selectedEnvironment s) (generatedRetouchPrompts s)
    (isGeneratingRetouchPrompts s) (promptStyleVariety s) (syncPromptWithEnv
    s) (generationHistory s) (isUpscaling s) (upscaleError s)
    (isUpscaleMenuOpen s).

Definition setUseMagicComposite (v : bool) (s : AppState) : AppState :=
  Build_AppState (appMode s) (isOnline s) (productImage s) (referenceImage
    s) (generatedImage s) (selectedCameras s) (selectedLightings s)
    (selectedMockups s) (selectedManipulations s) (selectedPeopleRetouches
    s) (selectedRetouches s) (dkExportSettings s) (customPrompt s) v
    (isLoading s) (isAnalyzing s) (suggestedPresetIds s) (error s)
    (isGeneratingDKPrompt s) (suggestedDKPrompts s) (isDKPromptModalOpen s)
    (creativeMode s) (isGeneratingCreative s) (creativeError s)
    (illustrationImage s) (illustrationReferenceImage s)
    (illustrationCustomPrompt s) (illustrationResultImage s)
    (isGeneratingIllustration s) (selectedIllustrationStyle s)
    (illustrationDetailFidelity s) (useIllustrationStylePreset s)
    (generationStatusText s) (isVectorizing s)
    (isIllustrationDownloadMenuOpen s) (suggestedCreativePrompts s)
    (isCreativePromptModalOpen s) (isGeneratingPrompt s) (personImage s)
    (retouchResultImage s) (retouchSubMode s) (retouchOptions s)
    (selectedEnvironment s) (generatedRetouchPrompts s)
    (isGeneratingRetouchPrompts s) (promptStyleVariety s) (syncPromptWithEnv
    s) (generationHistory s) (isUpscaling s) (upscaleError s)
    (isUpscaleMenuOpen s).

Definition setIsLoading (v : bool) (s : AppState) : AppState :=
  Build_AppState (appMode s) (isOnline s) (productImage s) (referenceImage
    s) (generatedImage s) (selectedCameras s) (selectedLightings s)
    (selectedMockups s) (selectedManipulations s) (selectedPeopleRetouches
    s) (selectedRetouches s) (dkExportSettings s) (customPrompt s)
    (useMagicComposite s) v (isAnalyzing s) (suggestedPresetIds s) (error s)
    (isGeneratingDKPrompt s) (suggestedDKPrompts s) (isDKPromptModalOpen s)
    (creativeMode s) (isGeneratingCreative s) (creativeError s)
    (illustrationImage s) (illustrationReferenceImage s)
    (illustrationCustomPrompt s) (illustrationResultImage s)
    (isGeneratingIllustration s) (selectedIllustrationStyle s)
    (illustrationDetailFidelity s) (useIllustrationStylePreset s)
    (generationStatusText s) (isVectorizing s)
    (isIllustrationDownloadMenuOpen s) (suggestedCreativePrompts s)
    (isCreativePromptModalOpen s) (isGeneratingPrompt s) (personImage s)
    (retouchResultImage s) (retouchSubMode s) (retouchOptions s)
    (selectedEnvironment s) (generatedRetouchPrompts s)
    (isGeneratingRetouchPrompts s) (promptStyleVariety s) (syncPromptWithEnv
    s) (generationHistory s) (isUpscaling s) (upscaleError s)
    (isUpscaleMenuOpen s).

Definition setIsAnalyzing (v : bool) (s : AppState) : AppState :=
  Build_AppState (appMode s) (isOnline s) (productImage s) (referenceImage
    s) (generatedImage s) (selectedCameras s) (selectedLightings s)
    (selectedMockups s) (selectedManipulations s) (selectedPeopleRetouches
    s) (selectedRetouches s) (dkExportSettings s) (customPrompt s)
    (useMagicComposite s) (isLoading s) v (suggestedPresetIds s) (error s)
    (isGeneratingDKPrompt s) (suggestedDKPrompts s) (isDKPromptModalOpen s)
    (creativeMode s) (isGeneratingCreative s) (creativeError s)
    (illustrationImage s) (illustrationReferenceImage s)
    (illustrationCustomPrompt s) (illustrationResultImage s)
    (isGeneratingIllustration s) (selectedIllustrationStyle s)
    (illustrationDetailFidelity s) (useIllustrationStylePreset s)
    (generationStatusText s) (isVectorizing s)
    (isIllustrationDownloadMenuOpen s) (suggestedCreativePrompts s)
    (isCreativePromptModalOpen s) (isGeneratingPrompt s) (personImage s)
    (retouchResultImage s) (retouchSubMode s) (retouchOptions s)
    (selectedEnvironment s) (generatedRetouchPrompts s)
    (isGeneratingRetouchPrompts s) (promptStyleVariety s) (syncPromptWithEnv
    s) (generationHistory s) (isUpscaling s) (upscaleError s)
    (isUpscaleMenuOpen s).

Definition setSuggestedPresetIds (v : SuggestionMap) (s : AppState) : AppState :=
  Build_AppState (appMode s) (isOnline s) (productImage s) (referenceImage
    s) (generatedImage s) (selectedCameras s) (selectedLightings s)
    (selectedMockups s) (selectedManipulations s) (selectedPeopleRetouches
    s) (selectedRetouches s) (dkExportSettings s) (customPrompt s)
    (useMagicComposite s) (isLoading s) (isAnalyzing s) v (error s)
    (isGeneratingDKPrompt s) (suggestedDKPrompts s) (isDKPromptModalOpen s)
    (creativeMode s) (isGeneratingCreative s) (creativeError s)
    (illustrationImage s) (illustrationReferenceImage s)
    (illustrationCustomPrompt s) (illustrationResultImage s)
    (isGeneratingIllustration s) (selectedIllustrationStyle s)
    (illustrationDetailFidelity s) (useIllustrationStylePreset s)
    (generationStatusText s) (isVectorizing s)
    (isIllustrationDownloadMenuOpen s) (suggestedCreativePrompts s)
    (isCreativePromptModalOpen s) (isGeneratingPrompt s) (personImage s)
    (retouchResultImage s) (retouchSubMode s) (retouchOptions s)
    (selectedEnvironment s) (generatedRetouchPrompts s)
    (isGeneratingRetouchPrompts s) (promptStyleVariety s) (syncPromptWithEnv
    s) (generationHistory s) (isUpscaling s) (upscaleError s)
    (isUpscaleMenuOpen s).

Definition setError (v : option string) (s : AppState) : AppState :=
  Build_AppState (appMode s) (isOnline s) (productImage s) (referenceImage
    s) (generatedImage s) (selectedCameras s) (selectedLightings s)
    (selectedMockups s) (selectedManipulations s) (selectedPeopleRetouches
    s) (selectedRetouches s) (dkExportSettings s) (customPrompt s)
    (useMagicComposite s) (isLoading s) (isAnalyzing s) (suggestedPresetIds
    s) v (isGeneratingDKPrompt s) (suggestedDKPrompts s)
    (isDKPromptModalOpen s) (creativeMode s) (isGeneratingCreative s)
    (creativeError s) (illustrationImage s) (illustrationReferenceImage s)
    (illustrationCustomPrompt s) (illustrationResultImage s)
    (isGeneratingIllustration s) (selectedIllustrationStyle s)
    (illustrationDetailFidelity s) (useIllustrationStylePreset s)
    (generationStatusText s) (isVectorizing s)
    (isIllustrationDownloadMenuOpen s) (suggestedCreativePrompts s)
    (isCreativePromptModalOpen s) (isGeneratingPrompt s) (personImage s)
    (retouchResultImage s) (retouchSubMode s) (retouchOptions s)
    (selectedEnvironment s) (generatedRetouchPrompts s)
    (isGeneratingRetouchPrompts s) (promptStyleVariety s) (syncPromptWithEnv
    s) (generationHistory s) (isUpscaling s) (upscaleError s)
    (isUpscaleMenuOpen s).

Definition setIsGeneratingDKPrompt (v : bool) (s : AppState) : AppState :=
  Build_AppState (appMode s) (isOnline s) (productImage s) (referenceImage
    s) (generatedImage s) (selectedCameras s) (selectedLightings s)
    (selectedMockups s) (selectedManipulations s) (selectedPeopleRetouches
    s) (selectedRetouches s) (dkExportSettings s) (customPrompt s)
    (useMagicComposite s) (isLoading s) (isAnalyzing s) (suggestedPresetIds
    s) (error s) v (suggestedDKPrompts s) (isDKPromptModalOpen s)
    (creativeMode s) (isGeneratingCreative s) (creativeError s)
    (illustrationImage s) (illustrationReferenceImage s)
    (illustrationCustomPrompt s) (illustrationResultImage s)
    (isGeneratingIllustration s) (selectedIllustrationStyle s)
    (illustrationDetailFidelity s) (useIllustrationStylePreset s)
    (generationStatusText s) (isVectorizing s)
    (isIllustrationDownloadMenuOpen s) (suggestedCreativePrompts s)
    (isCreativePromptModalOpen s) (isGeneratingPrompt s) (personImage s)
    (retouchResultImage s) (retouchSubMode s) (retouchOptions s)
    (selectedEnvironment s) (generatedRetouchPrompts s)
    (isGeneratingRetouchPrompts s) (promptStyleVariety s) (syncPromptWithEnv
    s) (generationHistory s) (isUpscaling s) (upscaleError s)
    (isUpscaleMenuOpen s).

Definition setSuggestedDKPrompts (v : option (list PromptSuggestion)) (s : AppState) : AppState :=
  Build_AppState (appMode s) (isOnline s) (productImage s) (referenceImage
    s) (generatedImage s) (selectedCameras s) (selectedLightings s)
    (selectedMockups s) (selectedManipulations s) (selectedPeopleRetouches
    s) (selectedRetouches s) (dkExportSettings s) (customPrompt s)
    (useMagicComposite s) (isLoading s) (isAnalyzing s) (suggestedPresetIds
    s) (error s) (isGeneratingDKPrompt s) v (isDKPromptModalOpen s)
    (creativeMode s) (isGeneratingCreative s) (creativeError s)
    (illustrationImage s) (illustrationReferenceImage s)
    (illustrationCustomPrompt s) (illustrationResultImage s)
    (isGeneratingIllustration s) (selectedIllustrationStyle s)
    (illustrationDetailFidelity s) (useIllustrationStylePreset s)
    (generationStatusText s) (isVectorizing s)
    (isIllustrationDownloadMenuOpen s) (suggestedCreativePrompts s)
    (isCreativePromptModalOpen s) (isGeneratingPrompt s) (personImage s)
    (retouchResultImage s) (retouchSubMode s) (retouchOptions s)
    (selectedEnvironment s) (generatedRetouchPrompts s)
    (isGeneratingRetouchPrompts s) (promptStyleVariety s) (syncPromptWithEnv
    s) (generationHistory s) (isUpscaling s) (upscaleError s)
    (isUpscaleMenuOpen s).

Definition setIsDKPromptModalOpen (v : bool) (s : AppState) : AppState :=
  Build_AppState (appMode s) (isOnline s) (productImage s) (referenceImage
    s) (generatedImage s) (selectedCameras s) (selectedLightings s)
    (selectedMockups s) (selectedManipulations s) (selectedPeopleRetouches
    s) (selectedRetouches s) (dkExportSettings s) (customPrompt s)
    (useMagicComposite s) (isLoading s) (isAnalyzing s) (suggestedPresetIds
    s) (error s) (isGeneratingDKPrompt s) (suggestedDKPrompts s) v
    (creativeMode s) (isGeneratingCreative s) (creativeError s)
    (illustrationImage s) (illustrationReferenceImage s)
    (illustrationCustomPrompt s) (illustrationResultImage s)
    (isGeneratingIllustration s) (selectedIllustrationStyle s)
    (illustrationDetailFidelity s) (useIllustrationStylePreset s)
    (generationStatusText s) (isVectorizing s)
    (isIllustrationDownloadMenuOpen s) (suggestedCreativePrompts s)
    (isCreativePromptModalOpen s) (isGeneratingPrompt s) (personImage s)
    (retouchResultImage s) (retouchSubMode s) (retouchOptions s)
    (selectedEnvironment s) (generatedRetouchPrompts s)
    (isGeneratingRetouchPrompts s) (promptStyleVariety s) (syncPromptWithEnv
    s) (generationHistory s) (isUpscaling s) (upscaleError s)
    (isUpscaleMenuOpen s).

Definition setCreativeMode (v : CreativeMode) (s : AppState) : AppState :=
  Build_AppState (appMode s) (isOnline s) (productImage s) (referenceImage
    s) (generatedImage s) (selectedCameras s) (selectedLightings s)
    (selectedMockups s) (selectedManipulations s) (selectedPeopleRetouches
    s) (selectedRetouches s) (dkExportSettings s) (customPrompt s)
    (useMagicComposite s) (isLoading s) (isAnalyzing s) (suggestedPresetIds
    s) (error s) (isGeneratingDKPrompt s) (suggestedDKPrompts s)
    (isDKPromptModalOpen s) v (isGeneratingCreative s) (creativeError s)
    (illustrationImage s) (illustrationReferenceImage s)
    (illustrationCustomPrompt s) (illustrationResultImage s)
    (isGeneratingIllustration s) (selectedIllustrationStyle s)
    (illustrationDetailFidelity s) (useIllustrationStylePreset s)
    (generationStatusText s) (isVectorizing s)
    (isIllustrationDownloadMenuOpen s) (suggestedCreativePrompts s)
    (isCreativePromptModalOpen s) (isGeneratingPrompt s) (personImage s)
    (retouchResultImage s) (retouchSubMode s) (retouchOptions s)
    (selectedEnvironment s) (generatedRetouchPrompts s)
    (isGeneratingRetouchPrompts s) (promptStyleVariety s) (syncPromptWithEnv
    s) (generationHistory s) (isUpscaling s) (upscaleError s)
    (isUpscaleMenuOpen s).

Definition setIsGeneratingCreative (v : bool) (s : AppState) : AppState :=
  Build_AppState (appMode s) (isOnline s) (productImage s) (referenceImage
    s) (generatedImage s) (selectedCameras s) (selectedLightings s)
    (selectedMockups s) (selectedManipulations s) (selectedPeopleRetouches
    s) (selectedRetouches s) (dkExportSettings s) (customPrompt s)
    (useMagicComposite s) (isLoading s) (isAnalyzing s) (suggestedPresetIds
    s) (error s) (isGeneratingDKPrompt s) (suggestedDKPrompts s)
    (isDKPromptModalOpen s) (creativeMode s) v (creativeError s)
    (illustrationImage s) (illustrationReferenceImage s)
    (illustrationCustomPrompt s) (illustrationResultImage s)
    (isGeneratingIllustration s) (selectedIllustrationStyle s)
    (illustrationDetailFidelity s) (useIllustrationStylePreset s)
    (generationStatusText s) (isVectorizing s)
    (isIllustrationDownloadMenuOpen s) (suggestedCreativePrompts s)
    (isCreativePromptModalOpen s) (isGeneratingPrompt s) (personImage s)
    (retouchResultImage s) (retouchSubMode s) (retouchOptions s)
    (selectedEnvironment s) (generatedRetouchPrompts s)
    (isGeneratingRetouchPrompts s) (promptStyleVariety s) (syncPromptWithEnv
    s) (generationHistory s) (isUpscaling s) (upscaleError s)
    (isUpscaleMenuOpen s).

Definition setCreativeError (v : option string) (s : AppState) : AppState :=
  Build_AppState (appMode s) (isOnline s) (productImage s) (referenceImage
    s) (generatedImage s) (selectedCameras s) (selectedLightings s)
    (selectedMockups s) (selectedManipulations s) (selectedPeopleRetouches
    s) (selectedRetouches s) (dkExportSettings s) (customPrompt s)
    (useMagicComposite s) (isLoading s) (isAnalyzing s) (suggestedPresetIds
    s) (error s) (isGeneratingDKPrompt s) (suggestedDKPrompts s)
    (isDKPromptModalOpen s) (creativeMode s) (isGeneratingCreative s) v
    (illustrationImage s) (illustrationReferenceImage s)
    (illustrationCustomPrompt s) (illustrationResultImage s)
    (isGeneratingIllustration s) (selectedIllustrationStyle s)
    (illustrationDetailFidelity s) (useIllustrationStylePreset s)
    (generationStatusText s) (isVectorizing s)
    (isIllustrationDownloadMenuOpen s) (suggestedCreativePrompts s)
    (isCreativePromptModalOpen s) (isGeneratingPrompt s) (personImage s)
    (retouchResultImage s) (retouchSubMode s) (retouchOptions s)
    (selectedEnvironment s) (generatedRetouchPrompts s)
    (isGeneratingRetouchPrompts s) (promptStyleVariety s) (syncPromptWithEnv
    s) (generationHistory s) (isUpscaling s) (upscaleError s)
    (isUpscaleMenuOpen s).

Definition setIllustrationImage (v : option ImageFile) (s : AppState) : AppState :=
  Build_AppState (appMode s) (isOnline s) (productImage s) (referenceImage
    s) (generatedImage s) (selectedCameras s) (selectedLightings s)
    (selectedMockups s) (selectedManipulations s) (selectedPeopleRetouches
    s) (selectedRetouches s) (dkExportSettings s) (customPrompt s)
    (useMagicComposite s) (isLoading s) (isAnalyzing s) (suggestedPresetIds
    s) (error s) (isGeneratingDKPrompt s) (suggestedDKPrompts s)
    (isDKPromptModalOpen s) (creativeMode s) (isGeneratingCreative s)
    (creativeError s) v (illustrationReferenceImage s)
    (illustrationCustomPrompt s) (illustrationResultImage s)
    (isGeneratingIllustration s) (selectedIllustrationStyle s)
    (illustrationDetailFidelity s) (useIllustrationStylePreset s)
    (generationStatusText s) (isVectorizing s)
    (isIllustrationDownloadMenuOpen s) (suggestedCreativePrompts s)
    (isCreativePromptModalOpen s) (isGeneratingPrompt s) (personImage s)
    (retouchResultImage s) (retouchSubMode s) (retouchOptions s)
    (selectedEnvironment s) (generatedRetouchPrompts s)
    (isGeneratingRetouchPrompts s) (promptStyleVariety s) (syncPromptWithEnv
    s) (generationHistory s) (isUpscaling s) (upscaleError s)
    (isUpscaleMenuOpen s).

Definition setIllustrationCustomPrompt (v : string) (s : AppState) : AppState :=
  Build_AppState (appMode s) (isOnline s) (productImage s) (referenceImage
    s) (generatedImage s) (selectedCameras s) (selectedLightings s)
    (selectedMockups s) (selectedManipulations s) (selectedPeopleRetouches
    s) (selectedRetouches s) (dkExportSettings s) (customPrompt s)
    (useMagicComposite s) (isLoading s) (isAnalyzing s) (suggestedPresetIds
    s) (error s) (isGeneratingDKPrompt s) (suggestedDKPrompts s)
    (isDKPromptModalOpen s) (creativeMode s) (isGeneratingCreative s)
    (creativeError s) (illustrationImage s) (illustrationReferenceImage s) v
    (illustrationResultImage s) (isGeneratingIllustration s)
    (selectedIllustrationStyle s) (illustrationDetailFidelity s)
    (useIllustrationStylePreset s) (generationStatusText s) (isVectorizing
    s) (isIllustrationDownloadMenuOpen s) (suggestedCreativePrompts s)
    (isCreativePromptModalOpen s) (isGeneratingPrompt s) (personImage s)
    (retouchResultImage s) (retouchSubMode s) (retouchOptions s)
    (selectedEnvironment s) (generatedRetouchPrompts s)
    (isGeneratingRetouchPrompts s) (promptStyleVariety s) (syncPromptWithEnv
    s) (generationHistory s) (isUpscaling s) (upscaleError s)
    (isUpscaleMenuOpen s).

Definition setIllustrationResultImage (v : option GeneratedImage) (s : AppState) : AppState :=
  Build_AppState (appMode s) (isOnline s) (productImage s) (referenceImage
    s) (generatedImage s) (selectedCameras s) (selectedLightings s)
    (selectedMockups s) (selectedManipulations s) (selectedPeopleRetouches
    s) (selectedRetouches s) (dkExportSettings s) (customPrompt s)
    (useMagicComposite s) (isLoading s) (isAnalyzing s) (suggestedPresetIds
    s) (error s) (isGeneratingDKPrompt s) (suggestedDKPrompts s)
    (isDKPromptModalOpen s) (creativeMode s) (isGeneratingCreative s)
    (creativeError s) (illustrationImage s) (illustrationReferenceImage s)
    (illustrationCustomPrompt s) v (isGeneratingIllustration s)
    (selectedIllustrationStyle s) (illustrationDetailFidelity s)
    (useIllustrationStylePreset s) (generationStatusText s) (isVectorizing
    s) (isIllustrationDownloadMenuOpen s) (suggestedCreativePrompts s)
    (isCreativePromptModalOpen s) (isGeneratingPrompt s) (personImage s)
    (retouchResultImage s) (retouchSubMode s) (retouchOptions s)
    (selectedEnvironment s) (generatedRetouchPrompts s)
    (isGeneratingRetouchPrompts s) (promptStyleVariety s) (syncPromptWithEnv
    s) (generationHistory s) (isUpscaling s) (upscaleError s)
    (isUpscaleMenuOpen s).

Definition setIsGeneratingIllustration (v : bool) (s : AppState) : AppState :=
  Build_AppState (appMode s) (isOnline s) (productImage s) (referenceImage
    s) (generatedImage s) (selectedCameras s) (selectedLightings s)
    (selectedMockups s) (selectedManipulations s) (selectedPeopleRetouches
    s) (selectedRetouches s) (dkExportSettings s) (customPrompt s)
    (useMagicComposite s) (isLoading s) (isAnalyzing s) (suggestedPresetIds
    s) (error s) (isGeneratingDKPrompt s) (suggestedDKPrompts s)
    (isDKPromptModalOpen s) (creativeMode s) (isGeneratingCreative s)
    (creativeError s) (illustrationImage s) (illustrationReferenceImage s)
    (illustrationCustomPrompt s) (illustrationResultImage s) v
    (selectedIllustrationStyle s) (illustrationDetailFidelity s)
    (useIllustrationStylePreset s) (generationStatusText s) (isVectorizing
    s) (isIllustrationDownloadMenuOpen s) (suggestedCreativePrompts s)
    (isCreativePromptModalOpen s) (isGeneratingPrompt s) (personImage s)
    (retouchResultImage s) (retouchSubMode s) (retouchOptions s)
    (selectedEnvironment s) (generatedRetouchPrompts s)
    (isGeneratingRetouchPrompts s) (promptStyleVariety s) (syncPromptWithEnv
    s) (generationHistory s) (isUpscaling s) (upscaleError s)
    (isUpscaleMenuOpen s).

Definition setGenerationStatusText (v : string) (s : AppState) : AppState :=
  Build_AppState (appMode s) (isOnline s) (productImage s) (referenceImage
    s) (generatedImage s) (selectedCameras s) (selectedLightings s)
    (selectedMockups s) (selectedManipulations s) (selectedPeopleRetouches
    s) (selectedRetouches s) (dkExportSettings s) (customPrompt s)
    (useMagicComposite s) (isLoading s) (isAnalyzing s) (suggestedPresetIds
    s) (error s) (isGeneratingDKPrompt s) (suggestedDKPrompts s)
    (isDKPromptModalOpen s) (creativeMode s) (isGeneratingCreative s)
    (creativeError s) (illustrationImage s) (illustrationReferenceImage s)
    (illustrationCustomPrompt s) (illustrationResultImage s)
    (isGeneratingIllustration s) (selectedIllustrationStyle s)
    (illustrationDetailFidelity s) (useIllustrationStylePreset s) v
    (isVectorizing s) (isIllustrationDownloadMenuOpen s)
    (suggestedCreativePrompts s) (isCreativePromptModalOpen s)
    (isGeneratingPrompt s) (personImage s) (retouchResultImage s)
    (retouchSubMode s) (retouchOptions s) (selectedEnvironment s)
    (generatedRetouchPrompts s) (isGeneratingRetouchPrompts s)
    (promptStyleVariety s) (syncPromptWithEnv s) (generationHistory s)
    (isUpscaling s) (upscaleError s) (isUpscaleMenuOpen s).

Definition setIsVectorizing (v : bool) (s : AppState) : AppState :=
  Build_AppState (appMode s) (isOnline s) (productImage s) (referenceImage
    s) (generatedImage s) (selectedCameras s) (selectedLightings s)
    (selectedMockups s) (selectedManipulations s) (selectedPeopleRetouches
    s) (selectedRetouches s) (dkExportSettings s) (customPrompt s)
    (useMagicComposite s) (isLoading s) (isAnalyzing s) (suggestedPresetIds
    s) (error s) (isGeneratingDKPrompt s) (suggestedDKPrompts s)
    (isDKPromptModalOpen s) (creativeMode s) (isGeneratingCreative s)
    (creativeError s) (illustrationImage s) (illustrationReferenceImage s)
    (illustrationCustomPrompt s) (illustrationResultImage s)
    (isGeneratingIllustration s) (selectedIllustrationStyle s)
    (illustrationDetailFidelity s) (useIllustrationStylePreset s)
    (generationStatusText s) v (isIllustrationDownloadMenuOpen s)
    (suggestedCreativePrompts s) (isCreativePromptModalOpen s)
    (isGeneratingPrompt s) (personImage s) (retouchResultImage s)
    (retouchSubMode s) (retouchOptions s) (selectedEnvironment s)
    (generatedRetouchPrompts s) (isGeneratingRetouchPrompts s)
    (promptStyleVariety s) (syncPromptWithEnv s) (generationHistory s)
    (isUpscaling s) (upscaleError s) (isUpscaleMenuOpen s).

Definition setIsIllustrationDownloadMenuOpen (v : bool) (s : AppState) : AppState :=
  Build_AppState (appMode s) (isOnline s) (productImage s) (referenceImage
    s) (generatedImage s) (selectedCameras s) (selectedLightings s)
    (selectedMockups s) (selectedManipulations s) (selectedPeopleRetouches
    s) (selectedRetouches s) (dkExportSettings s) (customPrompt s)
    (useMagicComposite s) (isLoading s) (isAnalyzing s) (suggestedPresetIds
    s) (error s) (isGeneratingDKPrompt s) (suggestedDKPrompts s)
    (isDKPromptModalOpen s) (creativeMode s) (isGeneratingCreative s)
    (creativeError s) (illustrationImage s) (illustrationReferenceImage s)
    (illustrationCustomPrompt s) (illustrationResultImage s)
    (isGeneratingIllustration s) (selectedIllustrationStyle s)
    (illustrationDetailFidelity s) (useIllustrationStylePreset s)
    (generationStatusText s) (isVectorizing s) v (suggestedCreativePrompts
    s) (isCreativePromptModalOpen s) (isGeneratingPrompt s) (personImage s)
    (retouchResultImage s) (retouchSubMode s) (retouchOptions s)
    (selectedEnvironment s) (generatedRetouchPrompts s)
    (isGeneratingRetouchPrompts s) (promptStyleVariety s) (syncPromptWithEnv
    s) (generationHistory s) (isUpscaling s) (upscaleError s)
    (isUpscaleMenuOpen s).

Definition setSuggestedCreativePrompts (v : option (list PromptSuggestion)) (s : AppState) : AppState :=
  Build_AppState (appMode s) (isOnline s) (productImage s) (referenceImage
    s) (generatedImage s) (selectedCameras s) (selectedLightings s)
    (selectedMockups s) (selectedManipulations s) (selectedPeopleRetouches
    s) (selectedRetouches s) (dkExportSettings s) (customPrompt s)
    (useMagicComposite s) (isLoading s) (isAnalyzing s) (suggestedPresetIds
    s) (error s) (isGeneratingDKPrompt s) (suggestedDKPrompts s)
    (isDKPromptModalOpen s) (creativeMode s) (isGeneratingCreative s)
    (creativeError s) (illustrationImage s) (illustrationReferenceImage s)
    (illustrationCustomPrompt s) (illustrationResultImage s)
    (isGeneratingIllustration s) (selectedIllustrationStyle s)
    (illustrationDetailFidelity s) (useIllustrationStylePreset s)
    (generationStatusText s) (isVectorizing s)
    (isIllustrationDownloadMenuOpen s) v (isCreativePromptModalOpen s)
    (isGeneratingPrompt s) (personImage s) (retouchResultImage s)
    (retouchSubMode s) (retouchOptions s) (selectedEnvironment s)
    (generatedRetouchPrompts s) (isGeneratingRetouchPrompts s)
    (promptStyleVariety s) (syncPromptWithEnv s) (generationHistory s)
    (isUpscaling s) (upscaleError s) (isUpscaleMenuOpen s).

Definition setIsCreativePromptModalOpen (v : bool) (s : AppState) : AppState :=
  Build_AppState (appMode s) (isOnline s) (productImage s) (referenceImage
    s) (generatedImage s) (selectedCameras s) (selectedLightings s)
    (selectedMockups s) (selectedManipulations s) (selectedPeopleRetouches
    s) (selectedRetouches s) (dkExportSettings s) (customPrompt s)
    (useMagicComposite s) (isLoading s) (isAnalyzing s) (suggestedPresetIds
    s) (error s) (isGeneratingDKPrompt s) (suggestedDKPrompts s)
    (isDKPromptModalOpen s) (creativeMode s) (isGeneratingCreative s)
    (creativeError s) (illustrationImage s) (illustrationReferenceImage s)
    (illustrationCustomPrompt s) (illustrationResultImage s)
    (isGeneratingIllustration s) (selectedIllustrationStyle s)
    (illustrationDetailFidelity s) (useIllustrationStylePreset s)
    (generationStatusText s) (isVectorizing s)
    (isIllustrationDownloadMenuOpen s) (suggestedCreativePrompts s) v
    (isGeneratingPrompt s) (personImage s) (retouchResultImage s)
    (retouchSubMode s) (retouchOptions s) (selectedEnvironment s)
    (generatedRetouchPrompts s) (isGeneratingRetouchPrompts s)
    (promptStyleVariety s) (syncPromptWithEnv s) (generationHistory s)
    (isUpscaling s) (upscaleError s) (isUpscaleMenuOpen s).

Definition setIsGeneratingPrompt (v : bool) (s : AppState) : AppState :=
  Build_AppState (appMode s) (isOnline s) (productImage s) (referenceImage
    s) (generatedImage s) (selectedCameras s) (selectedLightings s)
    (selectedMockups s) (selectedManipulations s) (selectedPeopleRetouches
    s) (selectedRetouches s) (dkExportSettings s) (customPrompt s)
    (useMagicComposite s) (isLoading s) (isAnalyzing s) (suggestedPresetIds
    s) (error s) (isGeneratingDKPrompt s) (suggestedDKPrompts s)
    (isDKPromptModalOpen s) (creativeMode s) (isGeneratingCreative s)
    (creativeError s) (illustrationImage s) (illustrationReferenceImage s)
    (illustrationCustomPrompt s) (illustrationResultImage s)
    (isGeneratingIllustration s) (selectedIllustrationStyle s)
    (illustrationDetailFidelity s) (useIllustrationStylePreset s)
    (generationStatusText s) (isVectorizing s)
    (isIllustrationDownloadMenuOpen s) (suggestedCreativePrompts s)
    (isCreativePromptModalOpen s) v (personImage s) (retouchResultImage s)
    (retouchSubMode s) (retouchOptions s) (selectedEnvironment s)
    (generatedRetouchPrompts s) (isGeneratingRetouchPrompts s)
    (promptStyleVariety s) (syncPromptWithEnv s) (generationHistory s)
    (isUpscaling s) (upscaleError s) (isUpscaleMenuOpen s).

Definition setPersonImage (v : option ImageFile) (s : AppState) : AppState :=
  Build_AppState (appMode s) (isOnline s) (productImage s) (referenceImage
    s) (generatedImage s) (selectedCameras s) (selectedLightings s)
    (selectedMockups s) (selectedManipulations s) (selectedPeopleRetouches
    s) (selectedRetouches s) (dkExportSettings s) (customPrompt s)
    (useMagicComposite s) (isLoading s) (isAnalyzing s) (suggestedPresetIds
    s) (error s) (isGeneratingDKPrompt s) (suggestedDKPrompts s)
    (isDKPromptModalOpen s) (creativeMode s) (isGeneratingCreative s)
    (creativeError s) (illustrationImage s) (illustrationReferenceImage s)
    (illustrationCustomPrompt s) (illustrationResultImage s)
    (isGeneratingIllustration s) (selectedIllustrationStyle s)
    (illustrationDetailFidelity s) (useIllustrationStylePreset s)
    (generationStatusText s) (isVectorizing s)
    (isIllustrationDownloadMenuOpen s) (suggestedCreativePrompts s)
    (isCreativePromptModalOpen s) (isGeneratingPrompt s) v
    (retouchResultImage s) (retouchSubMode s) (retouchOptions s)
    (selectedEnvironment s) (generatedRetouchPrompts s)
    (isGeneratingRetouchPrompts s) (promptStyleVariety s) (syncPromptWithEnv
    s) (generationHistory s) (isUpscaling s) (upscaleError s)
    (isUpscaleMenuOpen s).

Definition setRetouchResultImage (v : option GeneratedImage) (s : AppState) : AppState :=
  Build_AppState (appMode s) (isOnline s) (productImage s) (referenceImage
    s) (generatedImage s) (selectedCameras s) (selectedLightings s)
    (selectedMockups s) (selectedManipulations s) (selectedPeopleRetouches
    s) (selectedRetouches s) (dkExportSettings s) (customPrompt s)
    (useMagicComposite s) (isLoading s) (isAnalyzing s) (suggestedPresetIds
    s) (error s) (isGeneratingDKPrompt s) (suggestedDKPrompts s)
    (isDKPromptModalOpen s) (creativeMode s) (isGeneratingCreative s)
    (creativeError s) (illustrationImage s) (illustrationReferenceImage s)
    (illustrationCustomPrompt s) (illustrationResultImage s)
    (isGeneratingIllustration s) (selectedIllustrationStyle s)
    (illustrationDetailFidelity s) (useIllustrationStylePreset s)
    (generationStatusText s) (isVectorizing s)
    (isIllustrationDownloadMenuOpen s) (suggestedCreativePrompts s)
    (isCreativePromptModalOpen s) (isGeneratingPrompt s) (personImage s) v
    (retouchSubMode s) (retouchOptions s) (selectedEnvironment s)
    (generatedRetouchPrompts s) (isGeneratingRetouchPrompts s)
    (promptStyleVariety s) (syncPromptWithEnv s) (generationHistory s)
    (isUpscaling s) (upscaleError s) (isUpscaleMenuOpen s).

Definition setGeneratedRetouchPrompts (v : option (list string)) (s : AppState) : AppState :=
  Build_AppState (appMode s) (isOnline s) (productImage s) (referenceImage
    s) (generatedImage s) (selectedCameras s) (selectedLightings s)
    (selectedMockups s) (selectedManipulations s) (selectedPeopleRetouches
    s) (selectedRetouches s) (dkExportSettings s) (customPrompt s)
    (useMagicComposite s) (isLoading s) (isAnalyzing s) (suggestedPresetIds
    s) (error s) (isGeneratingDKPrompt s) (suggestedDKPrompts s)
    (isDKPromptModalOpen s) (creativeMode s) (isGeneratingCreative s)
    (creativeError s) (illustrationImage s) (illustrationReferenceImage s)
    (illustrationCustomPrompt s) (illustrationResultImage s)
    (isGeneratingIllustration s) (selectedIllustrationStyle s)
    (illustrationDetailFidelity s) (useIllustrationStylePreset s)
    (generationStatusText s) (isVectorizing s)
    (isIllustrationDownloadMenuOpen s) (suggestedCreativePrompts s)
    (isCreativePromptModalOpen s) (isGeneratingPrompt s) (personImage s)
    (retouchResultImage s) (retouchSubMode s) (retouchOptions s)
    (selectedEnvironment s) v (isGeneratingRetouchPrompts s)
    (promptStyleVariety s) (syncPromptWithEnv s) (generationHistory s)
    (isUpscaling s) (upscaleError s) (isUpscaleMenuOpen s).

Definition setIsGeneratingRetouchPrompts (v : bool) (s : AppState) : AppState :=
  Build_AppState (appMode s) (isOnline s) (productImage s) (referenceImage
    s) (generatedImage s) (selectedCameras s) (selectedLightings s)
    (selectedMockups s) (selectedManipulations s) (selectedPeopleRetouches
    s) (selectedRetouches s) (dkExportSettings s) (customPrompt s)
    (useMagicComposite s) (isLoading s) (isAnalyzing s) (suggestedPresetIds
    s) (error s) (isGeneratingDKPrompt s) (suggestedDKPrompts s)
    (isDKPromptModalOpen s) (creativeMode s) (isGeneratingCreative s)
    (creativeError s) (illustrationImage s) (illustrationReferenceImage s)
    (illustrationCustomPrompt s) (illustrationResultImage s)
    (isGeneratingIllustration s) (selectedIllustrationStyle s)
    (illustrationDetailFidelity s) (useIllustrationStylePreset s)
    (generationStatusText s) (isVectorizing s)
    (isIllustrationDownloadMenuOpen s) (suggestedCreativePrompts s)
    (isCreativePromptModalOpen s) (isGeneratingPrompt s) (personImage s)
    (retouchResultImage s) (retouchSubMode s) (retouchOptions s)
    (selectedEnvironment s) (generatedRetouchPrompts s) v
    (promptStyleVariety s) (syncPromptWithEnv s) (generationHistory s)
    (isUpscaling s) (upscaleError s) (isUpscaleMenuOpen s).

Definition setGenerationHistory (v : list HistoryItem) (s : AppState) : AppState :=
  Build_AppState (appMode s) (isOnline s) (productImage s) (referenceImage
    s) (generatedImage s) (selectedCameras s) (selectedLightings s)
    (selectedMockups s) (selectedManipulations s) (selectedPeopleRetouches
    s) (selectedRetouches s) (dkExportSettings s) (customPrompt s)
    (useMagicComposite s) (isLoading s) (isAnalyzing s) (suggestedPresetIds
    s) (error s) (isGeneratingDKPrompt s) (suggestedDKPrompts s)
    (isDKPromptModalOpen s) (creativeMode s) (isGeneratingCreative s)
    (creativeError s) (illustrationImage s) (illustrationReferenceImage s)
    (illustrationCustomPrompt s) (illustrationResultImage s)
    (isGeneratingIllustration s) (selectedIllustrationStyle s)
    (illustrationDetailFidelity s) (useIllustrationStylePreset s)
    (generationStatusText s) (isVectorizing s)
    (isIllustrationDownloadMenuOpen s) (suggestedCreativePrompts s)
    (isCreativePromptModalOpen s) (isGeneratingPrompt s) (personImage s)
    (retouchResultImage s) (retouchSubMode s) (retouchOptions s)
    (selectedEnvironment s) (generatedRetouchPrompts s)
    (isGeneratingRetouchPrompts s) (promptStyleVariety s) (syncPromptWithEnv
    s) v (isUpscaling s) (upscaleError s) (isUpscaleMenuOpen s).

Definition setIsUpscaling (v : option UpscaleTarget) (s : AppState) : AppState :=
  Build_AppState (appMode s) (isOnline s) (productImage s) (referenceImage
    s) (generatedImage s) (selectedCameras s) (selectedLightings s)
    (selectedMockups s) (selectedManipulations s) (selectedPeopleRetouches
    s) (selectedRetouches s) (dkExportSettings s) (customPrompt s)
    (useMagicComposite s) (isLoading s) (isAnalyzing s) (suggestedPresetIds
    s) (error s) (isGeneratingDKPrompt s) (suggestedDKPrompts s)
    (isDKPromptModalOpen s) (creativeMode s) (isGeneratingCreative s)
    (creativeError s) (illustrationImage s) (illustrationReferenceImage s)
    (illustrationCustomPrompt s) (illustrationResultImage s)
    (isGeneratingIllustration s) (selectedIllustrationStyle s)
    (illustrationDetailFidelity s) (useIllustrationStylePreset s)
    (generationStatusText s) (isVectorizing s)
    (isIllustrationDownloadMenuOpen s) (suggestedCreativePrompts s)
    (isCreativePromptModalOpen s) (isGeneratingPrompt s) (personImage s)
    (retouchResultImage s) (retouchSubMode s) (retouchOptions s)
    (selectedEnvironment s) (generatedRetouchPrompts s)
    (isGeneratingRetouchPrompts s) (promptStyleVariety s) (syncPromptWithEnv
    s) (generationHistory s) v (upscaleError s) (isUpscaleMenuOpen s).

Definition setUpscaleError (v : option string) (s : AppState) : AppState :=
  Build_AppState (appMode s) (isOnline s) (productImage s) (referenceImage
    s) (generatedImage s) (selectedCameras s) (selectedLightings s)
    (selectedMockups s) (selectedManipulations s) (selectedPeopleRetouches
    s) (selectedRetouches s) (dkExportSettings s) (customPrompt s)
    (useMagicComposite s) (isLoading s) (isAnalyzing s) (suggestedPresetIds
    s) (error s) (isGeneratingDKPrompt s) (suggestedDKPrompts s)
    (isDKPromptModalOpen s) (creativeMode s) (isGeneratingCreative s)
    (creativeError s) (illustrationImage s) (illustrationReferenceImage s)
    (illustrationCustomPrompt s) (illustrationResultImage s)
    (isGeneratingIllustration s) (selectedIllustrationStyle s)
    (illustrationDetailFidelity s) (useIllustrationStylePreset s)
    (generationStatusText s) (isVectorizing s)
    (isIllustrationDownloadMenuOpen s) (suggestedCreativePrompts s)
    (isCreativePromptModalOpen s) (isGeneratingPrompt s) (personImage s)
    (retouchResultImage s) (retouchSubMode s) (retouchOptions s)
    (selectedEnvironment s) (generatedRetouchPrompts s)
    (isGeneratingRetouchPrompts s) (promptStyleVariety s) (syncPromptWithEnv
    s) (generationHistory s) (isUpscaling s) v (isUpscaleMenuOpen s).

Definition setIsUpscaleMenuOpen (v : bool) (s : AppState) : AppState :=
  Build_AppState (appMode s) (isOnline s) (productImage s) (referenceImage
    s) (generatedImage s) (selectedCameras s) (selectedLightings s)
    (selectedMockups s) (selectedManipulations s) (selectedPeopleRetouches
    s) (selectedRetouches s) (dkExportSettings s) (customPrompt s)
    (useMagicComposite s) (isLoading s) (isAnalyzing s) (suggestedPresetIds
    s) (error s) (isGeneratingDKPrompt s) (suggestedDKPrompts s)
    (isDKPromptModalOpen s) (creativeMode s) (isGeneratingCreative s)
    (creativeError s) (illustrationImage s) (illustrationReferenceImage s)
    (illustrationCustomPrompt s) (illustrationResultImage s)
    (isGeneratingIllustration s) (selectedIllustrationStyle s)
    (illustrationDetailFidelity s) (useIllustrationStylePreset s)
    (generationStatusText s) (isVectorizing s)
    (isIllustrationDownloadMenuOpen s) (suggestedCreativePrompts s)
    (isCreativePromptModalOpen s) (isGeneratingPrompt s) (personImage s)
    (retouchResultImage s) (retouchSubMode s) (retouchOptions s)
    (selectedEnvironment s) (generatedRetouchPrompts s)
    (isGeneratingRetouchPrompts s) (promptStyleVariety s) (syncPromptWithEnv
    s) (generationHistory s) (isUpscaling s) (upscaleError s) v.

(** ** Updates, external calls and asynchronous handlers *)

(** What a handler enqueues: a function of the current state. *)
Definition Update := AppState → AppState.

Definition andThen (u1 u2 : Update) : Update := λ s, u2 (u1 s).

Declare Scope update_scope.
Delimit Scope update_scope with upd.
Bind Scope update_scope with Update.
Notation "u1 ;; u2" := (andThen u1%upd u2%upd)
  (at level 100, u2 at level 200, only parsing, right associativity)
  : update_scope.

Definition skip : Update := λ s, s.

(** [setX(prev => f(prev))] for the hooks updated that way. *)
Definition setGenerationHistoryWith
    (f : list HistoryItem → list HistoryItem) : Update :=
  λ s, setGenerationHistory (f (generationHistory s)) s.

(** What a rejected promise carries: an [Error] with its message, or any
    other value ([e instanceof Error] is false). *)
Inductive Thrown := ThrownError (message : string) | ThrownOther.

(** [e instanceof Error ? e.message : fallback]. *)
Definition messageOr (e : Thrown) (fallback : string) : string :=
  match e with ThrownError m => m | ThrownOther => fallback end.

Inductive Settled (A : Type) :=
  | Fulfilled (value : A)
  | Rejected (e : Thrown).
Arguments Fulfilled {A} value.
Arguments Rejected {A} e.

(** The boundary calls of [services/geminiService], indexed by the type
    of the value they resolve to. A result typed [X | null] is an
    [option]. *)
Inductive ExternalCall : Type → Type :=
  | generateImage (productImage : ImageFile)
      (referenceImage : option ImageFile) (useMagicComposite : bool)
      (params : GenerationParams) : ExternalCall (option GeneratedImage)
  | analyzeForCompositeSuggestions (productImage referenceImage : ImageFile)
      : ExternalCall SuggestionMap
  | generateDesignKitPrompt (productImage : ImageFile)
      (referenceImage : option ImageFile)
      : ExternalCall (option (list PromptSuggestion))
  | generateIllustrationPrompts (baseImage : ImageFile)
      (referenceImage : option ImageFile)
      : ExternalCall (option (list PromptSuggestion))
  | generateIllustration (image : ImageFile)
      (style : option IllustrationStylePreset) (detailFidelity : Z)
      (customPrompt : string) (referenceImage : option ImageFile)
      : ExternalCall (option GeneratedImage)
  | vectorizeImage (image : GeneratedImage) : ExternalCall (option string)
  | performSmartRetouch (image : ImageFile) (options : RetouchOptions)
      : ExternalCall (option GeneratedImage)
  | generateEnvironment (image : ImageFile) (environment : string)
      (options : RetouchOptions) : ExternalCall (option GeneratedImage)
  | generateRetouchPrompts (environment : string) (variety : StyleVariety)
      (syncWithEnv : bool) : ExternalCall (list string)
  | upscaleImage (image : GeneratedImage) (target : UpscaleTarget)
      : ExternalCall (option GeneratedImage).

(** An [async] handler with at most one [await]: either it returns after
    its synchronous updates, or it enqueues [before], awaits [call], and
    on settlement enqueues [resume settled now], where [now] is what
    [new Date().toISOString()] reads at that moment. *)
Inductive Async : Type :=
  | Return (sync : Update)
  | Await {A : Type} (before : Update) (call : ExternalCall A)
      (resume : Settled A → string → Update).

Inductive Invocation :=
  | Invoke {A : Type} (call : ExternalCall A).

(** The external calls a handler run makes. *)
Definition invocations (p : Async) : list Invocation :=
  match p with
  | Return _ => []
  | Await _ call _ => [Invoke call]
  end.

(** The updates of a run up to the point where it returns or suspends. *)
Definition begin (p : Async) : Update :=
  match p with
  | Return sync => sync
  | Await before _ _ => before
  end.

(** The external service and the clock, as the environment of a run. *)
Record Service := {
  respond : ∀ A, ExternalCall A → Settled A;
  toISOString : string
}.

(** A run with nothing interleaved between suspension and settlement. *)
Definition run (svc : Service) (p : Async) : Update :=
  match p with
  | Return sync => sync
  | Await before call resume =>
      (before ;; resume (respond svc _ call) (toISOString svc))%upd
  end.

(** ** The generation history *)

(** [l.slice(start, end)] for indices that are not negative. *)
Definition slice {A : Type} (start end_ : nat) (l : list A) : list A :=
  take (end_ - start) (drop start l).

(** [prev => [newHistoryItem, ...prev].slice(0, 12)], the one way in
    which every pipeline records a result (lines 553, 631, 689, 716 and
    797). *)
Definition appendHistory (newHistoryItem : HistoryItem)
    (prev : list HistoryItem) : list HistoryItem :=
  slice 0 12 (newHistoryItem :: prev).

(** The cache after the results [items] were recorded one after the
    other, the head of [items] first. *)
Definition appendAll (items prev : list HistoryItem) : list HistoryItem :=
  foldl (λ cache item, appendHistory item cache) prev items.

(** ** The auto-analysis effect *)

(** [if (suggestions.key?.length)
       setSelected(TABLE.filter(p => suggestions.key.includes(p.id)))]. *)
Definition applySuggestion {T : Type} `{Identified T}
    (suggestions : SuggestionMap) (key : string) (table : list T)
    (setSelected : list T → Update) : Update :=
  match suggestions !! key with
  | Some (first :: others) =>
      setSelected (filter (λ p, id p ∈ first :: others) table)
  | _ => skip
  end.

(** Lines 476-498. The body of the effect that runs when
    [productImage], [referenceImage], [useMagicComposite] or [appMode]
    change. *)
Definition runAnalysis (K : Constants) (snap : AppState) : Async :=
  match appMode snap, productImage snap, referenceImage snap,
        useMagicComposite snap with
  | DesignKit, Some product, Some reference, true =>
      Await (setIsAnalyzing true ;; setSuggestedPresetIds ∅)%upd
        (analyzeForCompositeSuggestions product reference)
        (λ settled _,
          (match settled with
           | Fulfilled suggestions =>
               applySuggestion suggestions "camera"
                 (CAMERA_PRESETS K) setSelectedCameras ;;
               applySuggestion suggestions "lighting"
                 (LIGHTING_PRESETS K) setSelectedLightings ;;
               applySuggestion suggestions "manipulation"
                 (MANIPULATION_PRESETS K) setSelectedManipulations ;;
               applySuggestion suggestions "retouch"
                 (RETOUCH_PRESETS K) setSelectedRetouches ;;
               applySuggestion suggestions "peopleRetouch"
                 (PEOPLE_RETOUCH_PRESETS K) setSelectedPeopleRetouches ;;
               setSuggestedPresetIds suggestions
           | Rejected _ =>
               setError
                 (Some "AI analysis failed. Please check the console for details.")
           end ;;
           setIsAnalyzing false)%upd)
  | _, _, _, _ => Return skip
  end.

(** ** The toggle handlers on the state *)

(** Lines 517-521 and 526-536. *)

Definition handleCameraToggle (K : Constants) (preset : CameraPreset)
    (s : AppState) : option AppState :=
  next ← createToggleHandler (CAMERA_PRESETS K) preset (selectedCameras s);
  Some (setSelectedCameras next s).

Definition handleLightingToggle (K : Constants) (preset : LightingPreset)
    (s : AppState) : option AppState :=
  next ← createToggleHandler (LIGHTING_PRESETS K) preset
           (selectedLightings s);
  Some (setSelectedLightings next s).

Definition handleManipulationToggle (K : Constants)
    (preset : ManipulationPreset) (s : AppState) : option AppState :=
  next ← createToggleHandler (MANIPULATION_PRESETS K) preset
           (selectedManipulations s);
  Some (setSelectedManipulations next s).

Definition handlePeopleRetouchToggle (K : Constants)
    (preset : PeopleRetouchPreset) (s : AppState) : option AppState :=
  next ← createToggleHandler (PEOPLE_RETOUCH_PRESETS K) preset
           (selectedPeopleRetouches s);
  Some (setSelectedPeopleRetouches next s).

Definition handleRetouchToggle (K : Constants) (preset : RetouchPreset)
    (s : AppState) : option AppState :=
  next ← createToggleHandler (RETOUCH_PRESETS K) preset
           (selectedRetouches s);
  Some (setSelectedRetouches next s).

Definition handleMagicCompositeToggle (K : Constants) (enabled : bool)
    (s : AppState) : option AppState :=
  if enabled then Some (setUseMagicComposite enabled s)
  else
    camera ← CAMERA_PRESETS K !! 0;
    lighting ← LIGHTING_PRESETS K !! 0;
    manipulation ← MANIPULATION_PRESETS K !! 0;
    retouch ← RETOUCH_PRESETS K !! 0;
    peopleRetouch ← PEOPLE_RETOUCH_PRESETS K !! 0;
    Some ((setUseMagicComposite enabled ;;
           setSelectedCameras [camera] ;;
           setSelectedLightings [lighting] ;;
           setSelectedManipulations [manipulation] ;;
           setSelectedRetouches [retouch] ;;
           setSelectedPeopleRetouches [peopleRetouch] ;;
           setSuggestedPresetIds ∅)%upd s).

(** ** The pipelines *)

(** Lines 538-563. *)
Definition handleDesignKitGeneration (snap : AppState) : Async :=
  match isOnline snap, productImage snap with
  | true, Some product =>
      let params :=
        {| cameraPresets := selectedCameras snap;
           lightingPresets := selectedLightings snap;
           mockupPreset := selectedMockups snap !! 0;
           manipulationPresets := selectedManipulations snap;
           peopleRetouchPresets := selectedPeopleRetouches snap;
           retouchPresets := selectedRetouches snap;
           exportSettings := dkExportSettings snap;
           params_customPrompt := customPrompt snap |} in
      Await
        (setIsLoading true ;; setError None ;; setUpscaleError None ;;
         setGeneratedImage None)%upd
        (generateImage product (referenceImage snap)
           (useMagicComposite snap) params)
        (λ settled now,
          (match settled with
           | Fulfilled (Some result) =>
               let newHistoryItem :=
                 {| item_id := now; source := product; generated := result;
                    prompt := customPrompt snap; mode := DesignKit;
                    creativeSubMode := None |} in
               setGeneratedImage (Some result) ;;
               setGenerationHistoryWith (appendHistory newHistoryItem)
           | Fulfilled None =>
               setError
                 (Some "The AI could not generate an image. Please try again.")
           | Rejected e =>
               setError (Some (messageOr e "An unknown error occurred."))
           end ;;
           setIsLoading false)%upd)
  | _, _ =>
      Return
        (setError
           (Some (if isOnline snap
                  then "Please upload a product image first."
                  else "You are offline. Please check your internet connection.")))
  end.

(** Lines 565-586. *)
Definition handleGenerateDKPrompt (snap : AppState) : Async :=
  match productImage snap with
  | Some product =>
      Await (setIsGeneratingDKPrompt true ;; setError None)%upd
        (generateDesignKitPrompt product (referenceImage snap))
        (λ settled _,
          (match settled with
           | Fulfilled (Some (first :: others)) =>
               setSuggestedDKPrompts (Some (first :: others)) ;;
               setIsDKPromptModalOpen true
           | Fulfilled _ =>
               setError
                 (Some "The AI could not generate any prompt suggestions.")
           | Rejected e =>
               setError
                 (Some (messageOr e
                          "An unknown error occurred during prompt generation."))
           end ;;
           setIsGeneratingDKPrompt false)%upd)
  | None =>
      Return
        (setError
           (Some "Please upload a product image to generate prompt suggestions."))
  end.

(** Lines 590-613. *)
Definition handleGenerateCreativePrompts (snap : AppState) : Async :=
  let baseImage :=
    match creativeMode snap with
    | Illustrate => illustrationImage snap
    | Retouch => None
    end in
  match baseImage with
  | Some base =>
      Await
        (setIsGeneratingPrompt true ;; setCreativeError None ;;
         setSuggestedCreativePrompts None)%upd
        (generateIllustrationPrompts base (illustrationReferenceImage snap))
        (λ settled _,
          (match settled with
           | Fulfilled (Some (first :: others)) =>
               setSuggestedCreativePrompts (Some (first :: others)) ;;
               setIsCreativePromptModalOpen true
           | Fulfilled _ =>
               setCreativeError
                 (Some "The AI could not generate any suggestions.")
           | Rejected e =>
               setCreativeError
                 (Some (messageOr e
                          "An unknown error occurred during prompt generation."))
           end ;;
           setIsGeneratingPrompt false)%upd)
  | None => Return (setCreativeError (Some "Please upload a base image first."))
  end.

(** Lines 615-642. *)
Definition handleGenerateIllustration (K : Constants) (snap : AppState)
    : Async :=
  match isOnline snap, illustrationImage snap with
  | true, Some image =>
      let styleToUse :=
        if useIllustrationStylePreset snap
        then Some (selectedIllustrationStyle snap)
        else findNone (ILLUSTRATION_STYLE_PRESETS K) in
      Await
        (setIsGeneratingIllustration true ;; setCreativeError None ;;
         setIllustrationResultImage None ;;
         setGenerationStatusText "Sketching your vision...")%upd
        (generateIllustration image styleToUse
           (illustrationDetailFidelity snap) (illustrationCustomPrompt snap)
           (illustrationReferenceImage snap))
        (λ settled now,
          (match settled with
           | Fulfilled (Some result) =>
               let newHistoryItem :=
                 {| item_id := now; source := image; generated := result;
                    prompt := illustrationCustomPrompt snap;
                    mode := CreativeStudio;
                    creativeSubMode := Some Illustrate |} in
               setIllustrationResultImage (Some result) ;;
               setGenerationHistoryWith (appendHistory newHistoryItem)
           | Fulfilled None =>
               setCreativeError
                 (Some "The AI could not generate an illustration. Please try a different style or image.")
           | Rejected e =>
               setCreativeError
                 (Some (messageOr e
                          "An unknown error occurred during illustration."))
           end ;;
           setIsGeneratingIllustration false ;;
           setGenerationStatusText "")%upd)
  | _, _ =>
      Return
        (setCreativeError
           (Some (if negb (isOnline snap)
                  then "You are offline."
                  else "Please upload an image to illustrate.")))
  end.

(** Lines 644-673. On a non-empty SVG text the handler offers it as a
    download through the DOM; that touches no hook, hence [skip]. *)
Definition handleDownloadVector (snap : AppState) : Async :=
  match illustrationResultImage snap with
  | None => Return skip
  | Some image =>
      Await
        (setIsIllustrationDownloadMenuOpen false ;; setIsVectorizing true ;;
         setCreativeError None ;;
         setGenerationStatusText "Vectorizing image...")%upd
        (vectorizeImage image)
        (λ settled _,
          (match settled with
           | Fulfilled (Some (String _ _)) => skip
           | Fulfilled _ =>
               setCreativeError
                 (Some "The AI could not convert the image to SVG.")
           | Rejected e =>
               setCreativeError
                 (Some (messageOr e
                          "An unknown error occurred during vectorization."))
           end ;;
           setIsVectorizing false ;;
           setGenerationStatusText "")%upd)
  end.

(** Lines 675-700. *)
Definition handleSmartRetouch (snap : AppState) : Async :=
  match isOnline snap, personImage snap with
  | true, Some person =>
      Await
        (setIsGeneratingCreative true ;;
         setGenerationStatusText "Performing high-end face retouch..." ;;
         setCreativeError None ;; setRetouchResultImage None)%upd
        (performSmartRetouch person (retouchOptions snap))
        (λ settled now,
          (match settled with
           | Fulfilled (Some result) =>
               let newHistoryItem :=
                 {| item_id := now; source := person; generated := result;
                    prompt := "Smart Studio Retouch"; mode := CreativeStudio;
                    creativeSubMode := Some Retouch |} in
               setRetouchResultImage (Some result) ;;
               setGenerationHistoryWith (appendHistory newHistoryItem)
           | Fulfilled None =>
               setCreativeError (Some "The AI could not retouch the image.")
           | Rejected e =>
               setCreativeError
                 (Some (messageOr e
                          "An unknown error occurred during retouching."))
           end ;;
           setIsGeneratingCreative false ;;
           setGenerationStatusText "")%upd)
  | _, _ =>
      Return
        (setCreativeError
           (Some (if negb (isOnline snap)
                  then "You are offline."
                  else "Please upload a portrait to retouch.")))
  end.

(** Lines 702-727. *)
Definition handleEnvironmentGeneration (snap : AppState) : Async :=
  match isOnline snap, personImage snap with
  | true, Some person =>
      Await
        (setIsGeneratingCreative true ;;
         setGenerationStatusText "Harmonizing light, color, and shadows..." ;;
         setCreativeError None ;; setRetouchResultImage None)%upd
        (generateEnvironment person (selectedEnvironment snap)
           (retouchOptions snap))
        (λ settled now,
          (match settled with
           | Fulfilled (Some result) =>
               let newHistoryItem :=
                 {| item_id := now; source := person; generated := result;
                    prompt := "Environment: " +:+ selectedEnvironment snap;
                    mode := CreativeStudio;
                    creativeSubMode := Some Retouch |} in
               setRetouchResultImage (Some result) ;;
               setGenerationHistoryWith (appendHistory newHistoryItem)
           | Fulfilled None =>
               setCreativeError
                 (Some "The AI could not generate the environment.")
           | Rejected e =>
               setCreativeError
                 (Some (messageOr e
                          "An unknown error occurred during environment generation."))
           end ;;
           setIsGeneratingCreative false ;;
           setGenerationStatusText "")%upd)
  | _, _ =>
      Return
        (setCreativeError
           (Some (if negb (isOnline snap)
                  then "You are offline."
                  else "Please upload a portrait.")))
  end.

(** Lines 729-741. *)
Definition handleGenerateRetouchPrompts (snap : AppState) : Async :=
  Await (setIsGeneratingRetouchPrompts true ;; setCreativeError None)%upd
    (generateRetouchPrompts (selectedEnvironment snap)
       (promptStyleVariety snap) (syncPromptWithEnv snap))
    (λ settled _,
      (match settled with
       | Fulfilled prompts => setGeneratedRetouchPrompts (Some prompts)
       | Rejected e =>
           setCreativeError
             (Some (messageOr e
                      "An unknown error occurred during prompt generation."))
       end ;;
       setIsGeneratingRetouchPrompts false)%upd).

(** ** Selecting a history item *)

(** Lines 744-770. *)
Definition handleHistorySelect (item : HistoryItem) : Update :=
  (setAppMode (mode item) ;;
   setError None ;;
   setCreativeError None ;;
   setUpscaleError None ;;
   setGeneratedImage None ;;
   setRetouchResultImage None ;;
   setIllustrationResultImage None ;;
   match mode item with
   | DesignKit =>
       setProductImage (Some (source item)) ;;
       setGeneratedImage (Some (generated item)) ;;
       setCustomPrompt (prompt item)
   | CreativeStudio =>
       setCreativeMode (default Illustrate (creativeSubMode item)) ;;
       match creativeSubMode item with
       | Some Illustrate =>
           setIllustrationImage (Some (source item)) ;;
           setIllustrationCustomPrompt (prompt item) ;;
           setIllustrationResultImage (Some (generated item))
       | _ =>
           setPersonImage (Some (source item)) ;;
           setRetouchResultImage (Some (generated item))
       end
   end)%upd.

(** ** Upscaling *)

(** [UpscaleTarget] is the union of the string literals ['hd'] and
    ['4k']. *)
Definition targetString (target : UpscaleTarget) : string :=
  match target with Hd => "hd" | FourK => "4k" end.

Definition upperAscii (c : ascii) : ascii :=
  let n := nat_of_ascii c in
  if bool_decide (97 ≤ n ≤ 122)%nat then ascii_of_nat (n - 32) else c.

(** [s.toUpperCase()] on ASCII text. *)
Fixpoint toUpperCase (s : string) : string :=
  match s with
  | EmptyString => EmptyString
  | String c rest => String (upperAscii c) (toUpperCase rest)
  end.

(** Lines 774-775. The result field and the source field the upscale
    works on, chosen by [appMode] and [creativeMode]. *)
Definition imageToUpscale (snap : AppState) : option GeneratedImage :=
  match appMode snap with
  | DesignKit => generatedImage snap
  | CreativeStudio =>
      match creativeMode snap with
      | Retouch => retouchResultImage snap
      | Illustrate => illustrationResultImage snap
      end
  end.

Definition sourceImage (snap : AppState) : option ImageFile :=
  match appMode snap with
  | DesignKit => productImage snap
  | CreativeStudio =>
      match creativeMode snap with
      | Retouch => personImage snap
      | Illustrate => illustrationImage snap
      end
  end.

(** Lines 772-808. *)
Definition handleUpscale (target : UpscaleTarget) (snap : AppState)
    : Async :=
  match imageToUpscale snap, sourceImage snap with
  | Some image, Some src =>
      Await
        (setIsUpscaleMenuOpen false ;;
         setIsUpscaling (Some target) ;;
         setUpscaleError None ;;
         setError None ;;
         setCreativeError None ;;
         setGenerationStatusText "Upscaling with detail preservation...")%upd
        (upscaleImage image target)
        (λ settled now,
          (match settled with
           | Fulfilled (Some upscaledResult) =>
               let promptForHistory :=
                 match appMode snap with
                 | DesignKit => customPrompt snap
                 | CreativeStudio =>
                     "Upscaled to " +:+ toUpperCase (targetString target)
                 end in
               let newHistoryItem :=
                 {| item_id := now +:+ "-upscaled-" +:+ targetString target;
                    source := src;
                    generated := upscaledResult;
                    prompt := promptForHistory;
                    mode := appMode snap;
                    creativeSubMode :=
                      match appMode snap with
                      | CreativeStudio => Some (creativeMode snap)
                      | DesignKit => None
                      end |} in
               match appMode snap with
               | DesignKit => setGeneratedImage (Some upscaledResult)
               | CreativeStudio =>
                   match creativeMode snap with
                   | Retouch => setRetouchResultImage (Some upscaledResult)
                   | Illustrate =>
                       setIllustrationResultImage (Some upscaledResult)
                   end
               end ;;
               setGenerationHistoryWith (appendHistory newHistoryItem)
           | Fulfilled None =>
               setUpscaleError (Some "The AI could not upscale the image.")
           | Rejected e =>
               setUpscaleError
                 (Some (messageOr e
                          "An unknown error occurred during upscaling."))
           end ;;
           setIsUpscaling None ;;
           setGenerationStatusText "")%upd)
  | _, _ => Return (setIsUpscaleMenuOpen false)
  end.

(** ** The state at start *)

(** Lines 351-430. *)

Definition defaultRetouchOptions : RetouchOptions :=
  {| smoothness := 50; lightBalance := 50; correctSkinTones := true;
     sharpen := true; removeBlemishes := true; backgroundBlur := 0;
     hdrEffect := 0; vintageFade := 0; glossySkin := false;
     environmentHarmony := true; lightDirection := DirAuto;
     keyFillRatio := 50; shadowSoftness := 50; wbAndGrade := GradeAuto;
     artistCommand := "" |}.

(** The initial values of the hooks, given the index-0 entries of the
    tables; [onLine] is [navigator.onLine]. *)
Definition initialStateOf (onLine : bool) (camera : CameraPreset)
    (lighting : LightingPreset) (mockup : MockupPreset)
    (manipulation : ManipulationPreset) (peopleRetouch : PeopleRetouchPreset)
    (retouch : RetouchPreset) (style : IllustrationStylePreset)
    (environment : string) : AppState :=
  {| appMode := DesignKit; isOnline := onLine;
     productImage := None; referenceImage := None; generatedImage := None;
     selectedCameras := [camera]; selectedLightings := [lighting];
     selectedMockups := [mockup]; selectedManipulations := [manipulation];
     selectedPeopleRetouches := [peopleRetouch];
     selectedRetouches := [retouch];
     dkExportSettings := {| aspectRatio := Ratio4x5; transparent := false |};
     customPrompt := ""; useMagicComposite := true; isLoading := false;
     isAnalyzing := false; suggestedPresetIds := ∅; error := None;
     isGeneratingDKPrompt := false; suggestedDKPrompts := None;
     isDKPromptModalOpen := false;
     creativeMode := Illustrate; isGeneratingCreative := false;
     creativeError := None;
     illustrationImage := None; illustrationReferenceImage := None;
     illustrationCustomPrompt := ""; illustrationResultImage := None;
     isGeneratingIllustration := false;
     selectedIllustrationStyle := style;
     illustrationDetailFidelity := 75; useIllustrationStylePreset := true;
     generationStatusText := ""; isVectorizing := false;
     isIllustrationDownloadMenuOpen := false;
     suggestedCreativePrompts := None; isCreativePromptModalOpen := false;
     isGeneratingPrompt := false;
     personImage := None; retouchResultImage := None;
     retouchSubMode := Smart; retouchOptions := defaultRetouchOptions;
     selectedEnvironment := environment; generatedRetouchPrompts := None;
     isGeneratingRetouchPrompts := false;
     promptStyleVariety := VarietyNormal; syncPromptWithEnv := true;
     generationHistory := []; isUpscaling := None; upscaleError := None;
     isUpscaleMenuOpen := false |}.

Definition initialState (K : Constants) (onLine : bool) : option AppState :=
  camera ← CAMERA_PRESETS K !! 0;
  lighting ← LIGHTING_PRESETS K !! 0;
  mockup ← MOCKUP_PRESETS K !! 0;
  manipulation ← MANIPULATION_PRESETS K !! 0;
  peopleRetouch ← PEOPLE_RETOUCH_PRESETS K !! 0;
  retouch ← RETOUCH_PRESETS K !! 0;
  style ← ILLUSTRATION_STYLE_PRESETS K !! 0;
  environment ← ENVIRONMENT_PRESETS K !! 0;
  Some (initialStateOf onLine camera lighting mockup manipulation
          peopleRetouch retouch style environment).

(** ** The toggle as the specification words it *)

Section ToggleSpec.
Context {T : Type} `{Identified T}.

(** [sel] with every preset of id [i] removed, the others in their
    order. *)
Fixpoint without (i : string) (sel : list T) : list T :=
  match sel with
  | [] => []
  | p :: rest =>
      if decide (id p = i) then without i rest else p :: without i rest
  end.

(** The four cases of the toggle: explicit reset, revert to the sentinel,
    shrink, grow. [N] is the sentinel of the category. *)
Definition spec_toggle (N preset : T) (sel : list T) : list T :=
  if decide (id preset = "none") then [N]
  else if decide (id preset ∈ (id <$> sel)) then
    if decide (length sel = 1) then [N] else without (id preset) sel
  else without "none" sel ++ [preset].

(** A selection is either the sentinel alone, or a non-empty collection
    without the sentinel and without two presets of one id. *)
Definition wellFormedSelection (sel : list T) : Prop :=
  (id <$> sel) = ["none"]
  ∨ (sel ≠ [] ∧ ("none" ∉ (id <$> sel)) ∧ NoDup (id <$> sel)).

End ToggleSpec.

(** ** The pipelines, by name *)

Inductive Pipeline :=
  | CompositeGeneration
  | DesignKitPrompts
  | CreativePrompts
  | IllustrationGeneration
  | Vectorize
  | SmartRetouch
  | EnvironmentGeneration
  | RetouchPrompts
  | Upscale (target : UpscaleTarget).

Definition handler (K : Constants) (p : Pipeline) : AppState → Async :=
  match p with
  | CompositeGeneration => handleDesignKitGeneration
  | DesignKitPrompts => handleGenerateDKPrompt
  | CreativePrompts => handleGenerateCreativePrompts
  | IllustrationGeneration => handleGenerateIllustration K
  | Vectorize => handleDownloadVector
  | SmartRetouch => handleSmartRetouch
  | EnvironmentGeneration => handleEnvironmentGeneration
  | RetouchPrompts => handleGenerateRetouchPrompts
  | Upscale target => handleUpscale target
  end.

(** The error slot a pipeline reports into: [error], [creativeError] or
    [upscaleError]. *)
Definition slot (p : Pipeline) : AppState → option string :=
  match p with
  | CompositeGeneration | DesignKitPrompts => error
  | CreativePrompts | IllustrationGeneration | Vectorize | SmartRetouch
  | EnvironmentGeneration | RetouchPrompts => creativeError
  | Upscale _ => upscaleError
  end.

(** [!!x] for a value that is an object or [null]. *)
Definition present {A : Type} (x : option A) : bool :=
  match x with Some _ => true | None => false end.

(** The guard at the head of each handler, as a test on the captured
    state: [true] when the run goes on to its external call. *)
Definition precondition (p : Pipeline) (snap : AppState) : bool :=
  match p with
  | CompositeGeneration => isOnline snap && present (productImage snap)
  | DesignKitPrompts => present (productImage snap)
  | CreativePrompts =>
      match creativeMode snap with
      | Illustrate => present (illustrationImage snap)
      | Retouch => false
      end
  | IllustrationGeneration =>
      isOnline snap && present (illustrationImage snap)
  | Vectorize => present (illustrationResultImage snap)
  | SmartRetouch | EnvironmentGeneration =>
      isOnline snap && present (personImage snap)
  | RetouchPrompts => true
  | Upscale _ => present (imageToUpscale snap) && present (sourceImage snap)
  end.

(** ** Sample data *)

Definition samplePreset (i : string) : Preset :=
  {| preset_id := i; name := i; description := ""; icon := IconNode "Icon" |}.

Definition sampleCamera (i : string) : CameraPreset :=
  {| camera_preset := samplePreset i; camera_metadata := "" |}.

Definition sampleLighting (i : string) : LightingPreset :=
  {| lighting_preset := samplePreset i; lighting_metadata := "" |}.

Definition sampleConstants : Constants :=
  {| CAMERA_PRESETS :=
       [sampleCamera "none"; sampleCamera "wide"; sampleCamera "macro"];
     LIGHTING_PRESETS := [sampleLighting "none"; sampleLighting "softbox"];
     MOCKUP_PRESETS := [samplePreset "none"; samplePreset "billboard"];
     MANIPULATION_PRESETS := [samplePreset "none"; samplePreset "levitate"];
     PEOPLE_RETOUCH_PRESETS := [samplePreset "none"; samplePreset "skin"];
     RETOUCH_PRESETS := [samplePreset "none"; samplePreset "dust"];
     ENVIRONMENT_PRESETS := ["Studio"; "Beach"];
     ILLUSTRATION_STYLE_PRESETS := [samplePreset "none"; samplePreset "ink"] |}.

Definition sampleImage (n : string) : ImageFile :=
  {| file := FileRef n; base64 := n; mimeType := "image/png" |}.

Definition sampleResult (n : string) : GeneratedImage :=
  {| generated_base64 := n; generated_mimeType := "image/png" |}.

(** A service that resolves every image call to [image], the analysis
    to [suggestions], and the other calls to an empty answer. *)
Definition sampleService (image : option GeneratedImage)
    (suggestions : SuggestionMap) : Service :=
  {| respond := λ A call,
       match call in ExternalCall R return Settled R with
       | generateImage _ _ _ _ => Fulfilled image
       | analyzeForCompositeSuggestions _ _ => Fulfilled suggestions
       | generateDesignKitPrompt _ _ => Fulfilled None
       | generateIllustrationPrompts _ _ => Fulfilled None
       | generateIllustration _ _ _ _ _ => Fulfilled image
       | vectorizeImage _ => Fulfilled None
       | performSmartRetouch _ _ => Fulfilled image
       | generateEnvironment _ _ _ => Fulfilled image
       | generateRetouchPrompts _ _ _ => Fulfilled []
       | upscaleImage _ _ => Fulfilled image
       end;
     toISOString := "2024-05-01T10:00:00.000Z" |}.

Definition sampleItem (tag : string) : HistoryItem :=
  {| item_id := tag; generated := sampleResult tag;
     source := sampleImage tag; prompt := tag; mode := DesignKit;
     creativeSubMode := None |}.

(** Thirteen results, ["a"] recorded first and ["m"] last. *)
Definition sampleItems : list HistoryItem :=
  sampleItem <$>
    ["a"; "b"; "c"; "d"; "e"; "f"; "g"; "h"; "i"; "j"; "k"; "l"; "m"].

(** What a smart retouch records. *)
Definition sampleRetouchItem : HistoryItem :=
  {| item_id := "2024-05-01T10:00:00.000Z";
     generated := sampleResult "retouched";
     source := sampleImage "portrait";
     prompt := "Smart Studio Retouch";
     mode := CreativeStudio;
     creativeSubMode := Some Retouch |}.

(** The state at start for the sample tables, online. *)
Definition sampleState : AppState :=
  initialStateOf true (sampleCamera "none") (sampleLighting "none")
    (samplePreset "none") (samplePreset "none") (samplePreset "none")
    (samplePreset "none") (samplePreset "none") "Studio".

(** ** The views and controls around the controller *)

#[export] Instance AppMode_eq_dec : EqDecision AppMode :=
  ltac:(solve_decision).

#[export] Instance CreativeMode_eq_dec : EqDecision CreativeMode :=
  ltac:(solve_decision).

#[export] Instance RetouchSubMode_eq_dec : EqDecision RetouchSubMode :=
  ltac:(solve_decision).

(** [PresetSelector], lines 18-19 of the file: the two marks a preset
    row is rendered with. *)
Definition isSelected {T : Type} `{Identified T} (selectedPresets : list T)
    (preset : T) : bool :=
  bool_decide (Exists (λ p, id p = id preset) selectedPresets).

Definition isSuggested {T : Type} `{Identified T} (suggestedIds : list string)
    (preset : T) : bool :=
  bool_decide (id preset ∈ suggestedIds).

(** [MagicCompositeToggle.tsx], line 20: the switch calls
    [onToggle(!isEnabled)]; line 878 wires it to [useMagicComposite] and
    [handleMagicCompositeToggle]. *)
Definition magicCompositeClick (K : Constants) (s : AppState)
    : option AppState :=
  handleMagicCompositeToggle K (negb (useMagicComposite s)) s.

(** [ExportControls.tsx], lines 16-18 and 43: the new settings handed to
    [setSettings]. *)
Definition handleAspectRatioChange (settings : ExportSettings)
    (value : AspectRatio) : ExportSettings :=
  {| aspectRatio := value; transparent := transparent settings |}.

Definition transparencyClick (settings : ExportSettings) : ExportSettings :=
  {| aspectRatio := aspectRatio settings;
     transparent := negb (transparent settings) |}.

(** The flag a pipeline raises while its call is in flight. *)
Definition busy (p : Pipeline) (s : AppState) : bool :=
  match p with
  | CompositeGeneration => isLoading s
  | DesignKitPrompts => isGeneratingDKPrompt s
  | CreativePrompts => isGeneratingPrompt s
  | IllustrationGeneration => isGeneratingIllustration s
  | Vectorize => isVectorizing s
  | SmartRetouch | EnvironmentGeneration => isGeneratingCreative s
  | RetouchPrompts => isGeneratingRetouchPrompts s
  | Upscale _ => present (isUpscaling s)
  end.

(** The updates a suspended run enqueues when its call settles. *)
Definition settle (svc : Service) (p : Async) : Update :=
  match p with
  | Return _ => skip
  | Await _ call resume => resume (respond svc _ call) (toISOString svc)
  end.

(** The buttons of [AppContent] that start a pipeline: lines 883, 980,
    986, 993, 1014, 1170, 1173 and 1177, and the generate button of
    [PromptGenerator] (lines 318 and 339, wired at line 1047). *)
Inductive Button :=
  | SuggestPromptButton
  | SuggestCreativePromptButton
  | IllustrateButton
  | IllustrationUpscaleButton
  | DownloadSVGButton
  | SmartRetouchButton
  | EnvironmentButton
  | RetouchUpscaleButton
  | RetouchPromptsButton.

Definition onClick (b : Button) : Pipeline :=
  match b with
  | SuggestPromptButton => DesignKitPrompts
  | SuggestCreativePromptButton => CreativePrompts
  | IllustrateButton => IllustrationGeneration
  | IllustrationUpscaleButton => Upscale Hd
  | DownloadSVGButton => Vectorize
  | SmartRetouchButton => SmartRetouch
  | EnvironmentButton => EnvironmentGeneration
  | RetouchUpscaleButton => Upscale Hd
  | RetouchPromptsButton => RetouchPrompts
  end.

(** The [disabled] attribute of each button. *)
Definition disabled (b : Button) (s : AppState) : bool :=
  match b with
  | SuggestPromptButton =>
      negb (present (productImage s)) || isGeneratingDKPrompt s
      || isLoading s
  | SuggestCreativePromptButton =>
      negb (present (illustrationImage s)) || isGeneratingPrompt s
      || isGeneratingIllustration s || isVectorizing s
  | IllustrateButton =>
      negb (present (illustrationImage s)) || isGeneratingIllustration s
      || isVectorizing s
  | IllustrationUpscaleButton =>
      negb (present (illustrationResultImage s)) || present (isUpscaling s)
      || isGeneratingIllustration s || isVectorizing s
  | DownloadSVGButton =>
      bool_decide (id (selectedIllustrationStyle s : Preset) ≠ "vector")
      || isVectorizing s
  | SmartRetouchButton =>
      negb (present (personImage s))
      || bool_decide (retouchSubMode s ≠ Smart) || isGeneratingCreative s
  | EnvironmentButton =>
      negb (present (personImage s))
      || bool_decide (retouchSubMode s ≠ Environment)
      || isGeneratingCreative s
  | RetouchUpscaleButton =>
      negb (present (retouchResultImage s)) || present (isUpscaling s)
      || isGeneratingCreative s
  | RetouchPromptsButton => isGeneratingRetouchPrompts s
  end.

(** The conditions of the JSX under which each button is on the page
    (lines 873, 920, 928, 991, 1004 and 1033). *)
Definition rendered (b : Button) (s : AppState) : bool :=
  match b with
  | SuggestPromptButton => bool_decide (appMode s = DesignKit)
  | SuggestCreativePromptButton | IllustrateButton =>
      bool_decide (appMode s = CreativeStudio)
      && bool_decide (creativeMode s = Illustrate)
  | IllustrationUpscaleButton =>
      bool_decide (appMode s = CreativeStudio)
      && bool_decide (creativeMode s = Illustrate)
      && (present (illustrationResultImage s)
          && negb (isGeneratingIllustration s))
  | DownloadSVGButton =>
      bool_decide (appMode s = CreativeStudio)
      && bool_decide (creativeMode s = Illustrate)
      && (present (illustrationResultImage s)
          && negb (isGeneratingIllustration s))
      && isIllustrationDownloadMenuOpen s
  | SmartRetouchButton | EnvironmentButton | RetouchUpscaleButton
  | RetouchPromptsButton =>
      bool_decide (appMode s = CreativeStudio)
      && bool_decide (creativeMode s = Retouch)
  end.

(** [a || b] on texts that may be [null]: the empty text is falsy. *)
Definition truthyText (x : option string) : bool :=
  match x with Some (String _ _) => true | _ => false end.

Definition orElse (a b : option string) : option string :=
  if truthyText a then a else b.

(** The text of the failure overlay, [None] when no overlay shows: lines
    904-908 in the design-kit view, lines 1217-1221 in the creative
    view. *)
Definition errorOverlay (s : AppState) : option string :=
  match appMode s with
  | DesignKit =>
      let text := orElse (error s) (upscaleError s) in
      if truthyText text && negb (isLoading s || present (isUpscaling s))
      then text else None
  | CreativeStudio =>
      let text := orElse (creativeError s) (upscaleError s) in
      if truthyText text
         && negb (isGeneratingCreative s || isGeneratingIllustration s
                  || present (isUpscaling s) || isVectorizing s)
      then text else None
  end.

(** The prompt-suggestion modals, lines 1226-1235: what is shown, and
    what choosing a suggestion does. *)
Definition shownDKPrompts (s : AppState) : option (list PromptSuggestion) :=
  if isDKPromptModalOpen s then suggestedDKPrompts s else None.

Definition chooseDKPrompt (p : string) : Update :=
  (setCustomPrompt p ;; setIsDKPromptModalOpen false)%upd.

Definition shownCreativePrompts (s : AppState)
    : option (list PromptSuggestion) :=
  if isCreativePromptModalOpen s then suggestedCreativePrompts s else None.

Definition chooseCreativePrompt (snap : AppState) (p : string) : Update :=
  (match creativeMode snap with
   | Illustrate => setIllustrationCustomPrompt p
   | Retouch => skip
   end ;;
   setIsCreativePromptModalOpen false)%upd.

(** ** The translation lookup *)

Inductive Language := En | Ar.

(** A value of the translation tables of [i18n.ts], which is not among
    the sources at hand: a text, or an object of further values. *)
#[warnings="-register-all"]
Inductive Translation :=
  | Text (text : string)
  | Table (entries : gmap string Translation).

(** [s.split(sep)] for a separator of one character. *)
Fixpoint split (sep : ascii) (s : string) : list string :=
  match s with
  | EmptyString => [""]
  | String c rest =>
      if bool_decide (c = sep) then "" :: split sep rest
      else match split sep rest with
           | head :: tail => String c head :: tail
           | [] => [String c ""]
           end
  end.

(** The names every object inherits from [Object.prototype]: for these
    [part in result] holds without the table having such an entry. *)
Definition inheritedNames : list string :=
  ["constructor"; "__proto__"; "hasOwnProperty"; "isPrototypeOf";
   "propertyIsEnumerable"; "toLocaleString"; "toString"; "valueOf";
   "__defineGetter__"; "__defineSetter__"; "__lookupGetter__";
   "__lookupSetter__"].

(** One turn of the loop, lines 114-115: [result[part]] when [result] is
    an object that has [part]. *)
Definition step (result : Translation) (part : string) : option Translation :=
  match result with
  | Table entries => entries !! part
  | Text _ => None
  end.

(** The loop over [keyParts], [None] when some part is not found. *)
Fixpoint descend (result : Translation) (keyParts : list string)
    : option Translation :=
  match keyParts with
  | [] => Some result
  | part :: rest =>
      match step result part with
      | Some next => descend next rest
      | None => None
      end
  end.

(** [fallback || key]. *)
Definition fallbackOrKey (fallback : option string) (key : string) : string :=
  match fallback with
  | Some (String c rest) => String c rest
  | _ => key
  end.

(** Lines 109-131, the [t] of [LanguageProvider]. The value is [None]
    for a key with a part among [inheritedNames], which the embedding
    does not cover. The function is typed to return a string; where it
    returns [enResult] it can return an object, hence a [Translation]. *)
Definition t (translations : Language → Translation) (lang : Language)
    (key : string) (fallback : option string) : option Translation :=
  let keyParts := split "." key in
  if bool_decide (Exists (λ part, part ∈ inheritedNames) keyParts) then None
  else
    Some
      match descend (translations lang) keyParts with
      | Some (Text result) => Text result
      | Some (Table _) => Text (fallbackOrKey fallback key)
      | None =>
          match descend (translations En) keyParts with
          | Some (Text (String c rest)) => Text (String c rest)
          | Some (Table entries) => Table entries
          | _ => Text (fallbackOrKey fallback key)
          end
      end.

(** ** Auxiliary notions for the properties *)

(** A service that rejects every call with [e]. *)
Definition rejectingService (e : Thrown) : Service :=
  {| respond := λ A _, Rejected e; toISOString := "2024-05-01T10:00:00.000Z" |}.

(** What the analysis may do to one selection: leave it, when the
    suggestion map has no ids under [key]; or replace it by the presets
    of the table whose id is suggested, in the order of the table. *)
Definition replacedBy {T : Type} `{Identified T} (suggestions : SuggestionMap)
    (key : string) (table before after : list T) : Prop :=
  match suggestions !! key with
  | Some (first :: others) =>
      after `sublist_of` table
      ∧ ∀ q, q ∈ after ↔ q ∈ table ∧ id q ∈ first :: others
  | _ => after = before
  end.

(** The answer of the service to the call of a run, when the run makes
    a call and the call is one for an image. *)
Definition imageAnswer (svc : Service) (a : Async)
    : option (Settled (option GeneratedImage)) :=
  match a with
  | Return _ => None
  | Await _ call _ =>
      match call in ExternalCall A
            return Settled A → option (Settled (option GeneratedImage)) with
      | generateImage _ _ _ _ | generateIllustration _ _ _ _ _
      | performSmartRetouch _ _ | generateEnvironment _ _ _
      | upscaleImage _ _ => λ answer, Some answer
      | _ => λ _, None
      end (respond svc _ call)
  end.

(** The pipelines whose call resolves to an image. *)
Definition producesImage (p : Pipeline) : bool :=
  match p with
  | CompositeGeneration | IllustrationGeneration | SmartRetouch
  | EnvironmentGeneration | Upscale _ => true
  | _ => false
  end.

(** The result field of [s] that belongs to the mode of [snap]. *)
Definition resultFieldOf (snap s : AppState) : option GeneratedImage :=
  match appMode snap with
  | DesignKit => generatedImage s
  | CreativeStudio =>
      match creativeMode snap with
      | Retouch => retouchResultImage s
      | Illustrate => illustrationResultImage s
      end
  end.

(** Sample tables: Arabic lacks the [loader] entries. *)
Definition sampleTranslations (lang : Language) : Translation :=
  match lang with
  | En =>
      Table (list_to_map
               [("designKit", Text "Design Kit");
                ("blank", Text "");
                ("loader",
                 Table (list_to_map
                          [("generating", Text "Generating...")]))])
  | Ar =>
      Table (list_to_map [("designKit", Text "Oddat al-tasmim")])
  end.

(** ** The session as a transition system

    The component between two events: the state of the hooks, and the
    runs that are suspended on their call, each with the state its
    closure captured. *)

Inductive Task :=
  | PipelineTask (p : Pipeline)
  | AnalysisTask.

Definition taskAsync (K : Constants) (task : Task) (snap : AppState) : Async :=
  match task with
  | PipelineTask p => handler K p snap
  | AnalysisTask => runAnalysis K snap
  end.

Record Session := {
  app : AppState;
  pending : list (Task * AppState)
}.

(** One event of the session. A handler or the analysis effect starts
    from the current state; a suspended run settles, in any order and
    with any answer; an item of the history is selected; or one of the
    other controls of the page acts, none of which touches the
    history. *)
Inductive sessionStep (K : Constants) : Session → Session → Prop :=
  | start_run task s runs :
      sessionStep K {| app := s; pending := runs |}
        {| app := begin (taskAsync K task s) s;
           pending := runs ++ [(task, s)] |}
  | settle_run svc task snap s runs1 runs2 :
      sessionStep K {| app := s; pending := runs1 ++ (task, snap) :: runs2 |}
        {| app := settle svc (taskAsync K task snap) s;
           pending := runs1 ++ runs2 |}
  | select_item item s runs :
      item ∈ generationHistory s →
      sessionStep K {| app := s; pending := runs |}
        {| app := handleHistorySelect item s; pending := runs |}
  | other_control (u : Update) s runs :
      generationHistory (u s) = generationHistory s →
      sessionStep K {| app := s; pending := runs |}
        {| app := u s; pending := runs |}.

(** A history item says which creative sub-mode it is of exactly when
    it is of the creative-studio mode. *)
Definition consistentItem (item : HistoryItem) : Prop :=
  match mode item with
  | DesignKit => creativeSubMode item = None
  | CreativeStudio => is_Some (creativeSubMode item)
  end.

(** * Properties *)

(** ** Preset selections *)

Section ToggleFacts.
Context {T : Type} `{Identified T}.
Implicit Types (sel presets : list T) (preset N : T) (i : string).

Lemma some_is_elem_of_ids preset sel :
  Exists (λ p, id p = id preset) sel ↔ id preset ∈ (id <$> sel).
Proof.
  rewrite Exists_exists, list_elem_of_fmap.
  split; intros (p & ? & ?); exists p; auto.
Qed.

Lemma filter_is_without i sel :
  filter (λ p, id p ≠ i) sel = without i sel.
Proof.
  induction sel as [|p rest IH]; [done|].
  cbn [without]. destruct (decide (id p = i)) as [Heq|Hne].
  - rewrite filter_cons_False by (intros Hn; exact (Hn Heq)). exact IH.
  - rewrite filter_cons_True by exact Hne. by rewrite IH.
Qed.

Lemma without_absent i sel : i ∉ (id <$> sel) → without i sel = sel.
Proof.
  induction sel as [|p rest IH]; [done|].
  rewrite fmap_cons, not_elem_of_cons. intros [Hp Hrest].
  cbn [without]. destruct (decide (id p = i)); [congruence|].
  by rewrite IH.
Qed.

Lemma without_sublist i sel : without i sel `sublist_of` sel.
Proof. rewrite <- filter_is_without. apply sublist_filter. Qed.

Lemma elem_of_without i sel p : p ∈ without i sel ↔ id p ≠ i ∧ p ∈ sel.
Proof. by rewrite <- filter_is_without, list_elem_of_filter. Qed.

Lemma ids_without i sel :
  id <$> without i sel = filter (λ j, j ≠ i) (id <$> sel).
Proof.
  induction sel as [|p rest IH]; [done|].
  cbn [without]. rewrite fmap_cons, filter_cons.
  destruct (decide (id p = i)), (decide (id p ≠ i)); try done.
  by rewrite fmap_cons, IH.
Qed.

(** Removing an id that occurs once takes exactly one preset away. *)
Lemma length_without_NoDup i sel :
  NoDup (id <$> sel) → i ∈ (id <$> sel) →
  S (length (without i sel)) = length sel.
Proof.
  induction sel as [|p rest IH]; [by rewrite elem_of_nil|].
  rewrite fmap_cons, NoDup_cons, elem_of_cons. intros [Hp Hnd] Hin.
  cbn [without length]. destruct (decide (id p = i)) as [<-|Hne].
  - by rewrite without_absent.
  - cbn [length]. f_equal. apply IH; [done|]. by destruct Hin.
Qed.

Lemma createToggleHandler_refines presets N preset sel :
  findNone presets = Some N →
  createToggleHandler presets preset sel = Some (spec_toggle N preset sel).
Proof.
  intros HN. unfold createToggleHandler, spec_toggle. rewrite HN. cbn.
  rewrite <- !filter_is_without.
  destruct (decide (id preset = "none")) as [Hn|Hn].
  { by rewrite bool_decide_eq_true_2. }
  rewrite (bool_decide_eq_false_2 _ Hn).
  destruct (decide (id preset ∈ (id <$> sel))) as [Hs|Hs].
  - rewrite bool_decide_eq_true_2 by (by apply some_is_elem_of_ids).
    by destruct (decide (length sel = 1));
      [rewrite bool_decide_eq_true_2|rewrite bool_decide_eq_false_2].
  - rewrite bool_decide_eq_false_2; [done|].
    by rewrite some_is_elem_of_ids.
Qed.

Lemma findNone_id presets N : findNone presets = Some N → id N = "none".
Proof.
  unfold findNone. intros HN.
  apply fmap_Some in HN as ([k p] & Hfind & ->).
  by apply list_find_Some in Hfind as (_ & ? & _).
Qed.

Lemma wellFormedSelection_NoDup sel :
  wellFormedSelection sel → NoDup (id <$> sel).
Proof.
  intros [->|(_ & _ & ?)]; [|done].
  apply NoDup_singleton.
Qed.

(** X1. Toggling keeps a selection well formed; in particular it never
    leaves it empty. *)
Lemma createToggleHandler_wellFormed presets N preset sel :
  findNone presets = Some N →
  wellFormedSelection sel →
  ∃ next, createToggleHandler presets preset sel = Some next
          ∧ wellFormedSelection next ∧ (1 ≤ length next)%nat.
Proof.
  intros HN Hwf. pose proof (findNone_id _ _ HN) as HidN.
  pose proof (wellFormedSelection_NoDup _ Hwf) as Hnd.
  rewrite (createToggleHandler_refines _ _ _ _ HN).
  eexists; split; [done|]. unfold spec_toggle.
  assert (wellFormedSelection [N] ∧ (1 ≤ length [N])%nat) as Hsentinel.
  { split; [left; cbn; by rewrite HidN | cbn; lia]. }
  destruct (decide (id preset = "none")) as [Hn|Hn]; [done|].
  destruct (decide (id preset ∈ (id <$> sel))) as [Hs|Hs].
  - destruct (decide (length sel = 1)) as [Hl|Hl]; [done|].
    pose proof (length_without_NoDup _ _ Hnd Hs) as Hlen.
    destruct Hwf as [Hids|(Hne & Hnone & _)].
    { apply (f_equal length) in Hids. rewrite length_fmap in Hids.
      cbn in Hids. lia. }
    assert (1 ≤ length (without (id preset) sel))%nat as Hpos.
    { destruct sel; [done|]. cbn [length] in *. lia. }
    split; [|done]. right. split_and!.
    + intros Hnil. rewrite Hnil in Hpos. cbn in Hpos. lia.
    + rewrite ids_without, list_elem_of_filter. tauto.
    + rewrite ids_without. by apply NoDup_filter.
  - split; [|rewrite length_app; cbn; lia]. right. split_and!.
    + intros Hnil. by apply app_eq_nil in Hnil as [_ ?].
    + rewrite fmap_app, elem_of_app, ids_without, list_elem_of_filter.
      cbn. rewrite list_elem_of_singleton. intros [[? _]|?]; congruence.
    + rewrite fmap_app, ids_without. apply NoDup_app. split_and!.
      * by apply NoDup_filter.
      * intros j Hj. apply list_elem_of_filter in Hj as [_ Hj].
        cbn. rewrite list_elem_of_singleton. congruence.
      * apply NoDup_singleton.
Qed.

End ToggleFacts.

(** C1. On a category whose table has the sentinel [N] (the preset of
    id ["none"]), toggling [preset] on the selection [sel] yields [[N]]
    when [preset] is the sentinel; [[N]] when [preset] is the only
    selected preset; [sel] without [preset], the others in their order,
    when [preset] is selected among several; and otherwise [sel] without
    the sentinel, followed by [preset]. *)
Theorem toggle_four_cases {T : Type} `{Identified T}
    (presets : list T) (N preset : T) (sel : list T) :
  findNone presets = Some N →
  id N = "none"
  ∧ createToggleHandler presets preset sel = Some (spec_toggle N preset sel)
  ∧ without (id preset) sel `sublist_of` sel
  ∧ (∀ q, q ∈ without (id preset) sel ↔ id q ≠ id preset ∧ q ∈ sel)
  ∧ (∀ q, q ∈ without "none" sel ++ [preset]
          ↔ (id q ≠ "none" ∧ q ∈ sel) ∨ q = preset).
Proof.
  intros HN. split_and!.
  - by apply findNone_id with presets.
  - by apply createToggleHandler_refines.
  - apply without_sublist.
  - intros q. apply elem_of_without.
  - intros q. by rewrite elem_of_app, elem_of_without, list_elem_of_singleton.
Qed.

(** The scenario of the specification, on the camera category. *)
Example toggle_scenario :
  let presets := CAMERA_PRESETS sampleConstants in
  let A := sampleCamera "wide" in
  let B := sampleCamera "macro" in
  createToggleHandler presets B [A] = Some [A; B]
  ∧ createToggleHandler presets A [A; B] = Some [B]
  ∧ createToggleHandler presets B [B] = Some [sampleCamera "none"].
Proof. by vm_compute. Qed.

(** C10. On a non-empty selection without the sentinel and without two
    presets of one id, toggling twice a preset that is neither the
    sentinel nor selected gives the selection back, element for element
    and in the same order. *)
Theorem toggle_twice_absent {T : Type} `{Identified T}
    (presets : list T) (p : T) (sel : list T) :
  sel ≠ [] →
  "none" ∉ (id <$> sel) →
  NoDup (id <$> sel) →
  id p ≠ "none" →
  id p ∉ (id <$> sel) →
  createToggleHandler presets p sel ≫= createToggleHandler presets p
  = Some sel.
Proof.
  intros Hne Hnone _ Hp Habsent.
  unfold createToggleHandler at 2.
  rewrite (bool_decide_eq_false_2 _ Hp).
  rewrite bool_decide_eq_false_2 by (by rewrite some_is_elem_of_ids).
  cbn [mbind option_bind]. unfold createToggleHandler.
  rewrite (bool_decide_eq_false_2 _ Hp).
  rewrite !filter_is_without, (without_absent _ _ Hnone).
  rewrite bool_decide_eq_true_2.
  2:{ rewrite some_is_elem_of_ids, fmap_app, elem_of_app. right.
      cbn. apply list_elem_of_singleton. done. }
  rewrite bool_decide_eq_false_2.
  2:{ rewrite length_app. cbn. destruct sel; [done|]. cbn. lia. }
  f_equal. rewrite <- filter_is_without, filter_app, !filter_is_without.
  rewrite (without_absent _ _ Habsent). cbn.
  destruct (decide (id p = id p)); [|done]. by rewrite app_nil_r.
Qed.

(** C9. The mockup category is single-select: selecting the preset that
    heads the current selection gives the index-0 preset of the table
    alone, selecting any other preset gives that preset alone. *)
Theorem mockup_single_select (K : Constants) (d preset : MockupPreset)
    (current : list MockupPreset) :
  MOCKUP_PRESETS K !! 0 = Some d →
  handleMockupSelect K preset current =
    match current with
    | c :: _ => if decide (id c = id preset) then Some [d] else Some [preset]
    | [] => Some [preset]
    end.
Proof.
  intros Hd. unfold handleMockupSelect. rewrite Hd.
  destruct current as [|c rest].
  - by rewrite bool_decide_eq_false_2.
  - destruct (decide (id c = id preset)) as [Heq|Hne].
    + rewrite bool_decide_eq_true_2; [done|]. cbn. f_equal. exact Heq.
    + rewrite bool_decide_eq_false_2; [done|]. cbn. intros [= Heq].
      exact (Hne Heq).
Qed.

(** ** The generation history *)

Lemma appendHistory_take item prev :
  appendHistory item prev = take 12 (item :: prev).
Proof. reflexivity. Qed.

Lemma length_appendHistory item prev :
  (length (appendHistory item prev) ≤ 12)%nat.
Proof. rewrite appendHistory_take, length_take. lia. Qed.

Lemma take_app_take {A : Type} (n : nat) (l k : list A) :
  take n (l ++ take n k) = take n (l ++ k).
Proof. rewrite !take_app, take_take. do 2 f_equal. lia. Qed.

Lemma appendAll_take item items prev :
  appendAll (item :: items) prev
  = take 12 (reverse (item :: items) ++ prev).
Proof.
  revert item prev. induction items as [|second items IH]; intros item prev.
  - reflexivity.
  - change (appendAll (item :: second :: items) prev)
      with (appendAll (second :: items) (appendHistory item prev)).
    rewrite IH, appendHistory_take, take_app_take.
    by rewrite (reverse_cons (second :: items) item), <- app_assoc.
Qed.

(** A composite generation that resolves to a result stores it and
    records it with [appendHistory] (lines 550-553). *)
Lemma composite_generation_records (snap cur : AppState) (svc : Service)
    (product : ImageFile) (result : GeneratedImage) :
  isOnline snap = true →
  productImage snap = Some product →
  (∀ call, respond svc _ call = Fulfilled (Some result)) →
  let s' := run svc (handleDesignKitGeneration snap) cur in
  generatedImage s' = Some result
  ∧ generationHistory s'
    = appendHistory
        {| item_id := toISOString svc; generated := result;
           source := product; prompt := customPrompt snap;
           mode := DesignKit; creativeSubMode := None |}
        (generationHistory cur)
  ∧ error s' = None ∧ isLoading s' = false.
Proof.
  intros Honline Hproduct Hsvc s'. subst s'.
  unfold handleDesignKitGeneration. rewrite Honline, Hproduct.
  cbn [run]. by rewrite Hsvc.
Qed.

(** C3. Recording a result puts it at the front of the history and keeps
    the first 12 entries, so the history never holds more than 12; and
    after 13 results were recorded, whatever the history held before, it
    holds the last 12 of them, the most recent first. *)
Theorem history_append_bounded (item : HistoryItem)
    (items prev : list HistoryItem) :
  length items = 13 →
  appendHistory item prev = take 12 (item :: prev)
  ∧ (length (appendHistory item prev) ≤ 12)%nat
  ∧ appendAll items prev = reverse (drop 1 items)
  ∧ length (appendAll items prev) = 12.
Proof.
  intros Hlen. split_and!.
  - apply appendHistory_take.
  - apply length_appendHistory.
  - destruct items as [|oldest rest]; [done|].
    rewrite appendAll_take, reverse_cons, <- app_assoc.
    cbn in Hlen. apply take_app_length'. rewrite length_reverse. cbn. rewrite drop_0. lia.
  - destruct items as [|oldest rest]; [done|].
    rewrite appendAll_take, length_take, length_app, length_reverse, Hlen.
    lia.
Qed.

(** ** The magic-composite flag *)

(** C7. Switching the magic-composite flag off puts the index-0 preset
    of its table, alone, into the camera, lighting, manipulation, retouch
    and people-retouch selections and empties the suggestion map, in the
    one state transition of the handler; switching it on changes none of
    these. *)
Theorem magic_composite_toggle (K : Constants) (s : AppState)
    (camera : CameraPreset) (lighting : LightingPreset)
    (manipulation : ManipulationPreset) (retouch : RetouchPreset)
    (peopleRetouch : PeopleRetouchPreset) :
  CAMERA_PRESETS K !! 0 = Some camera →
  LIGHTING_PRESETS K !! 0 = Some lighting →
  MANIPULATION_PRESETS K !! 0 = Some manipulation →
  RETOUCH_PRESETS K !! 0 = Some retouch →
  PEOPLE_RETOUCH_PRESETS K !! 0 = Some peopleRetouch →
  (∃ s', handleMagicCompositeToggle K false s = Some s'
         ∧ useMagicComposite s' = false
         ∧ selectedCameras s' = [camera]
         ∧ selectedLightings s' = [lighting]
         ∧ selectedManipulations s' = [manipulation]
         ∧ selectedRetouches s' = [retouch]
         ∧ selectedPeopleRetouches s' = [peopleRetouch]
         ∧ suggestedPresetIds s' = ∅)
  ∧ (∃ s', handleMagicCompositeToggle K true s = Some s'
           ∧ useMagicComposite s' = true
           ∧ selectedCameras s' = selectedCameras s
           ∧ selectedLightings s' = selectedLightings s
           ∧ selectedManipulations s' = selectedManipulations s
           ∧ selectedRetouches s' = selectedRetouches s
           ∧ selectedPeopleRetouches s' = selectedPeopleRetouches s
           ∧ suggestedPresetIds s' = suggestedPresetIds s).
Proof.
  intros Hc Hl Hm Hr Hp. unfold handleMagicCompositeToggle.
  rewrite Hc, Hl, Hm, Hr, Hp. split; eexists; (split; [reflexivity|]).
  - by split_and!.
  - by split_and!.
Qed.

(** ** Selecting a history item *)

(** C4, as the code has it. Selecting an item sets [appMode] to the
    item's mode and clears the three error slots. A design-kit item
    gives its source, result and prompt to the design-kit fields; an
    illustrate item sets the creative sub-mode and gives its source,
    result and prompt to the illustration fields; a retouch item sets
    the creative sub-mode and gives its source and result to the retouch
    fields, and no prompt field changes. *)
Theorem history_select_restores (item : HistoryItem) (s : AppState) :
  let s' := handleHistorySelect item s in
  appMode s' = mode item
  ∧ error s' = None ∧ creativeError s' = None ∧ upscaleError s' = None
  ∧ match mode item, creativeSubMode item with
    | DesignKit, _ =>
        productImage s' = Some (source item)
        ∧ generatedImage s' = Some (generated item)
        ∧ customPrompt s' = prompt item
    | CreativeStudio, Some Illustrate =>
        creativeMode s' = Illustrate
        ∧ illustrationImage s' = Some (source item)
        ∧ illustrationResultImage s' = Some (generated item)
        ∧ illustrationCustomPrompt s' = prompt item
    | CreativeStudio, Some Retouch =>
        creativeMode s' = Retouch
        ∧ personImage s' = Some (source item)
        ∧ retouchResultImage s' = Some (generated item)
        ∧ customPrompt s' = customPrompt s
        ∧ illustrationCustomPrompt s' = illustrationCustomPrompt s
        ∧ retouchOptions s' = retouchOptions s
    | CreativeStudio, None => True
    end.
Proof.
  unfold handleHistorySelect.
  destruct item as [i g src pr [|] [[|]|]]; cbn; by split_and!.
Qed.

(** ** The pipelines: guards and error slots *)

(** Case analysis on the fields of the captured state that a guard
    looks at. *)
Ltac unfold_handler :=
  unfold handler, precondition, handleDesignKitGeneration,
    handleGenerateDKPrompt, handleGenerateCreativePrompts,
    handleGenerateIllustration, handleDownloadVector, handleSmartRetouch,
    handleEnvironmentGeneration, handleGenerateRetouchPrompts,
    handleUpscale, present in *.

Ltac case_on_fields snap :=
  repeat match goal with
         | |- context [match ?f snap with _ => _ end] =>
             destruct (f snap) eqn:?
         | H : context [match ?f snap with _ => _ end] |- _ =>
             destruct (f snap) eqn:?
         | |- context [if ?f snap then _ else _] => destruct (f snap) eqn:?
         | H : context [if ?f snap then _ else _] |- _ =>
             destruct (f snap) eqn:?
         | |- context [?f snap && _] => destruct (f snap) eqn:?
         | H : context [?f snap && _] |- _ => destruct (f snap) eqn:?
         end.

(** A handler goes on to its external call exactly when its guard
    passes, and makes that one call. *)
Lemma invocations_precondition (K : Constants) (p : Pipeline)
    (snap : AppState) :
  length (invocations (handler K p snap))
  = if precondition p snap then 1 else 0.
Proof. destruct p; unfold_handler; case_on_fields snap; reflexivity. Qed.

(** C5, as the code has it. A run whose guard fails makes no external
    call. The composite, illustration, smart-retouch and environment
    pipelines, whose guard asks for the online flag and the source image,
    and the two prompt pipelines, whose guard asks for their base image,
    then leave a message in their error slot; the vectorize and upscale
    pipelines, whose guard asks for their images only, return without
    writing any error slot. *)
Theorem failed_precondition_makes_no_call (K : Constants) (p : Pipeline)
    (snap cur : AppState) (svc : Service) :
  precondition p snap = false →
  let s' := run svc (handler K p snap) cur in
  invocations (handler K p snap) = []
  ∧ match p with
    | Vectorize => s' = cur
    | Upscale _ => s' = setIsUpscaleMenuOpen false cur
    | _ => ∃ msg, slot p s' = Some msg ∧ msg ≠ ""
    end.
Proof.
  intros Hpre s'. pose proof (invocations_precondition K p snap) as Hlen.
  rewrite Hpre in Hlen. apply nil_length_inv in Hlen.
  split; [exact Hlen|]. clear Hlen. subst s'.
  destruct p; unfold_handler; case_on_fields snap;
    try discriminate; try reflexivity; by eexists.
Qed.

(** C6, as the code has it. A run whose guard passes clears its own
    error slot before it suspends. Besides that, the composite pipeline
    clears the upscale error, and the upscale pipeline clears the
    design-kit error and the creative error; every other slot is as it
    was. *)
Theorem run_start_error_slots (K : Constants) (p : Pipeline)
    (snap cur : AppState) :
  precondition p snap = true →
  let s' := begin (handler K p snap) cur in
  slot p s' = None
  ∧ match p with
    | CompositeGeneration =>
        upscaleError s' = None ∧ creativeError s' = creativeError cur
    | DesignKitPrompts =>
        creativeError s' = creativeError cur
        ∧ upscaleError s' = upscaleError cur
    | Upscale _ => error s' = None ∧ creativeError s' = None
    | _ => error s' = error cur ∧ upscaleError s' = upscaleError cur
    end.
Proof.
  intros Hpre s'. subst s'.
  destruct p; unfold_handler; case_on_fields snap;
    try discriminate; by split_and!.
Qed.

(** ** Upscaling: the result and its history item *)

(** C8, as the code has it. An upscale that resolves to a result writes
    it into the result field of the current mode, the field the upscaled
    image was read from, and records a history item for it. The prompt of
    that item is the custom prompt in design-kit mode, and the text
    "Upscaled to HD" or "Upscaled to 4K" in creative-studio mode. *)
Theorem upscale_success (target : UpscaleTarget) (snap : AppState)
    (svc : Service) (image result : GeneratedImage) (src : ImageFile) :
  imageToUpscale snap = Some image →
  sourceImage snap = Some src →
  respond svc _ (upscaleImage image target) = Fulfilled (Some result) →
  let s' := run svc (handleUpscale target snap) snap in
  invocations (handleUpscale target snap) = [Invoke (upscaleImage image target)]
  ∧ imageToUpscale s' = Some result
  ∧ sourceImage s' = Some src
  ∧ generationHistory s' =
      appendHistory
        {| item_id := toISOString svc +:+ "-upscaled-" +:+ targetString target;
           generated := result;
           source := src;
           prompt :=
             match appMode snap, target with
             | DesignKit, _ => customPrompt snap
             | CreativeStudio, Hd => "Upscaled to HD"
             | CreativeStudio, FourK => "Upscaled to 4K"
             end;
           mode := appMode snap;
           creativeSubMode :=
             match appMode snap with
             | CreativeStudio => Some (creativeMode snap)
             | DesignKit => None
             end |}
        (generationHistory snap)
  ∧ upscaleError s' = None.
Proof.
  intros Himg Hsrc Hres s'. subst s'. unfold handleUpscale.
  rewrite Himg, Hsrc. cbn [run invocations]. rewrite Hres.
  unfold imageToUpscale, sourceImage in *.
  destruct (appMode snap) eqn:Hmode, (creativeMode snap) eqn:Hcm, target;
    cbn; rewrite ?Hmode, ?Hcm; cbn; by split_and!.
Qed.

(** ** The auto-analysis effect *)

(** The state in which the effect fires: design-kit mode, both images
    present, the flag on (as at start). *)
Lemma analysis_fires :
  let snap :=
    setReferenceImage (Some (sampleImage "scene"))
      (setProductImage (Some (sampleImage "bottle")) sampleState) in
  invocations (runAnalysis sampleConstants snap)
  = [Invoke (analyzeForCompositeSuggestions (sampleImage "bottle")
               (sampleImage "scene"))].
Proof. reflexivity. Qed.

(** C2, where the code departs from it. The analysis resolves to a
    camera suggestion that names no preset of the camera table: the
    full replace leaves the camera selection empty. *)
Theorem analysis_can_empty_selection :
  let snap :=
    setReferenceImage (Some (sampleImage "scene"))
      (setProductImage (Some (sampleImage "bottle")) sampleState) in
  let svc := sampleService None {[ "camera" := ["telephoto"] ]} in
  wellFormedSelection (selectedCameras snap)
  ∧ selectedCameras (run svc (runAnalysis sampleConstants snap) snap) = [].
Proof.
  split.
  - by left.
  - by vm_compute.
Qed.

(** A suggestion that names the sentinel next to another preset is
    taken as it is: the sentinel ends up selected among others. *)
Lemma analysis_can_mix_sentinel :
  let snap :=
    setReferenceImage (Some (sampleImage "scene"))
      (setProductImage (Some (sampleImage "bottle")) sampleState) in
  let svc := sampleService None {[ "camera" := ["macro"; "none"] ]} in
  selectedCameras (run svc (runAnalysis sampleConstants snap) snap)
  = [sampleCamera "none"; sampleCamera "macro"].
Proof. by vm_compute. Qed.

(** * The theorems at concrete inputs *)

Ltac by_evaluation := apply (bool_decide_unpack _); vm_compute; exact I.

Lemma toggle_four_cases_witness :
  let presets := CAMERA_PRESETS sampleConstants in
  let N := sampleCamera "none" in
  findNone presets = Some N
  ∧ createToggleHandler presets (sampleCamera "macro") [sampleCamera "wide"]
    = Some [sampleCamera "wide"; sampleCamera "macro"].
Proof.
  intros presets N.
  assert (findNone presets = Some N) as Hfind by reflexivity.
  split; [exact Hfind|].
  destruct (toggle_four_cases presets N (sampleCamera "macro")
              [sampleCamera "wide"] Hfind) as (_ & Htoggle & _).
  exact Htoggle.
Defined.

Lemma toggle_twice_absent_witness :
  let presets := CAMERA_PRESETS sampleConstants in
  let sel := [sampleCamera "wide"] in
  let p := sampleCamera "macro" in
  (sel ≠ [] ∧ ("none" ∉ (id <$> sel)) ∧ NoDup (id <$> sel)
   ∧ id p ≠ "none" ∧ id p ∉ (id <$> sel))
  ∧ createToggleHandler presets p sel ≫= createToggleHandler presets p
    = Some sel.
Proof.
  assert ([sampleCamera "wide"] ≠ []) as H1 by discriminate.
  assert ("none" ∉ (id <$> [sampleCamera "wide"])) as H2 by by_evaluation.
  assert (NoDup (id <$> [sampleCamera "wide"])) as H3 by by_evaluation.
  assert (id (sampleCamera "macro") ≠ "none") as H4 by discriminate.
  assert (id (sampleCamera "macro") ∉ (id <$> [sampleCamera "wide"]))
    as H5 by by_evaluation.
  split; [by split_and!|].
  exact (toggle_twice_absent (CAMERA_PRESETS sampleConstants)
           (sampleCamera "macro") [sampleCamera "wide"] H1 H2 H3 H4 H5).
Defined.

Lemma mockup_single_select_witness :
  MOCKUP_PRESETS sampleConstants !! 0 = Some (samplePreset "none")
  ∧ handleMockupSelect sampleConstants (samplePreset "billboard")
      [samplePreset "billboard"]
    = Some [samplePreset "none"].
Proof.
  split; [reflexivity|].
  exact (mockup_single_select sampleConstants (samplePreset "none")
           (samplePreset "billboard") [samplePreset "billboard"] eq_refl).
Defined.

Lemma history_append_bounded_witness :
  length sampleItems = 13
  ∧ appendHistory (sampleItem "n") [sampleItem "z"]
    = take 12 [sampleItem "n"; sampleItem "z"]
  ∧ (length (appendHistory (sampleItem "n") [sampleItem "z"]) ≤ 12)%nat
  ∧ appendAll sampleItems [sampleItem "z"] = reverse (drop 1 sampleItems)
  ∧ length (appendAll sampleItems [sampleItem "z"]) = 12.
Proof.
  split; [reflexivity|].
  exact (history_append_bounded (sampleItem "n") sampleItems
           [sampleItem "z"] eq_refl).
Defined.

Lemma magic_composite_toggle_witness :
  let K := sampleConstants in
  let s := setSelectedCameras [sampleCamera "wide"; sampleCamera "macro"]
             (setSuggestedPresetIds {[ "camera" := ["wide"; "macro"] ]}
                sampleState) in
  (CAMERA_PRESETS K !! 0 = Some (sampleCamera "none")
   ∧ LIGHTING_PRESETS K !! 0 = Some (sampleLighting "none")
   ∧ MANIPULATION_PRESETS K !! 0 = Some (samplePreset "none")
   ∧ RETOUCH_PRESETS K !! 0 = Some (samplePreset "none")
   ∧ PEOPLE_RETOUCH_PRESETS K !! 0 = Some (samplePreset "none"))
  ∧ (selectedCameras <$> handleMagicCompositeToggle K false s)
    = Some [sampleCamera "none"]
  ∧ (suggestedPresetIds <$> handleMagicCompositeToggle K false s) = Some ∅
  ∧ (selectedCameras <$> handleMagicCompositeToggle K true s)
    = Some [sampleCamera "wide"; sampleCamera "macro"].
Proof.
  intros K s. split; [by split_and!|].
  destruct (magic_composite_toggle K s (sampleCamera "none")
              (sampleLighting "none") (samplePreset "none")
              (samplePreset "none") (samplePreset "none")
              eq_refl eq_refl eq_refl eq_refl eq_refl)
    as [(off & -> & _ & Hcam & _ & _ & _ & _ & Hmap)
        (on & -> & _ & Hkeep & _)].
  cbn [fmap option_fmap option_map].
  by rewrite Hcam, Hmap, Hkeep.
Defined.

Lemma failed_precondition_makes_no_call_witness :
  let svc := sampleService (Some (sampleResult "render")) ∅ in
  precondition CompositeGeneration sampleState = false
  ∧ invocations (handler sampleConstants CompositeGeneration sampleState) = []
  ∧ ∃ msg,
      error (run svc (handler sampleConstants CompositeGeneration sampleState)
               sampleState) = Some msg
      ∧ msg ≠ "".
Proof.
  split; [reflexivity|].
  exact (failed_precondition_makes_no_call sampleConstants
           CompositeGeneration sampleState sampleState
           (sampleService (Some (sampleResult "render")) ∅) eq_refl).
Defined.

Lemma run_start_error_slots_witness :
  let snap := setPersonImage (Some (sampleImage "portrait")) sampleState in
  let cur :=
    setError (Some "The AI could not generate an image. Please try again.")
      (setCreativeError (Some "The AI could not retouch the image.") snap) in
  let s' := begin (handler sampleConstants SmartRetouch snap) cur in
  precondition SmartRetouch snap = true
  ∧ creativeError s' = None
  ∧ error s' = error cur
  ∧ upscaleError s' = upscaleError cur.
Proof.
  intros snap cur s'. split; [reflexivity|].
  exact (run_start_error_slots sampleConstants SmartRetouch snap cur eq_refl).
Defined.

Lemma upscale_success_witness :
  let snap :=
    setCreativeMode Retouch
      (setAppMode CreativeStudio
         (setRetouchResultImage (Some (sampleResult "retouched"))
            (setPersonImage (Some (sampleImage "portrait")) sampleState))) in
  let svc := sampleService (Some (sampleResult "retouched-4k")) ∅ in
  let s' := run svc (handleUpscale FourK snap) snap in
  (imageToUpscale snap = Some (sampleResult "retouched")
   ∧ sourceImage snap = Some (sampleImage "portrait")
   ∧ respond svc _ (upscaleImage (sampleResult "retouched") FourK)
     = Fulfilled (Some (sampleResult "retouched-4k")))
  ∧ retouchResultImage s' = Some (sampleResult "retouched-4k")
  ∧ (prompt <$> head (generationHistory s')) = Some "Upscaled to 4K".
Proof.
  intros snap svc s'. split; [by split_and!|].
  destruct (upscale_success FourK snap svc (sampleResult "retouched")
              (sampleResult "retouched-4k") (sampleImage "portrait")
              eq_refl eq_refl eq_refl)
    as (_ & Himg & _ & Hhist & _).
  split; [exact Himg|]. fold s' in Hhist. by rewrite Hhist.
Defined.

(** * Where the code departs from the specification's words *)

(** Against C4: selecting what a smart retouch recorded restores the
    retouch mode, and the item's prompt is stored in no text field of
    the state. *)
Lemma history_select_drops_retouch_prompt :
  let item := sampleRetouchItem in
  let s' := handleHistorySelect item sampleState in
  appMode s' = CreativeStudio
  ∧ creativeMode s' = Retouch
  ∧ customPrompt s' ≠ prompt item
  ∧ illustrationCustomPrompt s' ≠ prompt item
  ∧ artistCommand (retouchOptions s') ≠ prompt item
  ∧ selectedEnvironment s' ≠ prompt item
  ∧ generationStatusText s' ≠ prompt item.
Proof. by split_and!. Qed.

(** An item of creative-studio mode without a sub-mode, which the type
    allows and no pipeline records: the sub-mode falls back to
    illustrate while the retouch fields receive the item. *)
Lemma history_select_without_submode :
  let item :=
    {| item_id := "x"; generated := sampleResult "picture";
       source := sampleImage "original"; prompt := "a prompt";
       mode := CreativeStudio; creativeSubMode := None |} in
  let s' := handleHistorySelect item sampleState in
  creativeMode s' = Illustrate
  ∧ illustrationImage s' = None
  ∧ illustrationResultImage s' = None
  ∧ personImage s' = Some (sampleImage "original")
  ∧ retouchResultImage s' = Some (sampleResult "picture").
Proof. by split_and!. Qed.

(** Against C5: the upscale pipeline does not look at the online flag,
    so an offline run with its images present makes the external call;
    and a run without its images returns with every error slot still
    empty. *)
Lemma upscale_guard_counterexample :
  let svc := sampleService (Some (sampleResult "render-4k")) ∅ in
  let offline :=
    setIsOnline false
      (setGeneratedImage (Some (sampleResult "render"))
         (setProductImage (Some (sampleImage "bottle")) sampleState)) in
  let s' := run svc (handleUpscale FourK sampleState) sampleState in
  (isOnline offline = false
   ∧ invocations (handleUpscale FourK offline)
     = [Invoke (upscaleImage (sampleResult "render") FourK)])
  ∧ (imageToUpscale sampleState = None
     ∧ sourceImage sampleState = None
     ∧ upscaleError s' = None ∧ error s' = None ∧ creativeError s' = None).
Proof. by split_and!. Qed.

(** Against C6: starting a composite generation clears the upscale
    error, which is not its own slot. *)
Lemma generation_start_clears_upscale_error :
  let cur :=
    setUpscaleError (Some "The AI could not upscale the image.")
      (setProductImage (Some (sampleImage "bottle")) sampleState) in
  let s' := begin (handleDesignKitGeneration cur) cur in
  precondition CompositeGeneration cur = true
  ∧ upscaleError cur = Some "The AI could not upscale the image."
  ∧ upscaleError s' = None.
Proof. by split_and!. Qed.

(** Against C8: in design-kit mode the history item of an upscale
    carries the custom prompt, not a text that names the upscale. *)
Lemma upscale_design_kit_prompt :
  let snap :=
    setCustomPrompt "studio shot"
      (setGeneratedImage (Some (sampleResult "render"))
         (setProductImage (Some (sampleImage "bottle")) sampleState)) in
  let svc := sampleService (Some (sampleResult "render-4k")) ∅ in
  let s' := run svc (handleUpscale FourK snap) snap in
  generatedImage s' = Some (sampleResult "render-4k")
  ∧ (prompt <$> head (generationHistory s')) = Some "studio shot"
  ∧ (prompt <$> head (generationHistory s')) ≠ Some "Upscaled to 4K".
Proof. by split_and!. Qed.

(** * Further properties of the controller *)

(** ** Toggling and the marks of the preset rows *)

Section ToggleAlgebra.
Context {T : Type} `{Identified T}.
Implicit Types (sel presets : list T) (preset p N : T) (i : string).

Lemma isSelected_ids sel preset :
  isSelected sel preset = bool_decide (id preset ∈ (id <$> sel)).
Proof.
  unfold isSelected. apply bool_decide_ext, some_is_elem_of_ids.
Qed.



End ToggleAlgebra.

(** X2. Toggling a preset other than the sentinel flips the mark of that
    preset in the list and leaves the mark of every other preset that
    is not the sentinel as it was. *)
Theorem toggle_flips_mark {T : Type} `{Identified T}
    (presets : list T) (N preset : T) (sel : list T) :
  findNone presets = Some N →
  id preset ≠ "none" →
  ∃ next, createToggleHandler presets preset sel = Some next
    ∧ isSelected next preset = negb (isSelected sel preset)
    ∧ ∀ q, id q ≠ id preset → id q ≠ "none" →
           isSelected next q = isSelected sel q.
Proof.
  intros HN Hp. pose proof (findNone_id _ _ HN) as HidN.
  rewrite (createToggleHandler_refines _ _ _ _ HN).
  eexists; split; [done|]. unfold spec_toggle.
  rewrite decide_False by done.
  destruct (decide (id preset ∈ (id <$> sel))) as [Hs|Hs].
  - destruct (decide (length sel = 1)) as [Hl|Hl].
    + destruct sel as [|x [|y rest]]; [by cbn in Hl| |by cbn in Hl].
      apply list_elem_of_singleton in Hs. split.
      * rewrite !isSelected_ids. cbn.
        rewrite bool_decide_eq_false_2, bool_decide_eq_true_2; [done|..].
        { by apply list_elem_of_singleton. }
        { rewrite list_elem_of_singleton. congruence. }
      * intros q Hq Hqn. rewrite !isSelected_ids. cbn.
        rewrite !bool_decide_eq_false_2; [done|..];
          rewrite list_elem_of_singleton; congruence.
    + split.
      * rewrite !isSelected_ids, ids_without.
        rewrite bool_decide_eq_false_2, bool_decide_eq_true_2; [done..|].
        rewrite list_elem_of_filter. tauto.
      * intros q Hq Hqn. rewrite !isSelected_ids, ids_without.
        apply bool_decide_ext. rewrite list_elem_of_filter. tauto.
  - split.
    + rewrite !isSelected_ids, fmap_app, ids_without.
      rewrite bool_decide_eq_true_2, bool_decide_eq_false_2; [done..|].
      rewrite elem_of_app. right. by apply list_elem_of_singleton.
    + intros q Hq Hqn. rewrite !isSelected_ids, fmap_app, ids_without.
      apply bool_decide_ext.
      rewrite elem_of_app, list_elem_of_filter. cbn.
      rewrite list_elem_of_singleton. tauto.
Qed.


(** X4. From the default of the mockup table, selecting any preset twice
    comes back to the default; and after any mockup selection exactly
    one preset is selected, the clicked one or the default. *)
Theorem mockup_select_round_trip (K : Constants) (d preset : MockupPreset)
    (current : list MockupPreset) :
  MOCKUP_PRESETS K !! 0 = Some d →
  (handleMockupSelect K preset [d] ≫= handleMockupSelect K preset) = Some [d]
  ∧ ∃ m, handleMockupSelect K preset current = Some [m]
         ∧ (m = preset ∨ m = d).
Proof.
  intros Hd. unfold handleMockupSelect. rewrite Hd. split.
  - destruct (decide (id d = id preset)) as [Heq|Hne].
    + rewrite bool_decide_eq_true_2 by (cbn; f_equal; exact Heq).
      cbn. by rewrite bool_decide_eq_true_2 by (cbn; f_equal; exact Heq).
    + rewrite bool_decide_eq_false_2 by (cbn; intros [= Heq]; exact (Hne Heq)).
      cbn. by rewrite bool_decide_eq_true_2.
  - case_bool_decide; cbn; eauto.
Qed.

(** ** The magic-composite switch and the export controls *)

(** X5. Two clicks on the magic-composite switch bring the flag back to
    where it was, and lose what was selected: the five selections hold
    the index-0 preset of their table and the suggestion map is
    empty. *)
Theorem magic_composite_click_twice (K : Constants) (s : AppState)
    (camera : CameraPreset) (lighting : LightingPreset)
    (manipulation : ManipulationPreset) (retouch : RetouchPreset)
    (peopleRetouch : PeopleRetouchPreset) :
  CAMERA_PRESETS K !! 0 = Some camera →
  LIGHTING_PRESETS K !! 0 = Some lighting →
  MANIPULATION_PRESETS K !! 0 = Some manipulation →
  RETOUCH_PRESETS K !! 0 = Some retouch →
  PEOPLE_RETOUCH_PRESETS K !! 0 = Some peopleRetouch →
  ∃ s', magicCompositeClick K s ≫= magicCompositeClick K = Some s'
        ∧ useMagicComposite s' = useMagicComposite s
        ∧ selectedCameras s' = [camera]
        ∧ selectedLightings s' = [lighting]
        ∧ selectedManipulations s' = [manipulation]
        ∧ selectedRetouches s' = [retouch]
        ∧ selectedPeopleRetouches s' = [peopleRetouch]
        ∧ suggestedPresetIds s' = ∅
        ∧ selectedMockups s' = selectedMockups s.
Proof.
  intros Hc Hl Hm Hr Hp.
  assert (∀ x, handleMagicCompositeToggle K false x
               = Some ((setUseMagicComposite false ;;
                        setSelectedCameras [camera] ;;
                        setSelectedLightings [lighting] ;;
                        setSelectedManipulations [manipulation] ;;
                        setSelectedRetouches [retouch] ;;
                        setSelectedPeopleRetouches [peopleRetouch] ;;
                        setSuggestedPresetIds ∅)%upd x)) as Hoff.
  { intros x. unfold handleMagicCompositeToggle.
    by rewrite Hc, Hl, Hm, Hr, Hp. }
  unfold magicCompositeClick.
  destruct (useMagicComposite s) eqn:Hflag; cbn [negb].
  - rewrite Hoff. cbn [mbind option_bind].
    match goal with
    | |- context [handleMagicCompositeToggle K (negb (useMagicComposite ?x)) _] =>
        change (useMagicComposite x) with false
    end.
    cbn [negb]. eexists. split; [reflexivity|].
    split_and!; reflexivity.
  - change (handleMagicCompositeToggle K true s)
      with (Some (setUseMagicComposite true s)).
    cbn [mbind option_bind].
    change (useMagicComposite (setUseMagicComposite true s)) with true.
    cbn [negb]. rewrite Hoff. eexists. split; [reflexivity|].
    split_and!; reflexivity.
Qed.

(** X6. The two export controls act on their own field: they commute, the
    aspect ratio chosen last is the one kept, and two clicks on the
    transparency switch give the settings back. *)
Theorem export_controls_compose (settings : ExportSettings)
    (value other : AspectRatio) :
  handleAspectRatioChange (transparencyClick settings) value
  = transparencyClick (handleAspectRatioChange settings value)
  ∧ handleAspectRatioChange (handleAspectRatioChange settings other) value
    = handleAspectRatioChange settings value
  ∧ transparencyClick (transparencyClick settings) = settings
  ∧ transparent (handleAspectRatioChange settings value)
    = transparent settings.
Proof.
  destruct settings as [ratio [|]]; by split_and!.
Qed.

(** ** What a run does to the state, whatever the service answers *)

(** Case analysis on the answer of the service to the call of a run. *)
Ltac case_response svc :=
  cbn [run begin settle invocations andThen];
  match goal with
  | |- context [respond svc ?A ?c] =>
      let Hresp := fresh "Hresp" in
      destruct (respond svc A c) as [?|?] eqn:Hresp
  end;
  repeat match goal with
         | |- context [match ?v with _ => _ end] => is_var v; destruct v
         end.

(** X7. A run whose guard passes raises the busy flag of its pipeline
    before it suspends and has lowered it when it is over, whatever the
    call came to; the pipelines that show a status text show one while
    suspended and none afterwards. *)
Theorem busy_raised_then_lowered (K : Constants) (p : Pipeline)
    (snap cur : AppState) (svc : Service) :
  precondition p snap = true →
  let s1 := begin (handler K p snap) cur in
  let s' := run svc (handler K p snap) cur in
  busy p s1 = true
  ∧ busy p s' = false
  ∧ match p with
    | IllustrationGeneration | Vectorize | SmartRetouch
    | EnvironmentGeneration | Upscale _ =>
        generationStatusText s1 ≠ "" ∧ generationStatusText s' = ""
    | _ =>
        generationStatusText s1 = generationStatusText cur
        ∧ generationStatusText s' = generationStatusText cur
    end.
Proof.
  intros Hpre s1 s'. subst s1 s'.
  destruct p; unfold_handler; case_on_fields snap; try discriminate;
    (split; [reflexivity|]); case_response svc;
    (split; [reflexivity|]); split; (reflexivity || discriminate).
Qed.

(** With the answer to the image call of a run at hand: the run is
    past its guard, and the answer can be put in place of the call. *)
Ltac use_image_answer Hans svc :=
  cbn [imageAnswer] in Hans; try discriminate Hans;
  injection Hans as Hans; cbn [run begin settle andThen]; rewrite Hans.

(** X8. A run of an image pipeline whose call does not come to a result, be
    it an empty answer or a rejection, records nothing in the history
    and leaves a message in its error slot. After the four generation
    pipelines the result field of the pipeline is empty, the previous
    result having been cleared at the start; after an upscale the three
    result fields are as they were. *)
Theorem failed_run_outcome (K : Constants) (p : Pipeline)
    (snap cur : AppState) (svc : Service)
    (answer : Settled (option GeneratedImage)) :
  imageAnswer svc (handler K p snap) = Some answer →
  (∀ r, answer ≠ Fulfilled (Some r)) →
  let s' := run svc (handler K p snap) cur in
  generationHistory s' = generationHistory cur
  ∧ is_Some (slot p s')
  ∧ match p with
    | CompositeGeneration => generatedImage s' = None
    | IllustrationGeneration => illustrationResultImage s' = None
    | SmartRetouch | EnvironmentGeneration => retouchResultImage s' = None
    | _ =>
        generatedImage s' = generatedImage cur
        ∧ illustrationResultImage s' = illustrationResultImage cur
        ∧ retouchResultImage s' = retouchResultImage cur
    end.
Proof.
  intros Hans Hno s'. subst s'.
  destruct p; unfold_handler; case_on_fields snap;
    use_image_answer Hans svc;
    destruct answer as [[r|]|e]; try (by destruct (Hno r));
    repeat split; try reflexivity; by eexists.
Qed.


(** X10. No run of any pipeline changes the mode, a preset selection, an
    uploaded image, a prompt text, the retouch options, the
    magic-composite flag or the suggestion map. *)
Theorem run_frame (K : Constants) (p : Pipeline) (snap cur : AppState)
    (svc : Service) :
  let s' := run svc (handler K p snap) cur in
  (appMode s' = appMode cur ∧ creativeMode s' = creativeMode cur
   ∧ retouchSubMode s' = retouchSubMode cur)
  ∧ (selectedCameras s' = selectedCameras cur
     ∧ selectedLightings s' = selectedLightings cur
     ∧ selectedMockups s' = selectedMockups cur
     ∧ selectedManipulations s' = selectedManipulations cur
     ∧ selectedPeopleRetouches s' = selectedPeopleRetouches cur
     ∧ selectedRetouches s' = selectedRetouches cur)
  ∧ (productImage s' = productImage cur
     ∧ referenceImage s' = referenceImage cur
     ∧ illustrationImage s' = illustrationImage cur
     ∧ illustrationReferenceImage s' = illustrationReferenceImage cur
     ∧ personImage s' = personImage cur)
  ∧ (customPrompt s' = customPrompt cur
     ∧ illustrationCustomPrompt s' = illustrationCustomPrompt cur
     ∧ retouchOptions s' = retouchOptions cur)
  ∧ (useMagicComposite s' = useMagicComposite cur
     ∧ suggestedPresetIds s' = suggestedPresetIds cur
     ∧ isOnline s' = isOnline cur).
Proof.
  intros s'. subst s'.
  destruct p; unfold_handler; case_on_fields snap;
    try (by repeat split); case_response svc; by repeat split.
Qed.

(** ** The auto-analysis effect: failure and success *)

(** X11. When the analysis call is rejected, the six selections are as they
    were, the design-kit error holds the analysis message, and the
    suggestion map is empty: it was emptied when the analysis began. *)
Theorem analysis_failure_keeps_selections (K : Constants)
    (snap cur : AppState) (svc : Service) (product reference : ImageFile)
    (e : Thrown) :
  appMode snap = DesignKit →
  productImage snap = Some product →
  referenceImage snap = Some reference →
  useMagicComposite snap = true →
  respond svc _ (analyzeForCompositeSuggestions product reference)
  = Rejected e →
  let s' := run svc (runAnalysis K snap) cur in
  (selectedCameras s' = selectedCameras cur
   ∧ selectedLightings s' = selectedLightings cur
   ∧ selectedMockups s' = selectedMockups cur
   ∧ selectedManipulations s' = selectedManipulations cur
   ∧ selectedPeopleRetouches s' = selectedPeopleRetouches cur
   ∧ selectedRetouches s' = selectedRetouches cur)
  ∧ error s'
    = Some "AI analysis failed. Please check the console for details."
  ∧ suggestedPresetIds s' = ∅
  ∧ isAnalyzing s' = false.
Proof.
  intros Hmode Hproduct Href Hflag Hrej s'. subst s'.
  unfold runAnalysis. rewrite Hmode, Hproduct, Href, Hflag.
  cbn [run andThen]. rewrite Hrej. by repeat split.
Qed.

Lemma applySuggestion_replacedBy {T : Type} `{Identified T}
    (suggestions : SuggestionMap) (key : string) (table : list T)
    (setSelected : list T → Update) (selected : AppState → list T)
    (s : AppState) :
  (∀ v x, selected (setSelected v x) = v) →
  replacedBy suggestions key table (selected s)
    (selected (applySuggestion suggestions key table setSelected s)).
Proof.
  intros Hset. unfold replacedBy, applySuggestion.
  destruct (suggestions !! key) as [[|first others]|]; [done| |done].
  rewrite Hset. split; [apply sublist_filter|].
  intros q. rewrite list_elem_of_filter. tauto.
Qed.

Lemma applySuggestion_frame {T : Type} `{Identified T} {B : Type}
    (suggestions : SuggestionMap) (key : string) (table : list T)
    (setSelected : list T → Update) (proj : AppState → B) (s : AppState) :
  (∀ v x, proj (setSelected v x) = proj x) →
  proj (applySuggestion suggestions key table setSelected s) = proj s.
Proof.
  intros Hframe. unfold applySuggestion.
  destruct (suggestions !! key) as [[|first others]|]; auto.
Qed.

(** The final two updates of a fulfilled analysis do not change what
    [proj] reads. *)
Ltac past_analysis_tail proj :=
  match goal with
  | |- context [proj (setIsAnalyzing false (setSuggestedPresetIds ?m ?x))] =>
      change (proj (setIsAnalyzing false (setSuggestedPresetIds m x)))
        with (proj x)
  end.

Ltac analysis_selection proj :=
  past_analysis_tail proj;
  rewrite ?(applySuggestion_frame _ _ _ _ proj) by reflexivity;
  try match goal with
      | |- replacedBy _ _ _ ?before (proj (applySuggestion _ _ _ _ ?x)) =>
          replace before with (proj x);
          [ apply (applySuggestion_replacedBy _ _ _ _ proj); reflexivity
          | rewrite ?(applySuggestion_frame _ _ _ _ proj) by reflexivity;
            reflexivity ]
      end.

(** X12. When the analysis call is fulfilled, each of the five selections it
    covers is left alone if the suggestion map has no ids for it, and is
    otherwise replaced by the presets of its table whose id is
    suggested, in the order of the table; the mockup selection is not
    touched, and the map is stored. *)
Theorem analysis_success_replaces (K : Constants) (snap cur : AppState)
    (svc : Service) (product reference : ImageFile)
    (suggestions : SuggestionMap) :
  appMode snap = DesignKit →
  productImage snap = Some product →
  referenceImage snap = Some reference →
  useMagicComposite snap = true →
  respond svc _ (analyzeForCompositeSuggestions product reference)
  = Fulfilled suggestions →
  let s' := run svc (runAnalysis K snap) cur in
  replacedBy suggestions "camera" (CAMERA_PRESETS K)
    (selectedCameras cur) (selectedCameras s')
  ∧ replacedBy suggestions "lighting" (LIGHTING_PRESETS K)
      (selectedLightings cur) (selectedLightings s')
  ∧ replacedBy suggestions "manipulation" (MANIPULATION_PRESETS K)
      (selectedManipulations cur) (selectedManipulations s')
  ∧ replacedBy suggestions "retouch" (RETOUCH_PRESETS K)
      (selectedRetouches cur) (selectedRetouches s')
  ∧ replacedBy suggestions "peopleRetouch" (PEOPLE_RETOUCH_PRESETS K)
      (selectedPeopleRetouches cur) (selectedPeopleRetouches s')
  ∧ selectedMockups s' = selectedMockups cur
  ∧ suggestedPresetIds s' = suggestions
  ∧ isAnalyzing s' = false
  ∧ error s' = error cur.
Proof.
  intros Hmode Hproduct Href Hflag Hok s'. subst s'.
  unfold runAnalysis. rewrite Hmode, Hproduct, Href, Hflag.
  cbn [run]. rewrite Hok. unfold andThen. cbv beta iota. split_and!.
  - analysis_selection selectedCameras.
  - analysis_selection selectedLightings.
  - analysis_selection selectedManipulations.
  - analysis_selection selectedRetouches.
  - analysis_selection selectedPeopleRetouches.
  - analysis_selection selectedMockups. reflexivity.
  - reflexivity.
  - reflexivity.
  - analysis_selection error. reflexivity.
Qed.

Lemma ids_filter_suggested {T : Type} `{Identified T} (ids : list string)
    (table : list T) :
  id <$> filter (λ p, id p ∈ ids) table
  = filter (λ i, i ∈ ids) (id <$> table).
Proof.
  induction table as [|p table IH]; [done|].
  rewrite fmap_cons, !filter_cons.
  destruct (decide (id p ∈ ids)); by rewrite ?fmap_cons, IH.
Qed.

(** X13. A replacement by the analysis is a well-formed selection when the
    table has no two presets of one id, some suggested id names a preset
    of the table, and the sentinel is not suggested next to another
    id. *)
Theorem suggestion_keeps_wellFormed {T : Type} `{Identified T}
    (suggestions : SuggestionMap) (key : string) (table : list T)
    (setSelected : list T → Update) (ids : list string) :
  suggestions !! key = Some ids →
  NoDup (id <$> table) →
  (∃ q, q ∈ table ∧ id q ∈ ids) →
  ("none" ∈ ids → ∀ i, i ∈ ids → i = "none") →
  ∃ sel, applySuggestion suggestions key table setSelected = setSelected sel
         ∧ wellFormedSelection sel.
Proof.
  intros Hkey Hnd (q & Hq & Hqid) Honly.
  unfold applySuggestion. rewrite Hkey.
  destruct ids as [|first others]; [by apply elem_of_nil in Hqid|].
  eexists; split; [reflexivity|].
  set (ids := first :: others) in *.
  assert (q ∈ filter (λ p, id p ∈ ids) table) as Hin.
  { by apply list_elem_of_filter. }
  assert (NoDup (id <$> filter (λ p, id p ∈ ids) table)) as Hnd'.
  { rewrite ids_filter_suggested. by apply NoDup_filter. }
  destruct (decide ("none" ∈ ids)) as [Hnone|Hnone].
  - left. specialize (Honly Hnone).
    assert (∀ i, i ∈ (id <$> filter (λ p, id p ∈ ids) table) → i = "none")
      as Hall.
    { intros i. rewrite ids_filter_suggested, list_elem_of_filter.
      intros [? _]. by apply Honly. }
    destruct (filter (λ p, id p ∈ ids) table) as [|a [|b rest]].
    + by apply elem_of_nil in Hin.
    + cbn. f_equal. apply Hall. cbn. apply list_elem_of_here.
    + exfalso. cbn in Hnd', Hall. apply NoDup_cons in Hnd' as [Hab _].
      apply Hab. rewrite (Hall (id a)) by apply list_elem_of_here.
      rewrite <- (Hall (id b)) at 1; [apply list_elem_of_here|].
      apply list_elem_of_further, list_elem_of_here.
  - right. split_and!; [|  |done].
    + intros Hnil. rewrite Hnil in Hin. by apply elem_of_nil in Hin.
    + rewrite ids_filter_suggested, list_elem_of_filter. tauto.
Qed.

(** ** The buttons *)

Ltac find_true :=
  first [ reflexivity
        | apply orb_true_intro; first [right; find_true | left; find_true] ].

(** X14. While a run is suspended on its call, the button that started it is
    disabled. *)
Theorem button_disabled_while_suspended (K : Constants) (b : Button)
    (snap cur : AppState) :
  precondition (onClick b) snap = true →
  disabled b (begin (handler K (onClick b) snap) cur) = true.
Proof.
  intros Hpre.
  destruct b; unfold onClick in *; unfold_handler; case_on_fields snap;
    try discriminate; cbn [begin]; unfold disabled; find_true.
Qed.

(** X15. A button that is on the page and not disabled starts a run whose
    guard passes, provided the client is online and, for the two upscale
    buttons, the source image of the current mode is still there. *)
Theorem enabled_button_passes_guard (b : Button) (s : AppState) :
  rendered b s = true →
  disabled b s = false →
  isOnline s = true →
  match b with
  | IllustrationUpscaleButton | RetouchUpscaleButton =>
      present (sourceImage s) = true
  | _ => True
  end →
  precondition (onClick b) s = true.
Proof.
  intros Hrendered Henabled Honline Hsource.
  destruct b;
    unfold rendered, disabled, onClick, precondition, imageToUpscale,
      sourceImage, present in *;
    rewrite ?Honline;
    repeat case_bool_decide; repeat case_match; simplify_eq/=; done.
Qed.

(** ** The failure overlay *)

(** X16. After a run of an image pipeline that came to an empty answer, with
    nothing else in flight, the overlay of the pipeline's view shows the
    message of that run: the design-kit view for the composite
    pipeline, the creative view for the illustration, smart-retouch and
    environment pipelines whichever the creative sub-mode is, and either
    view for the upscale. *)
Theorem overlay_shows_failure (K : Constants) (p : Pipeline)
    (snap cur : AppState) (svc : Service) (m : CreativeMode) :
  imageAnswer svc (handler K p snap) = Some (Fulfilled None) →
  isLoading cur = false → isGeneratingCreative cur = false →
  isGeneratingIllustration cur = false → isVectorizing cur = false →
  isUpscaling cur = None →
  match p with
  | CompositeGeneration => appMode cur = DesignKit
  | Upscale _ => True
  | _ => appMode cur = CreativeStudio
  end →
  let s' := run svc (handler K p snap) cur in
  truthyText (slot p s') = true
  ∧ errorOverlay s' = slot p s'
  ∧ errorOverlay (setCreativeMode m s') = slot p s'.
Proof.
  intros Hans Hl Hgc Hgi Hv Hu Hview s'. subst s'.
  destruct cur; cbn in Hl, Hgc, Hgi, Hv, Hu, Hview; subst.
  destruct p; unfold_handler; case_on_fields snap;
    use_image_answer Hans svc;
    cbn in Hview; subst;
    repeat match goal with a : AppMode |- _ => destruct a end;
    by split_and!.
Qed.

(** X17. A composite generation seen in the design-kit view, or an upscale
    seen in either view, that is rejected with an error whose message is
    empty, shows no failure overlay: the slot holds the empty text. *)
Theorem empty_message_shows_nothing (K : Constants) (p : Pipeline)
    (snap cur : AppState) (svc : Service) :
  precondition p snap = true →
  (∀ A (call : ExternalCall A),
     respond svc A call = Rejected (ThrownError "")) →
  match p with
  | CompositeGeneration => appMode cur = DesignKit
  | Upscale _ => True
  | _ => False
  end →
  let s' := run svc (handler K p snap) cur in
  slot p s' = Some "" ∧ errorOverlay s' = None.
Proof.
  intros Hpre Hrej Hview s'. subst s'.
  destruct cur; cbn in Hview.
  destruct p; try done; unfold_handler; case_on_fields snap;
    try discriminate; cbn [run andThen]; rewrite Hrej; subst;
    repeat match goal with a : AppMode |- _ => destruct a end;
    by split_and!.
Qed.

(** ** Runs that overlap *)

(** X18. Two composite generations in flight at once, the second settling
    first: when the second settles the busy flag is lowered although
    the first is still in flight, and when the first settles its result
    replaces that of the second; the history holds both, the one that
    settled last in front. *)
Theorem overlapping_generations (snap1 snap2 cur : AppState)
    (svc1 svc2 : Service) (product1 product2 : ImageFile)
    (r1 r2 : GeneratedImage) :
  productImage snap1 = Some product1 →
  productImage snap2 = Some product2 →
  imageAnswer svc1 (handleDesignKitGeneration snap1)
  = Some (Fulfilled (Some r1)) →
  imageAnswer svc2 (handleDesignKitGeneration snap2)
  = Some (Fulfilled (Some r2)) →
  let run1 := handleDesignKitGeneration snap1 in
  let run2 := handleDesignKitGeneration snap2 in
  let item svc snap product r :=
    {| item_id := toISOString svc; generated := r; source := product;
       prompt := customPrompt snap; mode := DesignKit;
       creativeSubMode := None |} in
  let both := begin run2 (begin run1 cur) in
  let mid := settle svc2 run2 both in
  let final := settle svc1 run1 mid in
  isLoading both = true
  ∧ (isLoading mid = false ∧ generatedImage mid = Some r2)
  ∧ generatedImage final = Some r1
  ∧ generationHistory final
    = appendHistory (item svc1 snap1 product1 r1)
        (appendHistory (item svc2 snap2 product2 r2)
           (generationHistory cur)).
Proof.
  intros Hp1 Hp2 Hr1 Hr2 run1 run2 item both mid final.
  subst run1 run2 item both mid final.
  unfold handleDesignKitGeneration in *. rewrite Hp1, Hp2 in *.
  destruct (isOnline snap1); [|discriminate Hr1].
  destruct (isOnline snap2); [|discriminate Hr2].
  cbn [imageAnswer] in Hr1, Hr2. injection Hr1 as Hr1. injection Hr2 as Hr2.
  cbn [begin settle]. rewrite Hr1, Hr2. by split_and!.
Qed.

(** X19. An upscale writes its result into the result field of the mode in
    which it was started and records that mode, whatever the state has
    become while the call was in flight. *)
Theorem upscale_uses_captured_mode (target : UpscaleTarget)
    (snap cur : AppState) (svc : Service) (image result : GeneratedImage)
    (src : ImageFile) (meanwhile : Update) :
  imageToUpscale snap = Some image →
  sourceImage snap = Some src →
  respond svc _ (upscaleImage image target) = Fulfilled (Some result) →
  let task := handleUpscale target snap in
  let final := settle svc task (meanwhile (begin task cur)) in
  resultFieldOf snap final = Some result
  ∧ (mode <$> head (generationHistory final)) = Some (appMode snap)
  ∧ (source <$> head (generationHistory final)) = Some src.
Proof.
  intros Himg Hsrc Hres task final. subst task final.
  unfold handleUpscale. rewrite Himg, Hsrc. cbn [begin settle].
  rewrite Hres. unfold resultFieldOf.
  destruct (appMode snap), (creativeMode snap); by split_and!.
Qed.

(** ** Selecting from the history *)

(** X20. Selecting an item a second time changes nothing more; and a
    selection changes neither the history nor any preset selection. *)
Theorem history_select_idempotent (item : HistoryItem) (s : AppState) :
  let s' := handleHistorySelect item s in
  handleHistorySelect item s' = s'
  ∧ generationHistory s' = generationHistory s
  ∧ (selectedCameras s' = selectedCameras s
     ∧ selectedLightings s' = selectedLightings s
     ∧ selectedMockups s' = selectedMockups s
     ∧ selectedManipulations s' = selectedManipulations s
     ∧ selectedPeopleRetouches s' = selectedPeopleRetouches s
     ∧ selectedRetouches s' = selectedRetouches s).
Proof.
  destruct s, item as [i g src pr [|] [[|]|]]; vm_compute; by split_and!.
Qed.

(** X21. What a run of an image pipeline records can be selected again: the
    item at the front of the history after a run that came to a result
    carries that result, and selecting it in whatever state the session
    is later in makes it the result of the current mode, with the
    item's source as the source of the current mode. *)
Theorem record_then_select (K : Constants) (p : Pipeline) (s later : AppState)
    (svc : Service) (result : GeneratedImage) :
  imageAnswer svc (handler K p s) = Some (Fulfilled (Some result)) →
  ∃ item,
    head (generationHistory (run svc (handler K p s) s)) = Some item
    ∧ generated item = result
    ∧ imageToUpscale (handleHistorySelect item later) = Some result
    ∧ sourceImage (handleHistorySelect item later) = Some (source item)
    ∧ appMode (handleHistorySelect item later) = mode item.
Proof.
  intros Hans. destruct later.
  destruct p; unfold_handler;
    unfold imageToUpscale, sourceImage in *; case_on_fields s;
    use_image_answer Hans svc;
    eexists; (split; [reflexivity|]); by split_and!.
Qed.

(** X22. In illustrate mode, what an upscale records carries the text that
    names the upscale as its prompt, so that selecting it puts this text
    in place of the custom prompt of the illustration. *)
Theorem upscaled_illustration_select_prompt (target : UpscaleTarget)
    (s later : AppState) (svc : Service) (image result : GeneratedImage)
    (src : ImageFile) :
  appMode s = CreativeStudio →
  creativeMode s = Illustrate →
  illustrationResultImage s = Some image →
  illustrationImage s = Some src →
  respond svc _ (upscaleImage image target) = Fulfilled (Some result) →
  ∃ item,
    head (generationHistory (run svc (handleUpscale target s) s)) = Some item
    ∧ illustrationCustomPrompt (handleHistorySelect item later)
      = match target with
        | Hd => "Upscaled to HD"
        | FourK => "Upscaled to 4K"
        end.
Proof.
  intros Hmode Hsub Himg Hsrc Hok.
  unfold handleUpscale, imageToUpscale, sourceImage.
  rewrite Hmode, Hsub, Himg, Hsrc. cbn [run andThen]. rewrite Hok.
  eexists; split; [reflexivity|]. by destruct target.
Qed.

(** ** The prompt suggestions *)

(** X23. A design-kit suggestion run that comes to a non-empty list shows
    that list in the modal, and choosing a suggestion makes it the
    custom prompt and closes the modal. A run that comes to nothing
    reports it and leaves what the modal shows as it was. *)
Theorem prompt_suggestions_modal (snap cur : AppState) (svc : Service)
    (product : ImageFile) (answer : option (list PromptSuggestion))
    (chosen : string) :
  productImage snap = Some product →
  respond svc _ (generateDesignKitPrompt product (referenceImage snap))
  = Fulfilled answer →
  let s' := run svc (handleGenerateDKPrompt snap) cur in
  match answer with
  | Some (first :: others) =>
      shownDKPrompts s' = Some (first :: others)
      ∧ error s' = None
      ∧ customPrompt (chooseDKPrompt chosen s') = chosen
      ∧ shownDKPrompts (chooseDKPrompt chosen s') = None
      ∧ suggestedDKPrompts (chooseDKPrompt chosen s')
        = Some (first :: others)
  | _ =>
      shownDKPrompts s' = shownDKPrompts cur
      ∧ error s'
        = Some "The AI could not generate any prompt suggestions."
  end.
Proof.
  intros Hproduct Hok s'. subst s'.
  unfold handleGenerateDKPrompt. rewrite Hproduct.
  cbn [run andThen]. rewrite Hok.
  destruct answer as [[|first others]|]; by split_and!.
Qed.

(** ** The translation lookup *)

Lemma split_nonempty sep s : split sep s ≠ [].
Proof.
  destruct s as [|c rest]; cbn; [done|].
  case_bool_decide; [done|]. by destruct (split sep rest).
Qed.

Lemma split_app sep s1 s2 :
  split sep (s1 +:+ String sep s2) = split sep s1 ++ split sep s2.
Proof.
  induction s1 as [|c rest IH].
  - change (split sep (String sep s2) = [""] ++ split sep s2).
    cbn [split]. by rewrite bool_decide_eq_true_2.
  - change (String c rest +:+ String sep s2)
      with (String c (rest +:+ String sep s2)).
    cbn [split]. rewrite IH. case_bool_decide; [done|].
    pose proof (split_nonempty sep rest).
    by destruct (split sep rest).
Qed.

Lemma descend_app node parts1 parts2 :
  descend node (parts1 ++ parts2)
  = descend node parts1 ≫= λ next, descend next parts2.
Proof.
  revert node. induction parts1 as [|part parts1 IH]; intros node; [done|].
  cbn. destruct (step node part); [apply IH|done].
Qed.

Lemma descend_text_inv text parts next :
  descend (Text text) parts = Some next → parts = [] ∧ next = Text text.
Proof. destruct parts; cbn; [by intros [= <-]|done]. Qed.


(** X25. A key that the table of the current language does not have, and
    for which English has a text, gets the English text; an empty
    English text, which [t] returns as it is when English is current,
    is replaced here by the fallback or, without one, by the key. *)
Theorem t_falls_back_to_english (translations : Language → Translation)
    (lang : Language) (key : string) (fallback : option string)
    (text : string) :
  ¬ Exists (λ part, part ∈ inheritedNames) (split "." key) →
  descend (translations lang) (split "." key) = None →
  descend (translations En) (split "." key) = Some (Text text) →
  t translations lang key fallback
  = Some (Text (if text is String _ _ then text
                else fallbackOrKey fallback key))
  ∧ t translations En key fallback = Some (Text text).
Proof.
  intros Hcovered Hmiss Hen. unfold t.
  rewrite bool_decide_eq_false_2 by done. rewrite Hmiss, Hen.
  by destruct text.
Qed.

(** X26. A key under which the current language has a text has no text of
    its own: for the key up to one of its dots, [t] answers with the
    fallback or, without one, with that shorter key. *)
Theorem t_of_a_prefix (translations : Language → Translation)
    (lang : Language) (prefix rest : string) (fallback : option string)
    (text : string) :
  ¬ Exists (λ part, part ∈ inheritedNames) (split "." prefix) →
  descend (translations lang) (split "." (prefix +:+ "." +:+ rest))
  = Some (Text text) →
  t translations lang prefix fallback
  = Some (Text (fallbackOrKey fallback prefix)).
Proof.
  intros Hcovered Hfound. unfold t.
  rewrite bool_decide_eq_false_2 by done.
  change (prefix +:+ "." +:+ rest)
    with (prefix +:+ String "." rest) in Hfound.
  rewrite split_app, descend_app in Hfound.
  destruct (descend (translations lang) (split "." prefix))
    as [[inner|entries]|]; cbn in Hfound; [|done..].
  apply descend_text_inv in Hfound as [Hnil _].
  by apply split_nonempty in Hnil.
Qed.

(** ** The history over the life of a session *)

Lemma begin_keeps_history (K : Constants) (task : Task) (snap s : AppState) :
  generationHistory (begin (taskAsync K task snap) s) = generationHistory s.
Proof.
  destruct task as [p|]; cbn [taskAsync].
  - destruct p; unfold_handler; case_on_fields snap; reflexivity.
  - unfold runAnalysis. case_on_fields snap; reflexivity.
Qed.

Lemma settle_appends (K : Constants) (task : Task) (snap s : AppState)
    (svc : Service) :
  generationHistory (settle svc (taskAsync K task snap) s)
  = generationHistory s
  ∨ ∃ item, consistentItem item
      ∧ generationHistory (settle svc (taskAsync K task snap) s)
        = appendHistory item (generationHistory s).
Proof.
  destruct task as [p|]; cbn [taskAsync].
  - destruct p; unfold_handler; case_on_fields snap;
      try (by left); case_response svc; try (by left);
      right; eexists; (split; [|reflexivity]); unfold consistentItem;
      cbn [mode creativeSubMode]; rewrite ?Heqa; by eauto.
  - unfold runAnalysis. case_on_fields snap; try (by left).
    left. case_response svc; [|reflexivity].
    unfold andThen.
    change (generationHistory (setIsAnalyzing false
             (setSuggestedPresetIds ?m ?x)))
      with (generationHistory x).
    by rewrite !(applySuggestion_frame _ _ _ _ generationHistory).
Qed.

Lemma select_keeps_history (item : HistoryItem) (s : AppState) :
  generationHistory (handleHistorySelect item s) = generationHistory s.
Proof. by destruct s, item as [i g src pr [|] [[|]|]]. Qed.

Lemma sessionStep_keeps_history_invariant (K : Constants) (σ σ' : Session) :
  sessionStep K σ σ' →
  (length (generationHistory (app σ)) ≤ 12)%nat
  ∧ Forall consistentItem (generationHistory (app σ)) →
  (length (generationHistory (app σ')) ≤ 12)%nat
  ∧ Forall consistentItem (generationHistory (app σ')).
Proof.
  intros Hstep [Hlen Hall].
  destruct Hstep as [task s runs|svc task snap s runs1 runs2|item s runs Hin
                    |u s runs Hu]; cbn [app] in *.
  - by rewrite begin_keeps_history.
  - destruct (settle_appends K task snap s svc) as [->|(item & Hitem & ->)];
      [done|].
    split; [apply length_appendHistory|].
    rewrite appendHistory_take. apply Forall_take. by constructor.
  - by rewrite select_keeps_history.
  - by rewrite Hu.
Qed.

Lemma session_history_invariant (K : Constants) (σ0 σ : Session) :
  generationHistory (app σ0) = [] →
  rtc (sessionStep K) σ0 σ →
  (length (generationHistory (app σ)) ≤ 12)%nat
  ∧ Forall consistentItem (generationHistory (app σ)).
Proof.
  intros Hempty. revert σ. apply rtc_ind_r.
  - rewrite Hempty. split; [cbn; lia|constructor].
  - intros σ σ' _ Hstep IH.
    by apply (sessionStep_keeps_history_invariant K σ σ').
Qed.

(** X27. Whatever happens in a session that began with an empty history, in
    whatever order runs are started and settle and with whatever
    answers, the history never holds more than 12 items, and each item
    names a creative sub-mode exactly when its mode is creative
    studio. *)
Theorem history_bounded_in_every_session (K : Constants) (σ0 σ : Session) :
  generationHistory (app σ0) = [] →
  rtc (sessionStep K) σ0 σ →
  (length (generationHistory (app σ)) ≤ 12)%nat
  ∧ ∀ item, item ∈ generationHistory (app σ) → consistentItem item.
Proof.
  intros Hempty Hrtc.
  destruct (session_history_invariant K σ0 σ Hempty Hrtc) as [Hlen Hall].
  split; [done|]. by apply Forall_forall.
Qed.

(** X28. In a session that began with an empty history, selecting any item
    the history holds makes the item's result the result of the current
    mode and the item's source the source of the current mode: the item
    of creative-studio mode without a sub-mode, which the selection
    would restore into the wrong fields, is never in the history. *)
Theorem offered_item_restores (K : Constants) (σ0 σ : Session)
    (item : HistoryItem) :
  generationHistory (app σ0) = [] →
  rtc (sessionStep K) σ0 σ →
  item ∈ generationHistory (app σ) →
  let back := handleHistorySelect item (app σ) in
  appMode back = mode item
  ∧ imageToUpscale back = Some (generated item)
  ∧ sourceImage back = Some (source item)
  ∧ match mode item with
    | CreativeStudio => creativeSubMode item = Some (creativeMode back)
    | DesignKit => creativeMode back = creativeMode (app σ)
    end.
Proof.
  intros Hempty Hrtc Hin back. subst back.
  destruct (session_history_invariant K σ0 σ Hempty Hrtc) as [_ Hall].
  rewrite Forall_forall in Hall. specialize (Hall item Hin).
  destruct (app σ), item as [i g src pr [|] [[|]|]];
    unfold consistentItem in Hall; cbn in Hall;
    try (by destruct Hall); by vm_compute.
Qed.

(** The lookup can return an object: a key that names a table in
    English and nothing in the current language. *)
Example t_returns_a_table :
  t sampleTranslations Ar "loader" None
  = Some (Table (list_to_map [("generating", Text "Generating...")])).
Proof. by vm_compute. Qed.

(** * The further properties at concrete inputs *)

Lemma createToggleHandler_wellFormed_witness :
  let presets := CAMERA_PRESETS sampleConstants in
  let sel := [sampleCamera "wide"; sampleCamera "macro"] in
  (findNone presets = Some (sampleCamera "none") ∧ wellFormedSelection sel)
  ∧ ∃ next, createToggleHandler presets (sampleCamera "wide") sel = Some next
            ∧ wellFormedSelection next ∧ (1 ≤ length next)%nat.
Proof.
  intros presets sel.
  assert (findNone presets = Some (sampleCamera "none")) as H1
    by reflexivity.
  assert (wellFormedSelection sel) as H2.
  { right. split_and!; [discriminate|by_evaluation..]. }
  split; [by split|].
  exact (createToggleHandler_wellFormed presets (sampleCamera "none")
           (sampleCamera "wide") sel H1 H2).
Defined.

Lemma toggle_flips_mark_witness :
  let presets := CAMERA_PRESETS sampleConstants in
  let sel := [sampleCamera "wide"; sampleCamera "macro"] in
  (findNone presets = Some (sampleCamera "none")
   ∧ id (sampleCamera "wide") ≠ "none")
  ∧ ∃ next, createToggleHandler presets (sampleCamera "wide") sel = Some next
      ∧ isSelected next (sampleCamera "wide")
        = negb (isSelected sel (sampleCamera "wide"))
      ∧ ∀ q, id q ≠ id (sampleCamera "wide") → id q ≠ "none" →
             isSelected next q = isSelected sel q.
Proof.
  intros presets sel.
  assert (findNone presets = Some (sampleCamera "none")) as H1
    by reflexivity.
  assert (id (sampleCamera "wide") ≠ "none") as H2 by discriminate.
  split; [by split|].
  exact (toggle_flips_mark presets (sampleCamera "none")
           (sampleCamera "wide") sel H1 H2).
Defined.


Lemma mockup_select_round_trip_witness :
  MOCKUP_PRESETS sampleConstants !! 0 = Some (samplePreset "none")
  ∧ (handleMockupSelect sampleConstants (samplePreset "billboard")
       [samplePreset "none"]
     ≫= handleMockupSelect sampleConstants (samplePreset "billboard"))
    = Some [samplePreset "none"].
Proof.
  split; [reflexivity|].
  exact (proj1 (mockup_select_round_trip sampleConstants
                  (samplePreset "none") (samplePreset "billboard") []
                  eq_refl)).
Defined.

Lemma magic_composite_click_twice_witness :
  let K := sampleConstants in
  let s := setSelectedCameras [sampleCamera "wide"] sampleState in
  (CAMERA_PRESETS K !! 0 = Some (sampleCamera "none")
   ∧ LIGHTING_PRESETS K !! 0 = Some (sampleLighting "none")
   ∧ MANIPULATION_PRESETS K !! 0 = Some (samplePreset "none")
   ∧ RETOUCH_PRESETS K !! 0 = Some (samplePreset "none")
   ∧ PEOPLE_RETOUCH_PRESETS K !! 0 = Some (samplePreset "none"))
  ∧ (selectedCameras <$> (magicCompositeClick K s ≫= magicCompositeClick K))
    = Some [sampleCamera "none"]
  ∧ (useMagicComposite <$> (magicCompositeClick K s ≫= magicCompositeClick K))
    = Some true.
Proof.
  intros K s. split; [by split_and!|].
  destruct (magic_composite_click_twice K s (sampleCamera "none")
              (sampleLighting "none") (samplePreset "none")
              (samplePreset "none") (samplePreset "none")
              eq_refl eq_refl eq_refl eq_refl eq_refl)
    as (s' & -> & Hflag & Hcam & _).
  cbn [fmap option_fmap option_map]. by rewrite Hflag, Hcam.
Defined.

Lemma busy_raised_then_lowered_witness :
  let snap := setPersonImage (Some (sampleImage "portrait")) sampleState in
  let svc := sampleService None ∅ in
  precondition SmartRetouch snap = true
  ∧ isGeneratingCreative (begin (handleSmartRetouch snap) snap) = true
  ∧ isGeneratingCreative (run svc (handleSmartRetouch snap) snap) = false
  ∧ generationStatusText (run svc (handleSmartRetouch snap) snap) = "".
Proof.
  intros snap svc. split; [reflexivity|].
  destruct (busy_raised_then_lowered sampleConstants SmartRetouch snap snap
              svc eq_refl) as (Hup & Hdown & _ & Htext).
  by split_and!.
Defined.

Lemma failed_run_outcome_witness :
  let snap :=
    setGeneratedImage (Some (sampleResult "render"))
      (setProductImage (Some (sampleImage "bottle")) sampleState) in
  let svc := sampleService None ∅ in
  let s' := run svc (handleDesignKitGeneration snap) snap in
  (imageAnswer svc (handler sampleConstants CompositeGeneration snap)
   = Some (Fulfilled None)
   ∧ ∀ r : GeneratedImage, Fulfilled None ≠ Fulfilled (Some r))
  ∧ generationHistory s' = generationHistory snap
  ∧ is_Some (error s')
  ∧ generatedImage s' = None.
Proof.
  intros snap svc s'.
  assert (∀ r : GeneratedImage,
            Fulfilled None ≠ Fulfilled (Some r)) as Hno by discriminate.
  split; [by split|].
  exact (failed_run_outcome sampleConstants CompositeGeneration snap snap
           svc (Fulfilled None) eq_refl Hno).
Defined.


Lemma analysis_failure_keeps_selections_witness :
  let snap :=
    setReferenceImage (Some (sampleImage "scene"))
      (setProductImage (Some (sampleImage "bottle")) sampleState) in
  let cur :=
    setSuggestedPresetIds {[ "camera" := ["wide"] ]}
      (setSelectedCameras [sampleCamera "wide"] snap) in
  let svc := rejectingService ThrownOther in
  let s' := run svc (runAnalysis sampleConstants snap) cur in
  (appMode snap = DesignKit
   ∧ productImage snap = Some (sampleImage "bottle")
   ∧ referenceImage snap = Some (sampleImage "scene")
   ∧ useMagicComposite snap = true
   ∧ respond svc _ (analyzeForCompositeSuggestions (sampleImage "bottle")
                      (sampleImage "scene"))
     = Rejected ThrownOther)
  ∧ selectedCameras s' = [sampleCamera "wide"]
  ∧ suggestedPresetIds s' = ∅.
Proof.
  intros snap cur svc s'. split; [by split_and!|].
  destruct (analysis_failure_keeps_selections sampleConstants snap cur svc
              (sampleImage "bottle") (sampleImage "scene") ThrownOther
              eq_refl eq_refl eq_refl eq_refl eq_refl)
    as ((Hcam & _) & _ & Hmap & _).
  split; [exact Hcam|exact Hmap].
Defined.

Lemma analysis_success_replaces_witness :
  let snap :=
    setReferenceImage (Some (sampleImage "scene"))
      (setProductImage (Some (sampleImage "bottle")) sampleState) in
  let suggestions : SuggestionMap := {[ "camera" := ["macro"; "wide"] ]} in
  let svc := sampleService None suggestions in
  let s' := run svc (runAnalysis sampleConstants snap) snap in
  (appMode snap = DesignKit
   ∧ productImage snap = Some (sampleImage "bottle")
   ∧ referenceImage snap = Some (sampleImage "scene")
   ∧ useMagicComposite snap = true
   ∧ respond svc _ (analyzeForCompositeSuggestions (sampleImage "bottle")
                      (sampleImage "scene"))
     = Fulfilled suggestions)
  ∧ replacedBy suggestions "camera" (CAMERA_PRESETS sampleConstants)
      (selectedCameras snap) (selectedCameras s')
  ∧ selectedCameras s' = [sampleCamera "wide"; sampleCamera "macro"]
  ∧ selectedLightings s' = selectedLightings snap.
Proof.
  intros snap suggestions svc s'. split; [by split_and!|].
  destruct (analysis_success_replaces sampleConstants snap snap svc
              (sampleImage "bottle") (sampleImage "scene") suggestions
              eq_refl eq_refl eq_refl eq_refl eq_refl)
    as (Hcam & _).
  split; [exact Hcam|]. by vm_compute.
Defined.

Lemma suggestion_keeps_wellFormed_witness :
  let suggestions : SuggestionMap := {[ "camera" := ["macro"; "wide"] ]} in
  let table := CAMERA_PRESETS sampleConstants in
  (suggestions !! "camera" = Some ["macro"; "wide"]
   ∧ NoDup (id <$> table)
   ∧ (∃ q, q ∈ table ∧ id q ∈ ["macro"; "wide"])
   ∧ ("none" ∈ ["macro"; "wide"] → ∀ i, i ∈ ["macro"; "wide"] → i = "none"))
  ∧ ∃ sel, applySuggestion suggestions "camera" table setSelectedCameras
           = setSelectedCameras sel
           ∧ wellFormedSelection sel.
Proof.
  intros suggestions table.
  assert (suggestions !! "camera" = Some ["macro"; "wide"]) as H1
    by reflexivity.
  assert (NoDup (id <$> table)) as H2 by by_evaluation.
  assert (∃ q, q ∈ table ∧ id q ∈ ["macro"; "wide"]) as H3.
  { exists (sampleCamera "wide"). split; [|by_evaluation].
    apply list_elem_of_further, list_elem_of_here. }
  assert ("none" ∈ ["macro"; "wide"] →
          ∀ i, i ∈ ["macro"; "wide"] → i = "none") as H4.
  { intros Hin. exfalso. revert Hin. by_evaluation. }
  split; [by split_and!|].
  exact (suggestion_keeps_wellFormed suggestions "camera" table
           setSelectedCameras ["macro"; "wide"] H1 H2 H3 H4).
Defined.

Lemma button_disabled_while_suspended_witness :
  let snap :=
    setCreativeMode Retouch
      (setAppMode CreativeStudio
         (setPersonImage (Some (sampleImage "portrait")) sampleState)) in
  precondition (onClick SmartRetouchButton) snap = true
  ∧ disabled SmartRetouchButton snap = false
  ∧ disabled SmartRetouchButton
      (begin (handler sampleConstants (onClick SmartRetouchButton) snap) snap)
    = true.
Proof.
  intros snap. split; [reflexivity|]. split; [reflexivity|].
  exact (button_disabled_while_suspended sampleConstants SmartRetouchButton
           snap snap eq_refl).
Defined.

Lemma enabled_button_passes_guard_witness :
  let s :=
    setCreativeMode Retouch
      (setAppMode CreativeStudio
         (setRetouchResultImage (Some (sampleResult "retouched"))
            (setPersonImage (Some (sampleImage "portrait")) sampleState))) in
  (rendered RetouchUpscaleButton s = true
   ∧ disabled RetouchUpscaleButton s = false
   ∧ isOnline s = true
   ∧ present (sourceImage s) = true)
  ∧ precondition (onClick RetouchUpscaleButton) s = true.
Proof.
  intros s. split; [by split_and!|].
  exact (enabled_button_passes_guard RetouchUpscaleButton s
           eq_refl eq_refl eq_refl eq_refl).
Defined.

Lemma overlay_shows_failure_witness :
  let snap :=
    setAppMode CreativeStudio
      (setIllustrationImage (Some (sampleImage "sketch")) sampleState) in
  let svc := sampleService None ∅ in
  let s' := run svc (handleGenerateIllustration sampleConstants snap) snap in
  (imageAnswer svc (handler sampleConstants IllustrationGeneration snap)
   = Some (Fulfilled None)
   ∧ isLoading snap = false ∧ isGeneratingCreative snap = false
   ∧ isGeneratingIllustration snap = false ∧ isVectorizing snap = false
   ∧ isUpscaling snap = None ∧ appMode snap = CreativeStudio)
  ∧ errorOverlay (setCreativeMode Retouch s')
    = Some "The AI could not generate an illustration. Please try a different style or image.".
Proof.
  intros snap svc s'. split; [by split_and!|].
  destruct (overlay_shows_failure sampleConstants IllustrationGeneration
              snap snap svc Retouch eq_refl eq_refl eq_refl eq_refl eq_refl
              eq_refl eq_refl) as (_ & _ & Hshown).
  exact Hshown.
Defined.

Lemma empty_message_shows_nothing_witness :
  let snap := setProductImage (Some (sampleImage "bottle")) sampleState in
  let svc := rejectingService (ThrownError "") in
  let s' := run svc (handleDesignKitGeneration snap) snap in
  (precondition CompositeGeneration snap = true
   ∧ (∀ A (call : ExternalCall A),
        respond svc A call = Rejected (ThrownError ""))
   ∧ appMode snap = DesignKit)
  ∧ error s' = Some "" ∧ errorOverlay s' = None.
Proof.
  intros snap svc s'.
  assert (∀ A (call : ExternalCall A),
            respond svc A call = Rejected (ThrownError "")) as Hrej
    by reflexivity.
  split; [by split_and!|].
  exact (empty_message_shows_nothing sampleConstants CompositeGeneration
           snap snap svc eq_refl Hrej eq_refl).
Defined.

Lemma overlapping_generations_witness :
  let snap := setProductImage (Some (sampleImage "bottle")) sampleState in
  let svc1 := sampleService (Some (sampleResult "first")) ∅ in
  let svc2 := sampleService (Some (sampleResult "second")) ∅ in
  let run1 := handleDesignKitGeneration snap in
  let both := begin run1 (begin run1 snap) in
  let mid := settle svc2 run1 both in
  let final := settle svc1 run1 mid in
  (productImage snap = Some (sampleImage "bottle")
   ∧ imageAnswer svc1 run1 = Some (Fulfilled (Some (sampleResult "first")))
   ∧ imageAnswer svc2 run1 = Some (Fulfilled (Some (sampleResult "second"))))
  ∧ isLoading mid = false
  ∧ generatedImage final = Some (sampleResult "first")
  ∧ (generated <$> generationHistory final)
    = [sampleResult "first"; sampleResult "second"].
Proof.
  intros snap svc1 svc2 run1 both mid final. split; [by split_and!|].
  destruct (overlapping_generations snap snap snap svc1 svc2
              (sampleImage "bottle") (sampleImage "bottle")
              (sampleResult "first") (sampleResult "second")
              eq_refl eq_refl eq_refl eq_refl)
    as (_ & (Hbusy & _) & Hlast & Hhist).
  split; [exact Hbusy|]. split; [exact Hlast|].
  exact (f_equal (fmap generated) Hhist).
Defined.

Lemma upscale_uses_captured_mode_witness :
  let snap :=
    setGeneratedImage (Some (sampleResult "render"))
      (setProductImage (Some (sampleImage "bottle")) sampleState) in
  let svc := sampleService (Some (sampleResult "render-hd")) ∅ in
  let task := handleUpscale Hd snap in
  let final := settle svc task (setAppMode CreativeStudio (begin task snap)) in
  (imageToUpscale snap = Some (sampleResult "render")
   ∧ sourceImage snap = Some (sampleImage "bottle")
   ∧ respond svc _ (upscaleImage (sampleResult "render") Hd)
     = Fulfilled (Some (sampleResult "render-hd")))
  ∧ appMode final = CreativeStudio
  ∧ generatedImage final = Some (sampleResult "render-hd")
  ∧ (mode <$> head (generationHistory final)) = Some DesignKit.
Proof.
  intros snap svc task final. split; [by split_and!|].
  destruct (upscale_uses_captured_mode Hd snap snap svc
              (sampleResult "render") (sampleResult "render-hd")
              (sampleImage "bottle") (setAppMode CreativeStudio)
              eq_refl eq_refl eq_refl) as (Hfield & Hmode & _).
  split; [reflexivity|]. split; [exact Hfield|exact Hmode].
Defined.

Lemma record_then_select_witness :
  let s := setPersonImage (Some (sampleImage "portrait")) sampleState in
  let svc := sampleService (Some (sampleResult "retouched")) ∅ in
  imageAnswer svc (handler sampleConstants SmartRetouch s)
  = Some (Fulfilled (Some (sampleResult "retouched")))
  ∧ ∃ item,
      head (generationHistory (run svc (handler sampleConstants SmartRetouch s) s))
      = Some item
      ∧ generated item = sampleResult "retouched"
      ∧ imageToUpscale (handleHistorySelect item sampleState)
        = Some (sampleResult "retouched")
      ∧ sourceImage (handleHistorySelect item sampleState)
        = Some (source item)
      ∧ appMode (handleHistorySelect item sampleState) = mode item.
Proof.
  intros s svc. split; [reflexivity|].
  exact (record_then_select sampleConstants SmartRetouch s sampleState svc
           (sampleResult "retouched") eq_refl).
Defined.

Lemma upscaled_illustration_select_prompt_witness :
  let s :=
    setIllustrationCustomPrompt "in watercolour"
      (setIllustrationResultImage (Some (sampleResult "drawing"))
         (setIllustrationImage (Some (sampleImage "sketch"))
            (setAppMode CreativeStudio sampleState))) in
  let svc := sampleService (Some (sampleResult "drawing-4k")) ∅ in
  (appMode s = CreativeStudio ∧ creativeMode s = Illustrate
   ∧ illustrationResultImage s = Some (sampleResult "drawing")
   ∧ illustrationImage s = Some (sampleImage "sketch")
   ∧ respond svc _ (upscaleImage (sampleResult "drawing") FourK)
     = Fulfilled (Some (sampleResult "drawing-4k")))
  ∧ ∃ item,
      head (generationHistory (run svc (handleUpscale FourK s) s)) = Some item
      ∧ illustrationCustomPrompt (handleHistorySelect item s)
        = "Upscaled to 4K".
Proof.
  intros s svc. split; [by split_and!|].
  exact (upscaled_illustration_select_prompt FourK s s svc
           (sampleResult "drawing") (sampleResult "drawing-4k")
           (sampleImage "sketch") eq_refl eq_refl eq_refl eq_refl eq_refl).
Defined.

Lemma prompt_suggestions_modal_witness :
  let snap := setProductImage (Some (sampleImage "bottle")) sampleState in
  let suggestion := {| title := "Studio"; suggestion_prompt := "on marble" |} in
  let svc :=
    {| respond := λ A call,
         match call in ExternalCall R return Settled R with
         | generateDesignKitPrompt _ _ => Fulfilled (Some [suggestion])
         | _ => Rejected ThrownOther
         end;
       toISOString := "2024-05-01T10:00:00.000Z" |} in
  let s' := run svc (handleGenerateDKPrompt snap) snap in
  (productImage snap = Some (sampleImage "bottle")
   ∧ respond svc _ (generateDesignKitPrompt (sampleImage "bottle")
                      (referenceImage snap))
     = Fulfilled (Some [suggestion]))
  ∧ shownDKPrompts s' = Some [suggestion]
  ∧ customPrompt (chooseDKPrompt "on marble" s') = "on marble"
  ∧ shownDKPrompts (chooseDKPrompt "on marble" s') = None.
Proof.
  intros snap suggestion svc s'. split; [by split_and!|].
  destruct (prompt_suggestions_modal snap snap svc (sampleImage "bottle")
              (Some [suggestion]) "on marble" eq_refl eq_refl)
    as (Hshown & _ & Hprompt & Hclosed & _).
  by split_and!.
Defined.


Lemma t_falls_back_to_english_witness :
  let key := "loader.generating" in
  (¬ Exists (λ part, part ∈ inheritedNames) (split "." key)
   ∧ descend (sampleTranslations Ar) (split "." key) = None
   ∧ descend (sampleTranslations En) (split "." key)
     = Some (Text "Generating..."))
  ∧ t sampleTranslations Ar key None = Some (Text "Generating...").
Proof.
  intros key.
  assert (¬ Exists (λ part, part ∈ inheritedNames) (split "." key)) as H1
    by by_evaluation.
  assert (descend (sampleTranslations Ar) (split "." key) = None) as H2
    by by vm_compute.
  assert (descend (sampleTranslations En) (split "." key)
          = Some (Text "Generating...")) as H3 by by vm_compute.
  split; [by split_and!|].
  exact (proj1 (t_falls_back_to_english sampleTranslations Ar key None
                  "Generating..." H1 H2 H3)).
Defined.

Lemma t_of_a_prefix_witness :
  (¬ Exists (λ part, part ∈ inheritedNames) (split "." "loader")
   ∧ descend (sampleTranslations En)
       (split "." ("loader" +:+ "." +:+ "generating"))
     = Some (Text "Generating..."))
  ∧ t sampleTranslations En "loader" (Some "Loading")
    = Some (Text "Loading").
Proof.
  assert (¬ Exists (λ part, part ∈ inheritedNames) (split "." "loader"))
    as H1 by by_evaluation.
  assert (descend (sampleTranslations En)
            (split "." ("loader" +:+ "." +:+ "generating"))
          = Some (Text "Generating...")) as H2 by by vm_compute.
  split; [by split|].
  exact (t_of_a_prefix sampleTranslations En "loader" "generating"
           (Some "Loading") "Generating..." H1 H2).
Defined.

(** A session with one composite generation, started and settled. *)
Lemma sample_session_reachable :
  let s0 := setProductImage (Some (sampleImage "bottle")) sampleState in
  let task := PipelineTask CompositeGeneration in
  let svc := sampleService (Some (sampleResult "render")) ∅ in
  rtc (sessionStep sampleConstants)
    {| app := s0; pending := [] |}
    {| app := run svc (handleDesignKitGeneration s0) s0; pending := [] |}.
Proof.
  intros s0 task svc.
  eapply rtc_l; [exact (start_run sampleConstants task s0 [])|].
  eapply rtc_l; [|apply rtc_refl].
  exact (settle_run sampleConstants svc task s0
           (begin (handleDesignKitGeneration s0) s0) [] []).
Defined.

Lemma history_bounded_in_every_session_witness :
  let s0 := setProductImage (Some (sampleImage "bottle")) sampleState in
  let svc := sampleService (Some (sampleResult "render")) ∅ in
  let σ0 := {| app := s0; pending := [] |} in
  let σ := {| app := run svc (handleDesignKitGeneration s0) s0;
              pending := [] |} in
  (generationHistory (app σ0) = [] ∧ rtc (sessionStep sampleConstants) σ0 σ)
  ∧ length (generationHistory (app σ)) = 1
  ∧ (length (generationHistory (app σ)) ≤ 12)%nat
  ∧ ∀ item, item ∈ generationHistory (app σ) → consistentItem item.
Proof.
  intros s0 svc σ0 σ.
  split; [split; [reflexivity|exact sample_session_reachable]|].
  split; [reflexivity|].
  exact (history_bounded_in_every_session sampleConstants σ0 σ eq_refl
           sample_session_reachable).
Defined.

Lemma offered_item_restores_witness :
  let s0 := setProductImage (Some (sampleImage "bottle")) sampleState in
  let svc := sampleService (Some (sampleResult "render")) ∅ in
  let σ0 := {| app := s0; pending := [] |} in
  let σ := {| app := run svc (handleDesignKitGeneration s0) s0;
              pending := [] |} in
  let item :=
    {| item_id := toISOString svc; generated := sampleResult "render";
       source := sampleImage "bottle"; prompt := ""; mode := DesignKit;
       creativeSubMode := None |} in
  (generationHistory (app σ0) = [] ∧ rtc (sessionStep sampleConstants) σ0 σ
   ∧ item ∈ generationHistory (app σ))
  ∧ generatedImage (handleHistorySelect item (app σ))
    = Some (sampleResult "render")
  ∧ productImage (handleHistorySelect item (app σ))
    = Some (sampleImage "bottle").
Proof.
  intros s0 svc σ0 σ item.
  assert (item ∈ generationHistory (app σ)) as Hin
    by apply list_elem_of_here.
  split; [split_and!; [reflexivity|exact sample_session_reachable|exact Hin]|].
  destruct (offered_item_restores sampleConstants σ0 σ item eq_refl
              sample_session_reachable Hin) as (_ & Hres & Hsrc & _).
  split; [exact Hres|exact Hsrc].
Defined.

(** ** The creative prompt suggestions and the suggested rows *)

(** X29. A creative suggestion run hides what the modal showed as soon
    as it begins. When it comes to a non-empty list the modal shows that
    list, and choosing a suggestion closes the modal and makes it the
    custom prompt of the illustration, unless the closure that handles
    the choice was made in the retouch sub-mode, in which case the
    prompt stays. When it comes to nothing the modal shows nothing and
    the creative error says so. *)
Theorem creative_suggestions_modal (snap cur : AppState) (svc : Service)
    (base : ImageFile) (answer : option (list PromptSuggestion))
    (chosen : string) :
  creativeMode snap = Illustrate →
  illustrationImage snap = Some base →
  respond svc _
    (generateIllustrationPrompts base (illustrationReferenceImage snap))
  = Fulfilled answer →
  let s1 := begin (handleGenerateCreativePrompts snap) cur in
  let s' := run svc (handleGenerateCreativePrompts snap) cur in
  shownCreativePrompts s1 = None
  ∧ match answer with
    | Some (first :: others) =>
        shownCreativePrompts s' = Some (first :: others)
        ∧ illustrationCustomPrompt (chooseCreativePrompt snap chosen s')
          = chosen
        ∧ shownCreativePrompts (chooseCreativePrompt snap chosen s') = None
        ∧ illustrationCustomPrompt
            (chooseCreativePrompt (setCreativeMode Retouch snap) chosen s')
          = illustrationCustomPrompt cur
    | _ =>
        shownCreativePrompts s' = None
        ∧ creativeError s'
          = Some "The AI could not generate any suggestions."
    end.
Proof.
  intros Hmode Hbase Hok s1 s'. subst s1 s'.
  unfold handleGenerateCreativePrompts. rewrite Hmode, Hbase.
  cbn [run begin andThen]. rewrite Hok.
  unfold chooseCreativePrompt. rewrite Hmode.
  unfold shownCreativePrompts.
  destruct answer as [[|first others]|]; repeat split; try reflexivity;
    match goal with
    | |- (if ?b then _ else _) = _ => destruct b; reflexivity
    end.
Qed.

(** X30. Right after a fulfilled analysis has replaced a selection, the
    presets of the table that [PresetSelector] marks as selected are
    those it marks as suggested, when it is given the ids the analysis
    returned for that category. *)
Theorem suggested_rows_are_selected {T : Type} `{Identified T}
    (suggestions : SuggestionMap) (key : string) (table : list T)
    (setSelected : list T → Update) (selected : AppState → list T)
    (s : AppState) (ids : list string) (q : T) :
  (∀ v x, selected (setSelected v x) = v) →
  suggestions !! key = Some ids →
  ids ≠ [] →
  q ∈ table →
  isSelected (selected (applySuggestion suggestions key table setSelected s))
    q
  = isSuggested ids q.
Proof.
  intros Hset Hkey Hne Hq. unfold applySuggestion. rewrite Hkey.
  destruct ids as [|first others]; [done|]. rewrite Hset.
  rewrite isSelected_ids. unfold isSuggested. apply bool_decide_ext.
  rewrite ids_filter_suggested, list_elem_of_filter.
  split; [tauto|]. intros Hin. split; [done|].
  by apply list_elem_of_fmap_2.
Qed.

Lemma creative_suggestions_modal_witness :
  let snap :=
    setAppMode CreativeStudio
      (setIllustrationImage (Some (sampleImage "sketch")) sampleState) in
  let cur :=
    setIsCreativePromptModalOpen true
      (setSuggestedCreativePrompts
         (Some [{| title := "Old"; suggestion_prompt := "old" |}]) snap) in
  let svc := sampleService None ∅ in
  let s' := run svc (handleGenerateCreativePrompts snap) cur in
  (creativeMode snap = Illustrate
   ∧ illustrationImage snap = Some (sampleImage "sketch")
   ∧ respond svc _
       (generateIllustrationPrompts (sampleImage "sketch")
          (illustrationReferenceImage snap))
     = Fulfilled None)
  ∧ is_Some (shownCreativePrompts cur)
  ∧ shownCreativePrompts s' = None
  ∧ creativeError s' = Some "The AI could not generate any suggestions.".
Proof.
  intros snap cur svc s'. split; [by split_and!|]. split; [by eexists|].
  destruct (creative_suggestions_modal snap cur svc (sampleImage "sketch")
              None "" eq_refl eq_refl eq_refl) as (_ & Hshown & Herr).
  split; [exact Hshown|exact Herr].
Defined.

Lemma suggested_rows_are_selected_witness :
  let suggestions : SuggestionMap := {[ "camera" := ["macro"] ]} in
  let table := CAMERA_PRESETS sampleConstants in
  let s' :=
    applySuggestion suggestions "camera" table setSelectedCameras sampleState in
  ((∀ v x, selectedCameras (setSelectedCameras v x) = v)
   ∧ suggestions !! "camera" = Some ["macro"]
   ∧ ["macro"] ≠ []
   ∧ sampleCamera "wide" ∈ table)
  ∧ isSelected (selectedCameras s') (sampleCamera "wide") = false
  ∧ isSuggested ["macro"] (sampleCamera "wide") = false.
Proof.
  intros suggestions table s'.
  assert (∀ v x, selectedCameras (setSelectedCameras v x) = v) as H1
    by reflexivity.
  assert (suggestions !! "camera" = Some ["macro"]) as H2 by reflexivity.
  assert (["macro"] ≠ []) as H3 by discriminate.
  assert (sampleCamera "wide" ∈ table) as H4
    by apply list_elem_of_further, list_elem_of_here.
  split; [by split_and!|].
  pose proof (suggested_rows_are_selected suggestions "camera" table
                setSelectedCameras selectedCameras sampleState ["macro"]
                (sampleCamera "wide") H1 H2 H3 H4) as Hrow.
  split; [|by vm_compute]. etrans; [exact Hrow|by vm_compute].
Defined.
